(** * Energy Advisor backend: a shallow embedding of
      [backend/energy_advisor_backend.py]

    The climate analytics pipeline (zone resolution, the cached forecast
    fetch, the energy metrics, the advisory text and the two HTTP
    operations that fetch a forecast) is embedded as executable functions.

    Modelling conventions.
    - A Python [float] is an exact rational or [NaN]; [round(x, 1)] rounds
      to the nearest tenth, ties to the even tenth.  This is arithmetic
      without rounding error and without overflow: statements that hold
      only of it are not made, and where binary64 decides, the operations
      of [Binary64] are the ones of the IEEE 754 double format.
    - A string is the byte string of its UTF-8 encoding.  [str.lower] is
      exact as far as the code uses it, which is to look the result up
      among ASCII names; [str.upper], [str.title] and [str.strip] act on
      ASCII.
    - A calendar date is its day ordinal, so [+ timedelta(days=h)] is [+ h];
      the clock is read where the code reads it.
    - Objects that the code shares and mutates (the data frames held by the
      [lru_cache]) live in an object store and are passed by reference.
    - The network services (forecast provider, text generation) and the
      chart renderer are oracles of a [World]. *)

From Stdlib Require Import ZArith QArith Qround Qminmax Qabs List String Ascii
  DecimalString Bool Sorted Lia Lqa.
From Stdlib Require SpecFloat.
Import ListNotations.

Local Open Scope Z_scope.
Local Open Scope string_scope.

(** ** Strings *)

Module Str.

Definition lower_ascii (c : ascii) : ascii :=
  let n := nat_of_ascii c in
  if andb (Nat.leb 65 n) (Nat.leb n 90) then ascii_of_nat (n + 32) else c.

(** [str.lower] on the UTF-8 bytes of a string, for what the code asks of
    it: whether the lower-cased string is a key of a table of ASCII names.
    The ASCII letters are lower-cased, and so is the Kelvin sign U+212A
    (the bytes E2 84 AA), the one character outside ASCII whose lower case
    is an ASCII string, "k".  Every other character outside ASCII is left
    as it is; its lower case has a character outside ASCII too, so it is
    no part of an ASCII name either way. *)
Fixpoint lower (s : string) : string :=
  match s with
  | EmptyString => EmptyString
  | String c r =>
      match r with
      | String c1 (String c2 r') =>
          if Ascii.eqb c "226" && Ascii.eqb c1 "132" && Ascii.eqb c2 "170"
          then String "k" (lower r')
          else String (lower_ascii c) (lower r)
      | _ => String (lower_ascii c) (lower r)
      end
  end.

Definition upper_ascii (c : ascii) : ascii :=
  let n := nat_of_ascii c in
  if andb (Nat.leb 97 n) (Nat.leb n 122) then ascii_of_nat (n - 32) else c.

Definition is_letter (c : ascii) : bool :=
  let n := nat_of_ascii c in
  orb (andb (Nat.leb 65 n) (Nat.leb n 90)) (andb (Nat.leb 97 n) (Nat.leb n 122)).

Fixpoint upper (s : string) : string :=
  match s with
  | EmptyString => EmptyString
  | String c r => String (upper_ascii c) (upper r)
  end.

(** [str.title]: a letter that follows a letter is lower-cased, any other
    letter is upper-cased. *)
Fixpoint title_from (after_letter : bool) (s : string) : string :=
  match s with
  | EmptyString => EmptyString
  | String c r =>
      if is_letter c
      then String (if after_letter then lower_ascii c else upper_ascii c)
                  (title_from true r)
      else String c (title_from false r)
  end.

Definition title (s : string) : string := title_from false s.

Definition nl : string := String "010"%char EmptyString.

Definition lines (l : list string) : string := String.concat nl l.

(** [str(n)] for an [int] *)
Definition of_Z (n : Z) : string := NilZero.string_of_int (Z.to_int n).

(** [x or default] on an optional string: [None] and the empty string are
    falsy. *)
Definition or_default (x : option string) (d : string) : string :=
  match x with
  | None => d
  | Some EmptyString => d
  | Some s => s
  end.

(** [repr] of a plain string, as [str(KeyError(k))] shows the key. *)
Definition quote (s : string) : string := "'" ++ s ++ "'".

Fixpoint mem (s : string) (l : list string) : bool :=
  match l with
  | [] => false
  | x :: r => if String.eqb s x then true else mem s r
  end.

End Str.

(** ** Floats *)

Inductive pyfloat : Type :=
| NaN
| Fin (q : Q).

Module Float.

Definition is_nan (x : pyfloat) : bool :=
  match x with NaN => true | Fin _ => false end.

(** Nearest integer, ties to even. *)
Definition round_half_even (q : Q) : Z :=
  let n := Qfloor q in
  match Qcompare (q - inject_Z n) (1 # 2) with
  | Lt => n
  | Gt => n + 1
  | Eq => if Z.even n then n else n + 1
  end.

Definition round1q (q : Q) : Q :=
  Qred (inject_Z (round_half_even (q * 10)) / 10).

(** [round(x, 1)] *)
Definition round1 (x : pyfloat) : pyfloat :=
  match x with
  | NaN => NaN
  | Fin q => Fin (round1q q)
  end.

(** Comparisons: every comparison with [NaN] is false. *)
Definition gt (x : pyfloat) (c : Q) : bool :=
  match x with NaN => false | Fin q => negb (Qle_bool q c) end.

Definition le (x : pyfloat) (c : Q) : bool :=
  match x with NaN => false | Fin q => Qle_bool q c end.

Definition lt (x : pyfloat) (c : Q) : bool :=
  match x with NaN => false | Fin q => negb (Qle_bool c q) end.

Definition map1 (f : Q -> Q) (x : pyfloat) : pyfloat :=
  match x with NaN => NaN | Fin q => Fin (f q) end.

Definition map2 (f : Q -> Q -> Q) (x y : pyfloat) : pyfloat :=
  match x, y with
  | Fin a, Fin b => Fin (f a b)
  | _, _ => NaN
  end.

(** How an f-string shows a float that [round(x, 1)] produced: the integer
    part, a point and one digit.  (Exponent forms and the sign of a zero
    are not modelled.) *)
Definition str (x : pyfloat) : string :=
  match x with
  | NaN => "nan"
  | Fin q =>
      let t := Qfloor (Qabs q * 10) in
      (if Qle_bool 0 q then "" else "-")
        ++ Str.of_Z (t / 10) ++ "." ++ Str.of_Z (t mod 10)
  end.

End Float.

(** ** Series and data frames (the part of pandas the backend uses) *)

Definition Series := list pyfloat.

Module Ser.

Definition sub_scalar (s : Series) (c : Q) : Series :=
  map (Float.map1 (fun q => q - c)%Q) s.

Definition div_scalar (s : Series) (c : Q) : Series :=
  map (Float.map1 (fun q => q / c)%Q) s.

Definition rsub_scalar (c : Q) (s : Series) : Series :=
  map (Float.map1 (fun q => c - q)%Q) s.

(** [s.clip(lower=c)]; a NaN stays a NaN. *)
Definition clip_lower (s : Series) (c : Q) : Series :=
  map (Float.map1 (fun q => Qmax q c)) s.

Fixpoint mul (a b : Series) : Series :=
  match a, b with
  | x :: a', y :: b' => Float.map2 Qmult x y :: mul a' b'
  | _, _ => []
  end.

(** The values that are not NaN: reductions skip the others
    ([skipna=True]). *)
Fixpoint present (s : Series) : list Q :=
  match s with
  | [] => []
  | NaN :: r => present r
  | Fin q :: r => q :: present r
  end.

Definition qsum (l : list Q) : Q := fold_left Qplus l 0%Q.

(** [s.sum()]: the sum of the present values, 0.0 when there is none. *)
Definition sum (s : Series) : pyfloat := Fin (qsum (present s)).

(** [s.mean()]: NaN when no value is present. *)
Definition mean (s : Series) : pyfloat :=
  match present s with
  | [] => NaN
  | l => Fin (qsum l / inject_Z (Z.of_nat (List.length l)))
  end.

Definition max (s : Series) : pyfloat :=
  match present s with
  | [] => NaN
  | q :: l => Fin (fold_left Qmax l q)
  end.

Definition min (s : Series) : pyfloat :=
  match present s with
  | [] => NaN
  | q :: l => Fin (fold_left Qmin l q)
  end.

Definition gt (s : Series) (c : Q) : list bool := map (fun x => Float.gt x c) s.
Definition le (s : Series) (c : Q) : list bool := map (fun x => Float.le x c) s.
Definition lt (s : Series) (c : Q) : list bool := map (fun x => Float.lt x c) s.

Fixpoint band (a b : list bool) : list bool :=
  match a, b with
  | x :: a', y :: b' => andb x y :: band a' b'
  | _, _ => []
  end.

(** [int(mask.sum())] *)
Definition count (m : list bool) : Z := Z.of_nat (List.length (filter (fun b => b) m)).

End Ser.

(** A data frame: the [Date] column and the numeric columns, in column
    order.  All columns have the same length by construction. *)
Record DataFrame : Type := mkDataFrame {
  Date : list Z;
  cols : list (string * Series)
}.

(** ** Exceptions *)

Inductive exn_kind : Type :=
| ValueError | KeyError | TypeError | AttributeError | HTTPError | BadRequest
| GenerationError | RenderError.

Record exn : Type := mkExn { kind : exn_kind; message : string }.

Inductive result (A : Type) : Type :=
| Ok (a : A)
| Raise (e : exn).
Arguments Ok {A} a.
Arguments Raise {A} e.

Module DF.

Fixpoint lookup (name : string) (l : list (string * Series)) : option Series :=
  match l with
  | [] => None
  | (n, c) :: r => if String.eqb name n then Some c else lookup name r
  end.

(** [df[name] = c]: an existing column is replaced in place, a new one is
    appended as the last column. *)
Fixpoint assign (name : string) (c : Series) (l : list (string * Series))
  : list (string * Series) :=
  match l with
  | [] => [(name, c)]
  | (n, c0) :: r =>
      if String.eqb name n then (n, c) :: r else (n, c0) :: assign name c r
  end.

Definition columns (df : DataFrame) : list string :=
  "Date"%string :: map fst (cols df).

Definition nrows (df : DataFrame) : nat := List.length (Date df).

(** Code that works on one frame in place: it may raise, and it leaves a
    (possibly changed) frame behind either way. *)
Definition M (A : Type) : Type := DataFrame -> result A * DataFrame.

Definition ret {A} (a : A) : M A := fun df => (Ok a, df).

Definition bind {A B} (m : M A) (f : A -> M B) : M B :=
  fun df =>
    match m df with
    | (Ok a, df') => f a df'
    | (Raise e, df') => (Raise e, df')
    end.

(** [df[name]] *)
Definition getitem (name : string) : M Series :=
  fun df =>
    match lookup name (cols df) with
    | Some c => (Ok c, df)
    | None => (Raise (mkExn KeyError (Str.quote name)), df)
    end.

(** [df[name] = c] *)
Definition setitem (name : string) (c : Series) : M unit :=
  fun df => (Ok tt, mkDataFrame (Date df) (assign name c (cols df))).

End DF.

Declare Scope df_scope.
Delimit Scope df_scope with df.
Notation "x <- m ;; k" := (DF.bind m (fun x => k))
  (at level 61, m at next level, right associativity) : df_scope.
Notation "m ;;; k" := (DF.bind m (fun _ => k))
  (at level 61, right associativity) : df_scope.

(** ** Constants *)

Definition TEMP_COMFORT : Q := 24.
Definition TEMP_EXTREME : Q := 35.
Definition DEFAULT_TIMEZONE : string := "auto".

Record Coords : Type := mkCoords { lat : Q; lon : Q; tz : string }.

Definition ZONE_COORDINATES : list (string * Coords) :=
  [ ("new-york"%string, mkCoords 40.7128 (-74.0060) "America/New_York");
    ("los-angeles"%string, mkCoords 34.0522 (-118.2437) "America/Los_Angeles");
    ("chicago"%string, mkCoords 41.8781 (-87.6298) "America/Chicago");
    ("miami"%string, mkCoords 25.7617 (-80.1918) "America/New_York");
    ("seattle"%string, mkCoords 47.6062 (-122.3321) "America/Los_Angeles") ].

Fixpoint zone_lookup (z : string) (l : list (string * Coords)) : option Coords :=
  match l with
  | [] => None
  | (n, c) :: r => if String.eqb z n then Some c else zone_lookup z r
  end.

(** [z in ZONE_COORDINATES] *)
Definition zone_known (z : string) : bool :=
  match zone_lookup z ZONE_COORDINATES with Some _ => true | None => false end.

(** ** The metrics engine *)

Record EnergyMetrics : Type := mkMetrics {
  avg_temp : pyfloat;
  max_temp : pyfloat;
  min_temp : pyfloat;
  cdd_total : pyfloat;
  extreme_heat_days : Z;
  comfortable_days : Z;
  avg_radiation : pyfloat;
  avg_solar_potential : pyfloat;
  optimal_solar_days : Z;
  avg_humidity : pyfloat;
  high_demand_days : Z
}.

Section Metrics.
Local Open Scope df_scope.
Local Open Scope string_scope.

(** [calculate_energy_metrics(df)]: the statements in source order.  The
    two helper columns are written into the frame that was passed in. *)
Definition calculate_energy_metrics : DF.M EnergyMetrics :=
  (* Temperature *)
  a1 <- DF.getitem "Avg_Temp" ;;
  let m_avg_temp := Float.round1 (Ser.mean a1) in
  x1 <- DF.getitem "Max_Temp" ;;
  let m_max_temp := Float.round1 (Ser.max x1) in
  a2 <- DF.getitem "Avg_Temp" ;;
  let m_min_temp := Float.round1 (Ser.min a2) in
  (* Cooling Degree Days *)
  a3 <- DF.getitem "Avg_Temp" ;;
  DF.setitem "CDD" (Ser.clip_lower (Ser.sub_scalar a3 TEMP_COMFORT) 0) ;;;
  cdd <- DF.getitem "CDD" ;;
  let m_cdd_total := Float.round1 (Ser.sum cdd) in
  (* Critical days *)
  x2 <- DF.getitem "Max_Temp" ;;
  let m_extreme := Ser.count (Ser.gt x2 TEMP_EXTREME) in
  x3 <- DF.getitem "Max_Temp" ;;
  let m_comfortable := Ser.count (Ser.le x3 TEMP_COMFORT) in
  (* Solar potential *)
  r1 <- DF.getitem "Solar_Radiation" ;;
  c1 <- DF.getitem "Cloud_Cover" ;;
  DF.setitem "Solar_Potential"
    (Ser.mul r1 (Ser.rsub_scalar 1 (Ser.div_scalar c1 100))) ;;;
  r2 <- DF.getitem "Solar_Radiation" ;;
  let m_avg_radiation := Float.round1 (Ser.mean r2) in
  sp <- DF.getitem "Solar_Potential" ;;
  let m_avg_solar := Float.round1 (Ser.mean sp) in
  c2 <- DF.getitem "Cloud_Cover" ;;
  let m_optimal := Ser.count (Ser.lt c2 40) in
  (* Humidity *)
  h1 <- DF.getitem "Relative_Humidity" ;;
  let m_avg_humidity := Float.round1 (Ser.mean h1) in
  (* High energy demand days *)
  x4 <- DF.getitem "Max_Temp" ;;
  h2 <- DF.getitem "Relative_Humidity" ;;
  let m_high := Ser.count (Ser.band (Ser.gt x4 32) (Ser.gt h2 60)) in
  DF.ret (mkMetrics m_avg_temp m_max_temp m_min_temp m_cdd_total
            m_extreme m_comfortable m_avg_radiation m_avg_solar
            m_optimal m_avg_humidity m_high).

End Metrics.

(** ** The outside world and the program state *)

(** What [requests.get] is asked for: the [params] of the forecast call. *)
Record ForecastRequest : Type := mkRequest {
  latitude : Q;
  longitude : Q;
  start_date : Z;
  end_date : Z;
  models : string;
  daily : list string;
  timezone : string
}.

(** The [daily] object of the provider's JSON: the [time] array when it is
    there, and the numeric arrays by name.  The arrays are arrays of
    floating-point numbers and nulls, of which pandas makes float64
    columns, a [null] entry reading as NaN.  The column types that pandas
    gives other arrays are not modelled: an array of nothing but nulls is
    an object column there, on which the arithmetic of the metrics raises,
    and an array of nothing but whole numbers is an int64 column, whose
    extremes Flask cannot serialize.  The statements that depend on it say
    that every column holds a number. *)
Record Daily : Type := mkDaily {
  time : option (list Z);
  arrays : list (string * Series)
}.

Inductive ProviderResponse : Type :=
| HttpFailure (msg : string)           (* the call or [raise_for_status] raises *)
| Payload (d : option Daily).          (* the JSON body; [None]: no 'daily' key *)

Record World : Type := mkWorld {
  today : Z;                           (* [datetime.now()] on line 76, as a day ordinal *)
  today_again : Z;                     (* [datetime.now()] on line 77: the clock is read anew *)
  now_iso : string;                    (* [datetime.now().isoformat()] *)
  now_ymd : string;                    (* [datetime.now().strftime('%Y%m%d')] *)
  provider : ForecastRequest -> ProviderResponse;
  generate_content : string -> result string;
  savefig : DataFrame -> string -> result (string * string)
}.

(** The arguments of [get_climate_data], which are the cache key. *)
Definition Key : Type := (string * Z * option Q * option Q * option string)%type.

Definition ref := nat.

Record State : Type := mkState {
  heap : list DataFrame;               (* the frames, by reference *)
  cache : list (Key * ref);            (* [lru_cache]: most recently used first *)
  fetch_log : list ForecastRequest;    (* forecast calls made, latest first *)
  gen_log : list string                (* prompts sent, latest first *)
}.

Definition initial : State := mkState [] [] [] [].

Definition fetch_count (s : State) : nat := List.length (fetch_log s).
Definition gen_count (s : State) : nat := List.length (gen_log s).

(** Stateful code that may raise. *)
Definition P (A : Type) : Type := State -> result A * State.

Module Prog.

Definition ret {A} (a : A) : P A := fun s => (Ok a, s).

Definition raise {A} (e : exn) : P A := fun s => (Raise e, s).

Definition bind {A B} (m : P A) (f : A -> P B) : P B :=
  fun s =>
    match m s with
    | (Ok a, s') => f a s'
    | (Raise e, s') => (Raise e, s')
    end.

Definition lift {A} (r : result A) : P A := fun s => (r, s).

(** [try: m  except Exception as e: h e] *)
Definition try_except {A} (m : P A) (h : exn -> P A) : P A :=
  fun s =>
    match m s with
    | (Ok a, s') => (Ok a, s')
    | (Raise e, s') => h e s'
    end.

Fixpoint update {A} (n : nat) (a : A) (l : list A) : list A :=
  match l, n with
  | [], _ => []
  | _ :: r, O => a :: r
  | x :: r, S n' => x :: update n' a r
  end.

(** Run frame code on the object a reference points to. *)
Definition on_frame {A} (r : ref) (op : DF.M A) : P A :=
  fun s =>
    match nth_error (heap s) r with
    | None => (Raise (mkExn TypeError "dangling reference"), s)
    | Some df =>
        let (res, df') := op df in
        (res, mkState (update r df' (heap s)) (cache s) (fetch_log s) (gen_log s))
    end.

(** Read the object a reference points to. *)
Definition deref (r : ref) : P DataFrame := on_frame r (fun df => (Ok df, df)).

(** A new object. *)
Definition alloc (df : DataFrame) : P ref :=
  fun s =>
    (Ok (List.length (heap s)),
     mkState (heap s ++ [df])%list (cache s) (fetch_log s) (gen_log s)).

End Prog.

Declare Scope prog_scope.
Delimit Scope prog_scope with prog.
Notation "x <- m ;; k" := (Prog.bind m (fun x => k))
  (at level 61, m at next level, right associativity) : prog_scope.
Notation "m ;;; k" := (Prog.bind m (fun _ => k))
  (at level 61, right associativity) : prog_scope.

(** ** [functools.lru_cache(maxsize=100)] *)

Module Lru.

Definition maxsize : nat := 100.

Definition opt_eqb {A} (eqb : A -> A -> bool) (x y : option A) : bool :=
  match x, y with
  | None, None => true
  | Some a, Some b => eqb a b
  | _, _ => false
  end.

(** Equality of argument tuples, as the cache's dictionary compares keys. *)
Definition key_eqb (a b : Key) : bool :=
  let '(z1, d1, la1, lo1, t1) := a in
  let '(z2, d2, la2, lo2, t2) := b in
  String.eqb z1 z2 && Z.eqb d1 d2 && opt_eqb Qeq_bool la1 la2
  && opt_eqb Qeq_bool lo1 lo2 && opt_eqb String.eqb t1 t2.

Fixpoint find (k : Key) (c : list (Key * ref)) : option ref :=
  match c with
  | [] => None
  | (k', r) :: c' => if key_eqb k k' then Some r else find k c'
  end.

Fixpoint remove (k : Key) (c : list (Key * ref)) : list (Key * ref) :=
  match c with
  | [] => []
  | (k', r) :: c' => if key_eqb k k' then c' else (k', r) :: remove k c'
  end.

(** A hit makes the entry the most recently used one. *)
Definition touch (k : Key) (r : ref) (c : list (Key * ref)) : list (Key * ref) :=
  (k, r) :: remove k c.

(** A new result is stored as the most recently used entry; when the cache
    is full the least recently used entry, the last one, makes room. *)
Definition store (k : Key) (r : ref) (c : list (Key * ref)) : list (Key * ref) :=
  (k, r) :: (if Nat.leb maxsize (List.length c) then removelast c else c).

(** The wrapper the decorator puts around a function of the key.  A call
    that raises stores nothing. *)
Definition cached (f : Key -> P DataFrame) (k : Key) : P ref :=
  fun s =>
    match find k (cache s) with
    | Some r => (Ok r, mkState (heap s) (touch k r (cache s)) (fetch_log s) (gen_log s))
    | None =>
        match f k s with
        | (Raise e, s1) => (Raise e, s1)
        | (Ok df, s1) =>
            match Prog.alloc df s1 with
            | (Ok r, s2) =>
                (Ok r, mkState (heap s2) (store k r (cache s2)) (fetch_log s2) (gen_log s2))
            | (Raise e, s2) => (Raise e, s2)
            end
        end
    end.

End Lru.

(** ** The forecast fetcher *)

(** Lines 67-73: explicit coordinates win, otherwise the catalog is looked
    up under the lower-cased name. *)
Definition resolve_coords (zone : string) (lat lon : option Q) (tz : option string)
  : result Coords :=
  match lat, lon with
  | Some la, Some lo => Ok (mkCoords la lo (Str.or_default tz DEFAULT_TIMEZONE))
  | _, _ =>
      match zone_lookup (Str.lower zone) ZONE_COORDINATES with
      | Some c => Ok c
      | None =>
          Raise (mkExn ValueError
                   ("Zone '" ++ zone ++ "' not available and no coordinates provided."))
      end
  end.

Definition DAILY_FIELDS : list string :=
  [ "temperature_2m_mean"; "temperature_2m_max"; "relative_humidity_2m_mean";
    "shortwave_radiation_sum"; "cloud_cover_mean"; "wind_speed_10m_mean" ].

(** Lines 75-95.  The clock is read once for each of the two dates. *)
Definition build_params (w : World) (coords : Coords) (days_ahead : Z)
  : ForecastRequest :=
  let start_date := today w in
  let end_date := today_again w + days_ahead in
  mkRequest (lat coords) (lon coords) start_date end_date
            "MRI_AGCM3_2_S" DAILY_FIELDS (tz coords).

Definition all_equal (l : list nat) : bool :=
  match l with
  | [] => true
  | n :: r => forallb (Nat.eqb n) r
  end.

(** [pd.DataFrame(data['daily'])] then [df['time']]: the arrays must have
    one length, and the [time] array must be there.  Nothing else about the
    payload is checked. *)
Definition frame_of_daily (d : Daily) : result DataFrame :=
  let lens :=
    ((match time d with Some t => [List.length t] | None => [] end)
       ++ map (fun c => List.length (snd c)) (arrays d))%list in
  if all_equal lens then
    match time d with
    | Some t => Ok (mkDataFrame t (arrays d))
    | None => Raise (mkExn KeyError (Str.quote "time"))
    end
  else Raise (mkExn ValueError "All arrays must be of the same length").

Definition RENAME : list (string * string) :=
  [ ("temperature_2m_mean", "Avg_Temp");
    ("temperature_2m_max", "Max_Temp");
    ("relative_humidity_2m_mean", "Relative_Humidity");
    ("shortwave_radiation_sum", "Solar_Radiation");
    ("cloud_cover_mean", "Cloud_Cover");
    ("wind_speed_10m_mean", "Wind_Speed") ].

Fixpoint rename_one (n : string) (t : list (string * string)) : string :=
  match t with
  | [] => n
  | (old, new) :: r => if String.eqb n old then new else rename_one n r
  end.

(** [df.rename(columns=..., inplace=True)]: names outside the table, and
    table entries with no column, are left alone. *)
Definition rename_columns (df : DataFrame) : DataFrame :=
  mkDataFrame (Date df) (map (fun c => (rename_one (fst c) RENAME, snd c)) (cols df)).

Definition log_fetch (q : ForecastRequest) : P unit :=
  fun s => (Ok tt, mkState (heap s) (cache s) (q :: fetch_log s) (gen_log s)).

Section Fetcher.
Local Open Scope prog_scope.

(** The body of [get_climate_data] (what runs on a cache miss). *)
Definition get_climate_data_body (w : World) (k : Key) : P DataFrame :=
  let '(zone, days_ahead, lat, lon, tz) := k in
  coords <- Prog.lift (resolve_coords zone lat lon tz) ;;
  let params := build_params w coords days_ahead in
  log_fetch params ;;;
  match provider w params with
  | HttpFailure msg => Prog.raise (mkExn HTTPError msg)
  | Payload None => Prog.raise (mkExn KeyError (Str.quote "daily"))
  | Payload (Some d) =>
      df <- Prog.lift (frame_of_daily d) ;;
      Prog.ret (rename_columns df)
  end.

(** [get_climate_data], as decorated. *)
Definition get_climate_data (w : World) (zone : string) (days_ahead : Z)
    (lat lon : option Q) (tz : option string) : P ref :=
  Lru.cached (get_climate_data_body w) (zone, days_ahead, lat, lon, tz).

End Fetcher.

(** ** The advisory generator *)

Definition user_context : list (string * string) :=
  [ ("home",
     Str.lines
       [ "";
         "        Focus on practical actions for families:";
         "        - Efficient use of air conditioning and fans";
         "        - Taking advantage of natural light and ventilation";
         "        - Consideration of residential solar panels";
         "        - Adjusting appliance usage schedules";
         "        " ]);
    ("industry",
     Str.lines
       [ "";
         "        Focus on industrial optimization:";
         "        - Load shifting to off-peak hours";
         "        - Predictive maintenance of HVAC systems";
         "        - Cogeneration and energy storage";
         "        - Zone-based climate control automation";
         "        " ]) ].

Fixpoint context_lookup (u : string) (l : list (string * string)) : option string :=
  match l with
  | [] => None
  | (n, c) :: r => if String.eqb u n then Some c else context_lookup u r
  end.

(** The f-string of lines 179-220, given the guidance block. *)
Definition prompt_text (metrics : EnergyMetrics) (user_type zone : string)
    (days : Z) (context : string) : string :=
  Str.lines
    [ "";
      "You are a certified energy advisor. Analyze this climate data for "
        ++ Str.title zone ++ " for the next " ++ Str.of_Z days
        ++ " days and generate ONE energy saving suggestion.";
      "";
      "**USER TYPE:** " ++ Str.upper user_type;
      "**ZONE:** " ++ Str.title zone;
      "**PERIOD:** " ++ Str.of_Z days ++ " days";
      "";
      "**CLIMATE DATA:**";
      "- Average temperature: " ++ Float.str (avg_temp metrics) ++ "°C";
      "- Maximum expected temperature: " ++ Float.str (max_temp metrics) ++ "°C";
      "- Extreme heat days (>35°C): " ++ Str.of_Z (extreme_heat_days metrics);
      "- Cooling degree days (CDD): " ++ Float.str (cdd_total metrics);
      "- Average solar radiation: " ++ Float.str (avg_radiation metrics) ++ " MJ/m²";
      "- Effective solar potential: " ++ Float.str (avg_solar_potential metrics)
        ++ " MJ/m²";
      "- Optimal solar days: " ++ Str.of_Z (optimal_solar_days metrics);
      "- High demand days: " ++ Str.of_Z (high_demand_days metrics);
      "- Average relative humidity: " ++ Float.str (avg_humidity metrics) ++ "%";
      "";
      context;
      "";
      "**RESPONSE FORMAT (STRICTLY):**";
      "";
      "### [Impactful Suggestion Title]";
      "";
      "**Analysis:**";
      "[2-3 sentences linking climate data to specific energy impact]";
      "";
      "**Recommended Action:**";
      "[Clear and specific description of WHAT to do and HOW to implement it]";
      "";
      "**Estimated Savings:**";
      "[Approximate percentage or amount in USD, with justification based on data]";
      "";
      "**Priority:** [High/Medium/Low based on impact vs effort]";
      "";
      "---";
      "IMPORTANT: ";
      "- Maximum 200 words total";
      "- Use the numerical data provided";
      "- Be specific with measurable actions";
      "- Don't invent data I didn't give you";
      "" ].

(** The string of line 227, for the exception text [err]. *)
Definition fallback_text (err : string) : string :=
  "⚠️ Error generating suggestion: " ++ err ++ Str.nl ++ Str.nl
    ++ "Basic suggestion: Given the projected climate conditions, "
    ++ "consider optimizing climate control usage during peak hours.".

Definition log_prompt (p : string) : P unit :=
  fun s => (Ok tt, mkState (heap s) (cache s) (fetch_log s) (p :: gen_log s)).

Section Advisory.
Local Open Scope prog_scope.

(** One call of the text-generation service. *)
Definition call_model (w : World) (prompt : string) : P string :=
  log_prompt prompt ;;; Prog.lift (generate_content w prompt).

(** [generate_ai_suggestion]: the prompt is built outside the [try]; the
    service is called once inside it. *)
Definition generate_ai_suggestion (w : World) (metrics : EnergyMetrics)
    (user_type zone : string) (days : Z) : P string :=
  match context_lookup user_type user_context with
  | None => Prog.raise (mkExn KeyError (Str.quote user_type))
  | Some context =>
      let prompt := prompt_text metrics user_type zone days context in
      Prog.try_except
        (call_model w prompt)
        (fun e => Prog.ret (fallback_text (message e)))
  end.

(** [generate_charts(df, zone)]: the rendering itself is the world's. *)
Definition generate_charts (w : World) (df : ref) (zone : string)
  : P (string * string) :=
  frame <- Prog.deref df ;;
  Prog.lift (savefig w frame zone).

End Advisory.

(** ** The HTTP operations *)

#[warnings="-register-all"] Inductive json : Type :=
| JBool (b : bool)
| JInt (n : Z)
| JFloat (x : pyfloat)
| JStr (s : string)
| JObj (fields : list (string * json)).

Inductive Body : Type :=
| Json (j : json)
| CsvAttachment (download_name : string) (content : DataFrame).

Record HttpResponse : Type := mkResponse { status : Z; body : Body }.

(** The parsed JSON object of a request body; [None] is an absent key. *)
Module Req.
Record t : Type := mk {
  user_type : option string;
  zona : option string;
  days : option Z;
  lat : option Q;
  lon : option Q;
  tz : option string
}.
Definition empty : t := mk None None None None None None.
End Req.

(** [d.get(k, default)] *)
Definition get {A} (x : option A) (default : A) : A :=
  match x with Some a => a | None => default end.

Fixpoint field (k : string) (l : list (string * json)) : option json :=
  match l with
  | [] => None
  | (n, v) :: r => if String.eqb k n then Some v else field k r
  end.

(** [j[k]] on a JSON value: only an object has fields. *)
Definition json_field (k : string) (j : json) : option json :=
  match j with
  | JObj l => field k l
  | _ => None
  end.

Definition metrics_json (m : EnergyMetrics) : json :=
  JObj [ ("avg_temp", JFloat (avg_temp m));
         ("max_temp", JFloat (max_temp m));
         ("min_temp", JFloat (min_temp m));
         ("cdd_total", JFloat (cdd_total m));
         ("extreme_heat_days", JInt (extreme_heat_days m));
         ("comfortable_days", JInt (comfortable_days m));
         ("avg_radiation", JFloat (avg_radiation m));
         ("avg_solar_potential", JFloat (avg_solar_potential m));
         ("optimal_solar_days", JInt (optimal_solar_days m));
         ("avg_humidity", JFloat (avg_humidity m));
         ("high_demand_days", JInt (high_demand_days m)) ].

Definition error_400 (msg : string) : HttpResponse :=
  mkResponse 400 (Json (JObj [("error", JStr msg)])).

(** The response dictionary of lines 426-442. *)
Definition success_response (w : World) (user_type zone : string) (days : Z)
    (metrics : EnergyMetrics) (suggestion : string) (charts : string * string)
  : HttpResponse :=
  mkResponse 200
    (Json (JObj
       [ ("success", JBool true);
         ("timestamp", JStr (now_iso w));
         ("parameters",
          JObj [ ("user_type", JStr user_type);
                 ("zone", JStr zone);
                 ("days", JInt days) ]);
         ("metrics", metrics_json metrics);
         ("suggestion", JStr suggestion);
         ("charts",
          JObj [ ("temperature", JStr (fst charts));
                 ("solar", JStr (snd charts)) ]) ])).

Section Endpoints.
Local Open Scope prog_scope.

(** Lines 413-442 of [analyze]: the pipeline once the input has passed
    validation. *)
Definition analyze_pipeline (w : World) (user_type zone : string) (days : Z)
    (lat lon : option Q) (tz : option string) : P HttpResponse :=
  df <- get_climate_data w zone days lat lon tz ;;
  metrics <- Prog.on_frame df calculate_energy_metrics ;;
  suggestion <- generate_ai_suggestion w metrics user_type zone days ;;
  charts <- generate_charts w df zone ;;
  Prog.ret (success_response w user_type zone days metrics suggestion charts).

Definition analyze_checked (w : World) (data : Req.t) : P HttpResponse :=
  let user_type := Str.lower (get (Req.user_type data) "home") in
  let zone := get (Req.zona data) "new-york" in
  let days := get (Req.days data) 30 in
  let lat := Req.lat data in
  let lon := Req.lon data in
  let tz := Req.tz data in
  if negb (Str.mem user_type ["home"; "industry"]) then
    Prog.ret (error_400 "user_type must be 'home' or 'industry'")
  else
    let zone_lower := Str.lower zone in
    if negb (zone_known zone_lower)
       && (match lat with None => true | Some _ => false end
           || match lon with None => true | Some _ => false end)
    then
      Prog.ret (error_400
        ("Zone '" ++ zone
         ++ "' is not predefined. Provide coordinates (lat, lon) or search for a location."))
    else if negb ((7 <=? days)%Z && (days <=? 365)%Z) then
      Prog.ret (error_400 "Days range must be between 7 and 365")
    else analyze_pipeline w user_type zone days lat lon tz.

(** [analyze]: the whole body sits in [try ... except Exception]. *)
Definition analyze (w : World) (data : Req.t) (s : State) : HttpResponse * State :=
  match analyze_checked w data s with
  | (Ok r, s') => (r, s')
  | (Raise e, s') =>
      (mkResponse 500
         (Json (JObj [ ("success", JBool false);
                       ("error", JStr (message e));
                       ("timestamp", JStr (now_iso w)) ])), s')
  end.

Definition export_csv_checked (w : World) (data : Req.t) : P HttpResponse :=
  let zone := get (Req.zona data) "new-york" in
  let days := get (Req.days data) 30 in
  let lat := Req.lat data in
  let lon := Req.lon data in
  let tz := Req.tz data in
  df <- get_climate_data w zone days lat lon tz ;;
  frame <- Prog.deref df ;;
  Prog.ret
    (mkResponse 200
       (CsvAttachment
          ("climate_data_" ++ zone ++ "_" ++ Str.of_Z days ++ "days_"
           ++ now_ymd w ++ ".csv")
          frame)).

(** [export_csv] *)
Definition export_csv (w : World) (data : Req.t) (s : State) : HttpResponse * State :=
  match export_csv_checked w data s with
  | (Ok r, s') => (r, s')
  | (Raise e, s') =>
      (mkResponse 500
         (Json (JObj [ ("success", JBool false); ("error", JStr (message e)) ])), s')
  end.

End Endpoints.

(** * The vocabulary of the statements *)

Definition has_columns (df : DataFrame) (a x r c h : Series) : Prop :=
  DF.lookup "Avg_Temp" (cols df) = Some a
  /\ DF.lookup "Max_Temp" (cols df) = Some x
  /\ DF.lookup "Solar_Radiation" (cols df) = Some r
  /\ DF.lookup "Cloud_Cover" (cols df) = Some c
  /\ DF.lookup "Relative_Humidity" (cols df) = Some h.

Definition cdd_column (a : Series) : Series :=
  Ser.clip_lower (Ser.sub_scalar a TEMP_COMFORT) 0.

Definition solar_potential_column (r c : Series) : Series :=
  Ser.mul r (Ser.rsub_scalar 1 (Ser.div_scalar c 100)).

(** The frame that [calculate_energy_metrics] leaves behind. *)
Definition with_helper_columns (df : DataFrame) (a r c : Series) : DataFrame :=
  mkDataFrame (Date df)
    (DF.assign "Solar_Potential" (solar_potential_column r c)
       (DF.assign "CDD" (cdd_column a) (cols df))).

Definition metrics_of (a x r c h : Series) : EnergyMetrics :=
  mkMetrics
    (Float.round1 (Ser.mean a))
    (Float.round1 (Ser.max x))
    (Float.round1 (Ser.min a))
    (Float.round1 (Ser.sum (cdd_column a)))
    (Ser.count (Ser.gt x TEMP_EXTREME))
    (Ser.count (Ser.le x TEMP_COMFORT))
    (Float.round1 (Ser.mean r))
    (Float.round1 (Ser.mean (solar_potential_column r c)))
    (Ser.count (Ser.lt c 40))
    (Float.round1 (Ser.mean h))
    (Ser.count (Ser.band (Ser.gt x 32) (Ser.gt h 60))).

(** The sum the specification writes for the cooling degree days: over the
    days, [max (avg_temp - 24, 0)]. *)
Fixpoint degree_days (temps : list Q) : Q :=
  match temps with
  | [] => 0
  | t :: r => Qmax (t - 24) 0 + degree_days r
  end.

Definition week_temps : list Q := [20; 22; 26; 30; 25; 23; 21]%Q.

(** Lines 99-117: what the fetcher makes of the provider's answer. *)
Definition normalize (resp : ProviderResponse) : result DataFrame :=
  match resp with
  | HttpFailure msg => Raise (mkExn HTTPError msg)
  | Payload None => Raise (mkExn KeyError (Str.quote "daily"))
  | Payload (Some d) =>
      match frame_of_daily d with
      | Ok df => Ok (rename_columns df)
      | Raise e => Raise e
      end
  end.

Definition logged (q : ForecastRequest) (s : State) : State :=
  mkState (heap s) (cache s) (q :: fetch_log s) (gen_log s).

Definition NEW_YORK : Coords := mkCoords 40.7128 (-74.0060) "America/New_York".

Definition unknown_zone_message (zone : string) : string :=
  "Zone '" ++ zone
  ++ "' is not predefined. Provide coordinates (lat, lon) or search for a location.".

Definition horizon_request (d : Z) : Req.t :=
  Req.mk None None (Some d) None None None.

(** The days from [a] to [b], both included. *)
Definition date_range (a b : Z) : list Z :=
  map (fun i => a + Z.of_nat i) (seq 0 (Z.to_nat (b - a + 1))).

(** What the advisory generator hands back for a prompt. *)
Definition advisory (w : World) (prompt : string) : string :=
  match generate_content w prompt with
  | Ok text => text
  | Raise e => fallback_text (message e)
  end.

Module Demo.

Definition constant (n : nat) (q : Q) : Series := repeat (Fin q) n.


(** A provider that answers with one record per requested day. *)
Definition forecast (q : ForecastRequest) : ProviderResponse :=
  let dates := date_range (start_date q) (end_date q) in
  let n := List.length dates in
  Payload (Some (mkDaily (Some dates)
    [ ("temperature_2m_mean", constant n 26);
      ("temperature_2m_max", constant n 33);
      ("relative_humidity_2m_mean", constant n 65);
      ("shortwave_radiation_sum", constant n 20);
      ("cloud_cover_mean", constant n 30);
      ("wind_speed_10m_mean", constant n 12) ])).


Definition png : DataFrame -> string -> result (string * string) :=
  fun _ _ => Ok ("aVZCT1J3MEtHZ28=", "aVZCT1J3MEtHZ3A=").

Definition world : World :=
  mkWorld 739621 739621 "2026-01-05T10:00:00" "20260105" forecast
          (fun _ => Ok "### Pre-cool in the morning") png.

Definition failing_world : World :=
  mkWorld 739621 739621 "2026-01-05T10:00:00" "20260105" forecast
          (fun _ => Raise (mkExn GenerationError "503 The model is overloaded."))
          png.


Definition week_frame : DataFrame :=
  mkDataFrame (date_range 739621 739627)
    [ ("Avg_Temp", map Fin week_temps);
      ("Max_Temp", constant 7 33);
      ("Relative_Humidity", constant 7 65);
      ("Solar_Radiation", constant 7 20);
      ("Cloud_Cover", constant 7 30);
      ("Wind_Speed", constant 7 12) ].

(** A cache filled to capacity: one hundred requests for "miami", with
    horizons 7 to 106, the last one the most recent. *)
Fixpoint warm_up (n : nat) (d : Z) (s : State) : State :=
  match n with
  | O => s
  | S n' => warm_up n' (d + 1) (snd (get_climate_data world "miami" d None None None s))
  end.

Definition full_state : State := warm_up 100 7 initial.

Definition after_overflow : State :=
  snd (get_climate_data world "miami" 200 None None None full_state).

(** The frame the fetcher builds from [forecast] for a 30-day horizon. *)
Definition month_frame : DataFrame :=
  mkDataFrame (date_range 739621 739651)
    [ ("Avg_Temp", constant 31 26);
      ("Max_Temp", constant 31 33);
      ("Relative_Humidity", constant 31 65);
      ("Solar_Radiation", constant 31 20);
      ("Cloud_Cover", constant 31 30);
      ("Wind_Speed", constant 31 12) ].

Definition after_default_fetch : State :=
  snd (get_climate_data failing_world "new-york" 30 None None None initial).

Definition after_Miami : State :=
  snd (get_climate_data world "Miami" 30 None None None initial).

Definition csv_columns (r : HttpResponse) : list string :=
  match body r with
  | CsvAttachment _ df => DF.columns df
  | Json _ => []
  end.

End Demo.

Definition req_user_type (data : Req.t) : string :=
  Str.lower (get (Req.user_type data) "home").
Definition req_zone (data : Req.t) : string := get (Req.zona data) "new-york".
Definition req_days (data : Req.t) : Z := get (Req.days data) 30.

(** The three checks of lines 402-411, all passed. *)
Definition passes_validation (data : Req.t) : bool :=
  Str.mem (req_user_type data) ["home"; "industry"]
  && (zone_known (Str.lower (req_zone data))
      || (match Req.lat data with None => false | Some _ => true end
          && match Req.lon data with None => false | Some _ => true end))
  && ((7 <=? req_days data)%Z && (req_days data <=? 365)%Z).

(** The reading of the claim that gives the advisory a [source] field:
    the response's advisory is an object whose [source] is "fallback". *)
Definition advisory_source_is_fallback (resp : HttpResponse) : Prop :=
  exists j adv,
    body resp = Json j
    /\ json_field "suggestion" j = Some adv
    /\ json_field "source" adv = Some (JStr "fallback").

Definition FALLBACK_PREFIX : string := "⚠️ Error generating suggestion: ".

Definition FALLBACK_ADVICE : string :=
  "Basic suggestion: Given the projected climate conditions, consider optimizing climate control usage during peak hours.".

Definition FETCHED_COLUMNS : list string :=
  [ "Date"; "Avg_Temp"; "Max_Temp"; "Relative_Humidity"; "Solar_Radiation";
    "Cloud_Cover"; "Wind_Speed" ].

(** No cell of the series is missing. *)
Definition complete (s : Series) : bool :=
  forallb (fun x => negb (Float.is_nan x)) s.



(** * Further operations of the backend *)

(** ** What the thermal chart draws (lines 240-252 of [generate_charts]) *)

Module Chart.

(** [s.rolling(w).mean()]: the mean of the last [w] values, NaN until [w]
    values are there and wherever one of them is missing. *)
Definition rolling_mean (w : nat) (s : Series) : Series :=
  map (fun i =>
         if Nat.ltb (S i) w then NaN
         else
           let window := firstn w (skipn (S i - w) s) in
           if forallb (fun x => negb (Float.is_nan x)) window
           then Fin (Ser.qsum (Ser.present window) / inject_Z (Z.of_nat w))
           else NaN)
      (seq 0 (List.length s)).

(** The dashed trend line: [df['Avg_Temp'].rolling(7).mean()]. *)
Definition trend (avg : Series) : Series := rolling_mean 7 avg.


End Chart.

(** ** [get_zones] *)

Module Zones.

Record entry : Type := mk { id : string; name : string }.

(** [k.replace("-", " ")] *)
Fixpoint dash_to_space (s : string) : string :=
  match s with
  | EmptyString => EmptyString
  | String c r =>
      String (if Ascii.eqb c "-"%char then " "%char else c) (dash_to_space r)
  end.

(** The list under "zones" in the response of [get_zones]. *)
Definition get_zones : list entry :=
  map (fun kv => mk (fst kv) (Str.title (dash_to_space (fst kv)))) ZONE_COORDINATES.

End Zones.

(** ** [geocode] *)

Module Geo.

(** One item of the geocoding provider's "results"; [None] is an absent
    key. *)
Record hit : Type := mkHit {
  h_name : option string;
  h_country : option string;
  h_admin1 : option string;
  h_latitude : option Q;
  h_longitude : option Q;
  h_timezone : option string
}.

Inductive answer : Type :=
| Failure (msg : string)                 (* the call or [raise_for_status] raises *)
| Data (results : option (list hit)).    (* the JSON body; [None]: no "results" key *)

(** The [params] of the geocoding call. *)
Record query : Type := mkQuery {
  q_name : string;
  q_count : Z;
  q_language : string;
  q_format : string
}.

(** One item of the "results" that [geocode] answers with. *)
Record place : Type := mkPlace {
  name : string;
  country : string;
  admin1 : string;
  lat : option Q;
  lon : option Q;
  tz : string;
  display : string
}.

Record response : Type := mkResponse {
  status : Z;
  results : list place;
  error : option string
}.

(** ASCII white space, as [str.strip] removes it. *)
Definition is_space (c : ascii) : bool :=
  let n := nat_of_ascii c in
  (Nat.leb 9 n && Nat.leb n 13) || (Nat.leb 28 n && Nat.leb n 32).

Fixpoint lstrip (l : list ascii) : list ascii :=
  match l with
  | [] => []
  | c :: r => if is_space c then lstrip r else l
  end.

(** [s.strip()] *)
Definition strip (s : string) : string :=
  string_of_list_ascii
    (rev (lstrip (rev (lstrip (list_ascii_of_string s))))).

(** The dictionary built for one hit (lines 359-367). *)
Definition place_of (r : hit) : place :=
  mkPlace (get (h_name r) "") (get (h_country r) "") (get (h_admin1 r) "")
          (h_latitude r) (h_longitude r)
          (get (h_timezone r) DEFAULT_TIMEZONE)
          (get (h_name r) "" ++ ", " ++ get (h_admin1 r) "" ++ " - "
           ++ get (h_country r) "").

(** [geocode]: the response, and the geocoding calls it made.  [q] is the
    query parameter of the request, [None] when it is absent. *)
Definition geocode (search : query -> answer) (q : option string)
  : response * list query :=
  let query := strip (get q "") in
  if orb (String.eqb query "") (Nat.ltb (String.length query) 2) then
    (mkResponse 400 [] (Some "Search term must have at least 2 characters"), [])
  else
    let params := mkQuery query 10 "en" "json" in
    match search params with
    | Failure msg => (mkResponse 500 [] (Some msg), [params])
    | Data None => (mkResponse 200 [] None, [params])
    | Data (Some hits) => (mkResponse 200 (map place_of hits) None, [params])
    end.

(** A string of ASCII characters only: for these a byte is a character. *)
Definition ascii_only (s : string) : bool :=
  forallb (fun c => Nat.ltb (nat_of_ascii c) 128) (list_ascii_of_string s).

End Geo.

(** ** The request body of [analyze], as Flask hands it over *)

Module Wire.

(** A JSON value by its Python type; [D] is what is kept of an object. *)
Inductive value (D : Type) : Type :=
| VNone                      (* null *)
| VBool (b : bool)
| VInt (n : Z)
| VFloat (x : pyfloat)
| VStr (s : string)
| VList                      (* an array: its items are never looked at *)
| VDict (d : D).
Arguments VNone {D}.
Arguments VBool {D} b.
Arguments VInt {D} n.
Arguments VFloat {D} x.
Arguments VStr {D} s.
Arguments VList {D}.
Arguments VDict {D} d.

Definition type_name {D} (v : value D) : string :=
  match v with
  | VNone => "NoneType"
  | VBool _ => "bool"
  | VInt _ => "int"
  | VFloat _ => "float"
  | VStr _ => "str"
  | VList => "list"
  | VDict _ => "dict"
  end.

Definition no_attribute {D} (v : value D) (name : string) : exn :=
  mkExn AttributeError
    ("'" ++ type_name v ++ "' object has no attribute '" ++ name ++ "'").

(** The fields that [analyze] reads; [None] is an absent key.  The three
    that it converts are any JSON value.  The coordinates and the time
    zone, which it only hands to the fetcher, are a number or nothing and a
    string or nothing ([null] reads as nothing). *)
Record fields : Type := mkFields {
  user_type : option (value unit);
  zona : option (value unit);
  days : option (value unit);
  lat : option Q;
  lon : option Q;
  tz : option string
}.

(** [request.json] *)
Inductive body : Type :=
| NotJson (e : exn)                (* it raises: no body, or a body that is not JSON *)
| Parsed (v : value fields).       (* the parsed body *)

(** [v.lower()]: only a [str] has the method. *)
Definition text {D} (v : value D) : result string :=
  match v with
  | VStr s => Ok s
  | _ => Raise (no_attribute v "lower")
  end.

Definition is_digit (c : ascii) : bool :=
  let n := nat_of_ascii c in Nat.leb 48 n && Nat.leb n 57.

(** Decimal digits, with single underscores between digits. *)
Fixpoint digits (l : list ascii) (acc : Z) (after_digit : bool) : option Z :=
  match l with
  | [] => if after_digit then Some acc else None
  | c :: r =>
      if is_digit c
      then digits r (acc * 10 + Z.of_nat (nat_of_ascii c - 48)) true
      else if Ascii.eqb c "_"%char && after_digit then digits r acc false
      else None
  end.

(** [int(s)] for a [str] of ASCII characters: blanks around, a sign, and
    decimal digits.  (The limit that recent Python versions put on the
    number of digits, and digits outside ASCII, are not modelled.) *)
Definition int_of_text (s : string) : result Z :=
  let invalid :=
    Raise (mkExn ValueError
             ("invalid literal for int() with base 10: " ++ Str.quote s)) in
  match list_ascii_of_string (Geo.strip s) with
  | "-"%char :: l =>
      match digits l 0 false with Some n => Ok (- n) | None => invalid end
  | "+"%char :: l =>
      match digits l 0 false with Some n => Ok n | None => invalid end
  | l => match digits l 0 false with Some n => Ok n | None => invalid end
  end.

(** [int(v)]; a float is cut off toward zero. *)
Definition int {D} (v : value D) : result Z :=
  match v with
  | VInt n => Ok n
  | VBool b => Ok (if b then 1 else 0)
  | VFloat (Fin q) => Ok (if Qle_bool 0 q then Qfloor q else Qceiling q)
  | VFloat NaN => Raise (mkExn ValueError "cannot convert float NaN to integer")
  | VStr s => int_of_text s
  | _ =>
      Raise (mkExn TypeError
               ("int() argument must be a string, a bytes-like object or a real number, not '"
                ++ type_name v ++ "'"))
  end.

Section Endpoint.
Local Open Scope prog_scope.

(** Lines 391-442 of [analyze], statement by statement. *)
Definition analyze_checked (w : World) (b : body) : P HttpResponse :=
  match b with
  | NotJson e => Prog.raise e
  | Parsed (VDict data) =>
      u <- Prog.lift (text (get (user_type data) (VStr "home"))) ;;
      let user_type := Str.lower u in
      let zone := get (zona data) (VStr "new-york") in
      days <- Prog.lift (int (get (days data) (VInt 30))) ;;
      let lat := lat data in
      let lon := lon data in
      let tz := tz data in
      if negb (Str.mem user_type ["home"; "industry"]) then
        Prog.ret (error_400 "user_type must be 'home' or 'industry'")
      else
        z <- Prog.lift (text zone) ;;
        let zone_lower := Str.lower z in
        if negb (zone_known zone_lower)
           && (match lat with None => true | Some _ => false end
               || match lon with None => true | Some _ => false end)
        then
          Prog.ret (error_400
            ("Zone '" ++ z
             ++ "' is not predefined. Provide coordinates (lat, lon) or search for a location."))
        else if negb ((7 <=? days)%Z && (days <=? 365)%Z) then
          Prog.ret (error_400 "Days range must be between 7 and 365")
        else analyze_pipeline w user_type z days lat lon tz
  | Parsed v => Prog.raise (no_attribute v "get")
  end.

(** [analyze]: whatever is raised inside the [try] is answered 500. *)
Definition analyze (w : World) (b : body) (s : State) : HttpResponse * State :=
  match analyze_checked w b s with
  | (Ok r, s') => (r, s')
  | (Raise e, s') =>
      (mkResponse 500
         (Json (JObj [ ("success", JBool false);
                       ("error", JStr (message e));
                       ("timestamp", JStr (now_iso w)) ])), s')
  end.

End Endpoint.

(** The body whose fields have the types the docstring of [analyze]
    gives them. *)
Definition of_req (data : Req.t) : body :=
  Parsed (VDict (mkFields (option_map VStr (Req.user_type data))
                          (option_map VStr (Req.zona data))
                          (option_map VInt (Req.days data))
                          (Req.lat data) (Req.lon data) (Req.tz data))).

(** The empty JSON object. *)
Definition empty_object : body :=
  Parsed (VDict (mkFields None None None None None None)).

(** A body that [analyze] cannot read: it is not JSON, or not an object, or
    its [user_type] is not a string, or its [days] are [null], an array or
    an object. *)
Definition unreadable (b : body) : bool :=
  match b with
  | NotJson _ => true
  | Parsed (VDict data) =>
      match user_type data with
      | Some (VStr _) | None => false
      | Some _ => true
      end
      || match days data with
         | Some VNone | Some VList | Some (VDict _) => true
         | _ => false
         end
  | Parsed _ => true
  end.

End Wire.

(** * Invariants of the program state *)

(** All columns of a frame have as many cells as the frame has dates. *)
Definition rectangular (df : DataFrame) : bool :=
  forallb (fun c => Nat.eqb (List.length (snd c)) (List.length (Date df))) (cols df).

(** No two entries of the cache have equal keys. *)
Fixpoint keys_distinct (c : list (Key * ref)) : Prop :=
  match c with
  | [] => True
  | (k, _) :: c' => Lru.find k c' = None /\ keys_distinct c'
  end.

(** The cache is within its capacity, holds each key once, and every
    reference it holds points to a frame; every frame is rectangular. *)
Definition state_ok (s : State) : Prop :=
  (List.length (cache s) <= Lru.maxsize)%nat
  /\ keys_distinct (cache s)
  /\ Forall (fun e => (snd e < List.length (heap s))%nat) (cache s)
  /\ Forall (fun df => rectangular df = true) (heap s).

(** [l'] is [l], or [l] with one more element in front. *)
Definition grown_by_at_most_one {A} (l l' : list A) : Prop :=
  l' = l \/ exists x, l' = x :: l.

(** What a call of the fetcher costs in forecast calls: none when the key
    is in the cache, one when it is not. *)
Definition fetches_of (k : Key) (s : State) : nat :=
  match Lru.find k (cache s) with Some _ => 0%nat | None => 1%nat end.

(** A provider that fails once. *)
Definition out_of_service_world : World :=
  mkWorld 739621 739621 "2026-01-05T10:00:00" "20260105"
          (fun _ => HttpFailure "503 Server Error: Service Unavailable")
          (fun _ => Ok "### Pre-cool in the morning") Demo.png.

(** The world of [Demo.world] for a fetch that straddles midnight: line 76
    reads the clock on 2026-01-05, line 77 on 2026-01-06. *)
Definition midnight_world : World :=
  mkWorld 739621 739622 "2026-01-05T23:59:59.999999" "20260105" Demo.forecast
          (fun _ => Ok "### Pre-cool in the morning") Demo.png.

(** The forecast request for a place and a first and a last day. *)
Definition request_for (c : Coords) (first last : Z) : ForecastRequest :=
  mkRequest (lat c) (lon c) first last "MRI_AGCM3_2_S" DAILY_FIELDS (tz c).

(** A provider whose payload lacks the mean temperature. *)
Definition no_mean_world : World :=
  mkWorld 739621 739621 "2026-01-05T10:00:00" "20260105"
          (fun q =>
             let dates := date_range (start_date q) (end_date q) in
             let n := List.length dates in
             Payload (Some (mkDaily (Some dates)
               [ ("temperature_2m_max", Demo.constant n 33);
                 ("relative_humidity_2m_mean", Demo.constant n 65);
                 ("shortwave_radiation_sum", Demo.constant n 20);
                 ("cloud_cover_mean", Demo.constant n 30);
                 ("wind_speed_10m_mean", Demo.constant n 12) ])))
          (fun _ => Ok "### Pre-cool in the morning") Demo.png.

(** The frame once line 132 has run. *)
Definition with_cdd (df : DataFrame) (a : Series) : DataFrame :=
  mkDataFrame (Date df) (DF.assign "CDD" (cdd_column a) (cols df)).

Definition missing (name : string) : exn := mkExn KeyError (Str.quote name).

(** A week in which no day averages above the comfort threshold. *)
Definition cool_week : DataFrame :=
  mkDataFrame (date_range 739621 739627)
    [ ("Avg_Temp", [Fin 18; Fin 24; NaN; Fin 21.5; Fin 23.9; Fin 10; Fin (-3)]);
      ("Max_Temp", Demo.constant 7 25);
      ("Relative_Humidity", Demo.constant 7 65);
      ("Solar_Radiation", Demo.constant 7 20);
      ("Cloud_Cover", Demo.constant 7 30);
      ("Wind_Speed", Demo.constant 7 12) ].

(** Every value that is there is at least 0. *)
Definition nonnegative (s : Series) : Prop :=
  Forall (fun q => (0 <= q)%Q) (Ser.present s).

(** Every value that is there is a percentage, between 0 and 100. *)
Definition percentage (s : Series) : Prop :=
  Forall (fun q => (0 <= q <= 100)%Q) (Ser.present s).

(** The exact mean of the values that are there. *)
Definition exact_mean (s : Series) : Q :=
  Ser.qsum (Ser.present s) / inject_Z (Z.of_nat (List.length (Ser.present s))).

(** The answer of [analyze] when an exception reaches its [except]. *)
Definition error_500 (w : World) (msg : string) : HttpResponse :=
  mkResponse 500
    (Json (JObj [ ("success", JBool false);
                  ("error", JStr msg);
                  ("timestamp", JStr (now_iso w)) ])).

Definition miami_month : Req.t :=
  Req.mk None (Some "miami") None None None None.

(** The full cache of [Demo.full_state] after one more look at its oldest
    entry, the request for 7 days. *)
Definition refreshed_state : State :=
  snd (get_climate_data Demo.world "miami" 7 None None None Demo.full_state).

(** A geocoding provider with two hits for any name, one of them without a
    time zone. *)
Definition two_hits (q : Geo.query) : Geo.answer :=
  Geo.Data (Some
    [ Geo.mkHit (Some "Paris") (Some "France") (Some "Ile-de-France")
                (Some 48.8566%Q) (Some 2.3522%Q) (Some "Europe/Paris");
      Geo.mkHit (Some "Paris") (Some "United States") None
                (Some 33.6609%Q) (Some (-95.5555)%Q) None ]).

(** ** Binary64, where the exact arithmetic of [pyfloat] is not the program's *)

Module Binary64.

Definition add := SpecFloat.SFadd 53 1024.
Definition sub := SpecFloat.SFsub 53 1024.
Definition mul := SpecFloat.SFmul 53 1024.
Definition div := SpecFloat.SFdiv 53 1024.

(** The double nearest to a whole number. *)
Definition of_Z (n : Z) : SpecFloat.spec_float :=
  SpecFloat.binary_normalize 53 1024 n 0 false.

Definition is_nan (x : SpecFloat.spec_float) : bool :=
  match x with SpecFloat.S754_nan => true | _ => false end.

(** The cells that are not NaN: reductions skip the others. *)
Definition present (l : list SpecFloat.spec_float) : list SpecFloat.spec_float :=
  filter (fun x => negb (is_nan x)) l.

(** [s.mean()] of a float64 column with a few cells, which are added up in
    day order. *)
Definition mean (l : list SpecFloat.spec_float) : SpecFloat.spec_float :=
  match present l with
  | [] => SpecFloat.S754_nan
  | p => div (fold_left add p (of_Z 0)) (of_Z (Z.of_nat (List.length p)))
  end.

(** Line 140 for one day: [rad * (1 - cloud / 100)]. *)
Definition solar_potential (rad cloud : SpecFloat.spec_float) : SpecFloat.spec_float :=
  mul rad (sub (of_Z 1) (div cloud (of_Z 100))).

Fixpoint solar_potential_column (rad cloud : list SpecFloat.spec_float)
  : list SpecFloat.spec_float :=
  match rad, cloud with
  | x :: rad', y :: cloud' => solar_potential x y :: solar_potential_column rad' cloud'
  | _, _ => []
  end.

End Binary64.

(** The world [w] with another text-generation service. *)
Definition with_generation (w : World) (g : string -> result string) : World :=
  mkWorld (today w) (today_again w) (now_iso w) (now_ymd w) (provider w) g (savefig w).

(** The service that never raises in place of the one of [w]: where that
    one raises, it answers with the fallback text. *)
Definition never_failing (w : World) : World :=
  with_generation w (fun prompt => Ok (advisory w prompt)).

(** A service that answers, without raising, with an empty text. *)
Definition blank_world : World :=
  with_generation Demo.world (fun _ => Ok "").

(** The text-generation service is down and the charts cannot be drawn. *)
Definition unrenderable_world : World :=
  mkWorld 739621 739621 "2026-01-05T10:00:00" "20260105" Demo.forecast
          (fun _ => Raise (mkExn GenerationError "503 The model is overloaded."))
          (fun _ _ => Raise (mkExn RenderError "cannot allocate the figure")).

Definition USER_TYPE_MESSAGE : string := "user_type must be 'home' or 'industry'".








(** The response carries no advisory at all, or a plain string. *)
Definition suggestion_of (resp : HttpResponse) : option json :=
  match body resp with
  | Json j => json_field "suggestion" j
  | CsvAttachment _ _ => None
  end.

(** * Properties *)

(** ** Rounding *)

Lemma round_half_even_compat (x y : Q) :
  (x == y)%Q -> Float.round_half_even x = Float.round_half_even y.
Proof.
  intros E. unfold Float.round_half_even.
  assert (F : Qfloor x = Qfloor y) by (apply Qfloor_comp; exact E).
  rewrite F.
  assert (C : ((x - inject_Z (Qfloor y)) ?= (1 # 2))%Q
              = ((y - inject_Z (Qfloor y)) ?= (1 # 2))%Q).
  { apply Qcompare_comp; [rewrite E|]; reflexivity. }
  rewrite C. reflexivity.
Qed.

Lemma round1q_compat (x y : Q) : (x == y)%Q -> Float.round1q x = Float.round1q y.
Proof.
  intros E. unfold Float.round1q. apply Qred_complete.
  rewrite (round_half_even_compat (x * 10) (y * 10)); [reflexivity|].
  rewrite E. reflexivity.
Qed.

Lemma round_half_even_nonneg (x : Q) : (0 <= x)%Q -> 0 <= Float.round_half_even x.
Proof.
  intros H. unfold Float.round_half_even.
  assert (F : 0 <= Qfloor x).
  { change 0 with (Qfloor 0). apply Qfloor_resp_le. exact H. }
  destruct (Qcompare _ _); [destruct (Z.even _)| |]; lia.
Qed.

Lemma round1q_nonneg (x : Q) : (0 <= x)%Q -> (0 <= Float.round1q x)%Q.
Proof.
  intros H. unfold Float.round1q. rewrite Qred_correct.
  assert (R : 0 <= Float.round_half_even (x * 10)).
  { apply round_half_even_nonneg.
    setoid_replace 0%Q with (0 * 10)%Q by reflexivity.
    apply Qmult_le_compat_r; [exact H | discriminate]. }
  unfold Qdiv. setoid_replace 0%Q with (0 * / 10)%Q by reflexivity.
  apply Qmult_le_compat_r.
  - unfold Qle. simpl. lia.
  - discriminate.
Qed.

(** ** Sums *)

Lemma qsum_acc (l : list Q) (a : Q) : (fold_left Qplus l a == a + Ser.qsum l)%Q.
Proof.
  unfold Ser.qsum. revert a.
  induction l as [|x l IH]; intros a; simpl.
  - ring.
  - rewrite (IH (a + x)%Q), (IH (0 + x)%Q). ring.
Qed.

Lemma qsum_cons (x : Q) (l : list Q) : (Ser.qsum (x :: l) == x + Ser.qsum l)%Q.
Proof.
  unfold Ser.qsum at 1. simpl. rewrite qsum_acc. ring.
Qed.

(** ** Data frames *)

Lemma lookup_assign_same (n : string) (c : Series) (l : list (string * Series)) :
  DF.lookup n (DF.assign n c l) = Some c.
Proof.
  induction l as [|[m c0] l IH]; simpl.
  - rewrite String.eqb_refl. reflexivity.
  - destruct (String.eqb n m) eqn:E; simpl; rewrite E; [reflexivity | exact IH].
Qed.

Lemma lookup_assign_other (n m : string) (c : Series) (l : list (string * Series)) :
  String.eqb m n = false ->
  DF.lookup m (DF.assign n c l) = DF.lookup m l.
Proof.
  intros D. induction l as [|[k c0] l IH]; simpl.
  - rewrite D. reflexivity.
  - destruct (String.eqb n k) eqn:E; simpl.
    + apply String.eqb_eq in E. subst k. rewrite D. reflexivity.
    + destruct (String.eqb m k); [reflexivity | exact IH].
Qed.

(** ** The metrics engine on a frame that has the five columns it reads *)

Lemma bind_getitem {A} (n : string) (c : Series) (k : Series -> DF.M A)
    (df : DataFrame) :
  DF.lookup n (cols df) = Some c ->
  DF.bind (DF.getitem n) k df = k c df.
Proof.
  intros H. unfold DF.bind, DF.getitem. rewrite H. reflexivity.
Qed.

Lemma bind_setitem {A} (n : string) (c : Series) (k : unit -> DF.M A)
    (df : DataFrame) :
  DF.bind (DF.setitem n c) k df
  = k tt (mkDataFrame (Date df) (DF.assign n c (cols df))).
Proof. reflexivity. Qed.

Ltac find_column :=
  cbn [cols];
  first [ apply lookup_assign_same
        | rewrite ?lookup_assign_other by reflexivity; eassumption ].

Ltac step_frame :=
  first [ rewrite bind_setitem
        | erewrite bind_getitem by find_column ].

Lemma calculate_energy_metrics_runs (df : DataFrame) (a x r c h : Series) :
  has_columns df a x r c h ->
  calculate_energy_metrics df
  = (Ok (metrics_of a x r c h), with_helper_columns df a r c).
Proof.
  intros (Ha & Hx & Hr & Hc & Hh).
  unfold calculate_energy_metrics.
  repeat step_frame.
  reflexivity.
Qed.

Lemma present_cdd_column (a : Series) :
  Ser.present (cdd_column a) = map (fun t => Qmax (t - TEMP_COMFORT) 0) (Ser.present a).
Proof.
  unfold cdd_column, Ser.clip_lower, Ser.sub_scalar.
  induction a as [|[|q] a IH]; simpl; [reflexivity | exact IH | f_equal; exact IH].
Qed.

Lemma qsum_degree_days (l : list Q) :
  (Ser.qsum (map (fun t => Qmax (t - TEMP_COMFORT) 0) l) == degree_days l)%Q.
Proof.
  induction l as [|t l IH]; simpl.
  - reflexivity.
  - rewrite qsum_cons, IH. reflexivity.
Qed.

(** ** The cache *)

Lemma opt_eqb_refl {A} (eqb : A -> A -> bool) (x : option A) :
  (forall a, eqb a a = true) -> Lru.opt_eqb eqb x x = true.
Proof. intros R. destruct x; simpl; auto. Qed.

Lemma Qeq_bool_refl (q : Q) : Qeq_bool q q = true.
Proof. apply Qeq_bool_iff. reflexivity. Qed.

Lemma key_eqb_refl (k : Key) : Lru.key_eqb k k = true.
Proof.
  destruct k as [[[[z d] la] lo] t]. unfold Lru.key_eqb.
  rewrite String.eqb_refl, Z.eqb_refl.
  rewrite !opt_eqb_refl; auto using Qeq_bool_refl, String.eqb_refl.
Qed.


Lemma find_front (k : Key) (r : ref) (c : list (Key * ref)) :
  Lru.find k ((k, r) :: c) = Some r.
Proof. simpl. rewrite key_eqb_refl. reflexivity. Qed.

Lemma remove_front (k : Key) (r : ref) (c : list (Key * ref)) :
  Lru.remove k ((k, r) :: c) = c.
Proof. simpl. rewrite key_eqb_refl. reflexivity. Qed.

Lemma find_none_remove (k k' : Key) (c : list (Key * ref)) :
  Lru.find k c = None -> Lru.find k (Lru.remove k' c) = None.
Proof.
  induction c as [|[k0 r0] c IH]; simpl; [reflexivity|].
  destruct (Lru.key_eqb k k0) eqn:E; [discriminate|]. intros H.
  destruct (Lru.key_eqb k' k0); [exact H|].
  simpl. rewrite E. apply IH, H.
Qed.

Lemma find_none_removelast (k : Key) (c : list (Key * ref)) :
  Lru.find k c = None -> Lru.find k (removelast c) = None.
Proof.
  induction c as [|[k0 r0] c IH]; [reflexivity|].
  cbn [Lru.find]. destruct (Lru.key_eqb k k0) eqn:E; [discriminate|]. intros H.
  destruct c as [|p c']; [reflexivity|].
  change (removelast ((k0, r0) :: p :: c')) with ((k0, r0) :: removelast (p :: c')).
  cbn [Lru.find]. rewrite E. apply IH, H.
Qed.



Lemma length_removelast {A} (l : list A) :
  List.length (removelast l) = pred (List.length l).
Proof.
  induction l as [|a l IH]; [reflexivity|].
  destruct l as [|b l']; [reflexivity|].
  change (removelast (a :: b :: l')) with (a :: removelast (b :: l')).
  cbn [List.length] in *. rewrite IH. reflexivity.
Qed.

Lemma length_store (k : Key) (r : ref) (c : list (Key * ref)) :
  (List.length c <= Lru.maxsize)%nat ->
  (List.length (Lru.store k r c) <= Lru.maxsize)%nat.
Proof.
  intros H. unfold Lru.store. cbn [List.length].
  destruct (Nat.leb Lru.maxsize (List.length c)) eqn:E.
  - apply Nat.leb_le in E.
    assert (L : List.length c = Lru.maxsize) by lia.
    rewrite length_removelast, L. unfold Lru.maxsize. lia.
  - apply Nat.leb_gt in E. lia.
Qed.

Lemma length_remove_found (k : Key) (r : ref) (c : list (Key * ref)) :
  Lru.find k c = Some r -> S (List.length (Lru.remove k c)) = List.length c.
Proof.
  induction c as [|[k0 r0] c IH]; cbn [Lru.find Lru.remove]; [discriminate|].
  destruct (Lru.key_eqb k k0); [reflexivity|].
  intros H. cbn [List.length]. f_equal. apply IH, H.
Qed.

Lemma cached_hit (f : Key -> P DataFrame) (k : Key) (s : State) (r : ref) :
  Lru.find k (cache s) = Some r ->
  Lru.cached f k s
  = (Ok r, mkState (heap s) (Lru.touch k r (cache s)) (fetch_log s) (gen_log s)).
Proof. intros H. unfold Lru.cached. rewrite H. reflexivity. Qed.

Lemma cached_miss (f : Key -> P DataFrame) (k : Key) (s : State) :
  Lru.find k (cache s) = None ->
  Lru.cached f k s
  = match f k s with
    | (Raise e, s1) => (Raise e, s1)
    | (Ok df, s1) =>
        (Ok (List.length (heap s1)),
         mkState (heap s1 ++ [df])%list
                 (Lru.store k (List.length (heap s1)) (cache s1))
                 (fetch_log s1) (gen_log s1))
    end.
Proof.
  intros H. unfold Lru.cached. rewrite H.
  destruct (f k s) as [[df|e] s1]; reflexivity.
Qed.

(** ** The fetcher *)

Lemma body_unknown_zone (w : World) (zone : string) (d : Z) (la lo : option Q)
    (t : option string) (s : State) (e : exn) :
  resolve_coords zone la lo t = Raise e ->
  get_climate_data_body w (zone, d, la, lo, t) s = (Raise e, s).
Proof.
  intros H. unfold get_climate_data_body, Prog.bind, Prog.lift. rewrite H.
  reflexivity.
Qed.

Lemma body_fetches (w : World) (zone : string) (d : Z) (la lo : option Q)
    (t : option string) (s : State) (c : Coords) :
  resolve_coords zone la lo t = Ok c ->
  get_climate_data_body w (zone, d, la, lo, t) s
  = (normalize (provider w (build_params w c d)), logged (build_params w c d) s).
Proof.
  intros H. unfold get_climate_data_body, Prog.bind, Prog.lift. rewrite H.
  unfold log_fetch, normalize, logged, Prog.raise, Prog.ret.
  destruct (provider w (build_params w c d)) as [msg|[dd|]]; try reflexivity.
  destruct (frame_of_daily dd); reflexivity.
Qed.

Lemma get_climate_data_miss (w : World) (zone : string) (d : Z) (la lo : option Q)
    (t : option string) (s : State) (c : Coords) :
  Lru.find (zone, d, la, lo, t) (cache s) = None ->
  resolve_coords zone la lo t = Ok c ->
  get_climate_data w zone d la lo t s
  = match normalize (provider w (build_params w c d)) with
    | Raise e => (Raise e, logged (build_params w c d) s)
    | Ok df =>
        (Ok (List.length (heap s)),
         mkState (heap s ++ [df])%list
                 (Lru.store (zone, d, la, lo, t) (List.length (heap s)) (cache s))
                 (build_params w c d :: fetch_log s) (gen_log s))
    end.
Proof.
  intros M R. unfold get_climate_data. rewrite cached_miss by exact M.
  rewrite (body_fetches _ _ _ _ _ _ _ c) by exact R.
  destruct (normalize _); reflexivity.
Qed.

Lemma get_climate_data_unknown (w : World) (zone : string) (d : Z) (la lo : option Q)
    (t : option string) (s : State) (e : exn) :
  Lru.find (zone, d, la, lo, t) (cache s) = None ->
  resolve_coords zone la lo t = Raise e ->
  get_climate_data w zone d la lo t s = (Raise e, s).
Proof.
  intros M R. unfold get_climate_data. rewrite cached_miss by exact M.
  rewrite (body_unknown_zone _ _ _ _ _ _ _ e) by exact R. reflexivity.
Qed.

Lemma get_climate_data_hit (w : World) (zone : string) (d : Z) (la lo : option Q)
    (t : option string) (s : State) (r : ref) :
  Lru.find (zone, d, la, lo, t) (cache s) = Some r ->
  get_climate_data w zone d la lo t s
  = (Ok r, mkState (heap s) (Lru.touch (zone, d, la, lo, t) r (cache s))
                   (fetch_log s) (gen_log s)).
Proof. intros H. unfold get_climate_data. apply cached_hit, H. Qed.

(** C5, as the code has it. When a call of [get_climate_data] returns a
    series, the same call issued again, whatever the world has become, is
    answered from the cache: it returns the same frame, calls the provider
    no more and leaves cache and frames as they are.  The two calls
    together cost one forecast call when the key was not cached before and
    none when it was.  The cache never holds more than its 100 entries: a
    new entry goes to the front, and when the cache was full the last entry
    in recency order is dropped; a hit moves its entry to the front, so the
    last entry is the least recently used one. *)
Theorem repeated_request_fetches_once (w1 w2 : World) (zone : string) (d : Z)
    (la lo : option Q) (t : option string) (s s1 : State) (r : ref) :
  (List.length (cache s) <= Lru.maxsize)%nat ->
  get_climate_data w1 zone d la lo t s = (Ok r, s1) ->
  fetch_count s1 = (fetch_count s + fetches_of (zone, d, la, lo, t) s)%nat
  /\ (exists s2,
        get_climate_data w2 zone d la lo t s1 = (Ok r, s2)
        /\ fetch_count s2 = (fetch_count s + fetches_of (zone, d, la, lo, t) s)%nat
        /\ heap s2 = heap s1 /\ cache s2 = cache s1)
  /\ (List.length (cache s1) <= Lru.maxsize)%nat
  /\ (Lru.find (zone, d, la, lo, t) (cache s) = None ->
      cache s1
      = ((zone, d, la, lo, t), r)
          :: (if Nat.leb Lru.maxsize (List.length (cache s))
              then removelast (cache s) else cache s))
  /\ (forall r0,
        Lru.find (zone, d, la, lo, t) (cache s) = Some r0 ->
        r = r0
        /\ cache s1 = ((zone, d, la, lo, t), r) :: Lru.remove (zone, d, la, lo, t) (cache s))
  /\ (forall k' r',
        Lru.find k' (cache s1) = Some r' ->
        cache (snd (Lru.cached (get_climate_data_body w2) k' s1))
        = (k', r') :: Lru.remove k' (cache s1)).
Proof.
  intros L H. unfold fetches_of.
  assert (K : forall k' r',
             Lru.find k' (cache s1) = Some r' ->
             cache (snd (Lru.cached (get_climate_data_body w2) k' s1))
             = (k', r') :: Lru.remove k' (cache s1)).
  { intros k' r' F'. rewrite (cached_hit _ _ _ r') by exact F'. reflexivity. }
  destruct (Lru.find (zone, d, la, lo, t) (cache s)) as [r0|] eqn:M.
  - rewrite (get_climate_data_hit _ _ _ _ _ _ _ r0) in H by exact M.
    injection H as <- <-. unfold fetch_count. cbn [fetch_log cache heap].
    assert (F : Lru.find (zone, d, la, lo, t)
                  (Lru.touch (zone, d, la, lo, t) r0 (cache s)) = Some r0)
      by apply find_front.
    split; [lia|]. split.
    { eexists. split; [apply get_climate_data_hit; exact F|].
      cbn [fetch_log heap cache]. split; [lia|]. split; [reflexivity|].
      unfold Lru.touch. rewrite remove_front. reflexivity. }
    split.
    { unfold Lru.touch. cbn [List.length].
      rewrite (length_remove_found _ _ _ M). exact L. }
    split; [discriminate|]. split; [|exact K].
    intros r1 [= <-]. split; reflexivity.
  - destruct (resolve_coords zone la lo t) as [c|e] eqn:R.
    2:{ rewrite (get_climate_data_unknown _ _ _ _ _ _ _ e) in H by assumption.
        discriminate. }
    rewrite (get_climate_data_miss _ _ _ _ _ _ _ c) in H by assumption.
    destruct (normalize _) as [df|e]; [|discriminate].
    injection H as <- <-. unfold fetch_count. cbn [fetch_log cache heap List.length].
    assert (F : Lru.find (zone, d, la, lo, t)
                  (Lru.store (zone, d, la, lo, t) (List.length (heap s)) (cache s))
                = Some (List.length (heap s))) by apply find_front.
    split; [lia|]. split.
    { eexists. split; [apply get_climate_data_hit; exact F|].
      cbn [fetch_log heap cache List.length]. split; [lia|]. split; [reflexivity|].
      unfold Lru.touch, Lru.store. rewrite remove_front. reflexivity. }
    split; [apply length_store; exact L|]. split; [reflexivity|].
    split; [discriminate | exact K].
Qed.


Lemma served_key_is_front (w : World) (zone : string) (d : Z) (la lo : option Q)
    (t : option string) (s s1 : State) (r : ref) :
  get_climate_data w zone d la lo t s = (Ok r, s1) ->
  exists c', cache s1 = ((zone, d, la, lo, t), r) :: c'.
Proof.
  intros H.
  destruct (Lru.find (zone, d, la, lo, t) (cache s)) as [r0|] eqn:F.
  - rewrite (get_climate_data_hit _ _ _ _ _ _ _ r0) in H by exact F.
    injection H as <- <-. eexists. reflexivity.
  - destruct (resolve_coords zone la lo t) as [c|e] eqn:R.
    + rewrite (get_climate_data_miss _ _ _ _ _ _ _ c) in H by assumption.
      destruct (normalize _); [|discriminate].
      injection H as <- <-. eexists. reflexivity.
    + rewrite (get_climate_data_unknown _ _ _ _ _ _ _ e) in H by assumption.
      discriminate.
Qed.

Lemma resolve_catalog (zone : string) (t : option string) (c : Coords) :
  zone_lookup (Str.lower zone) ZONE_COORDINATES = Some c ->
  resolve_coords zone None None t = Ok c.
Proof. intros H. unfold resolve_coords. rewrite H. reflexivity. Qed.


(** ** Zone resolution and input validation *)

Lemma zone_unknown_lookup (z : string) :
  zone_known z = false -> zone_lookup z ZONE_COORDINATES = None.
Proof.
  unfold zone_known. destruct (zone_lookup z ZONE_COORDINATES); [discriminate|reflexivity].
Qed.

Lemma resolve_unknown (zone : string) (la lo : option Q) (t : option string) :
  zone_known (Str.lower zone) = false ->
  la = None \/ lo = None ->
  resolve_coords zone la lo t
  = Raise (mkExn ValueError
             ("Zone '" ++ zone ++ "' not available and no coordinates provided.")).
Proof.
  intros U C. apply zone_unknown_lookup in U. unfold resolve_coords. rewrite U.
  destruct C as [-> | ->]; [|destruct la]; reflexivity.
Qed.

Lemma missing_coordinate (la lo : option Q) :
  la = None \/ lo = None ->
  (match la with None => true | Some _ => false end
   || match lo with None => true | Some _ => false end) = true.
Proof. intros [-> | ->]; [|destruct la]; reflexivity. Qed.

(** On a body whose fields have the documented types, [analyze] as it
    reads the body is [analyze] on the typed request. *)
Lemma analyze_of_req (w : World) (data : Req.t) (s : State) :
  Wire.analyze w (Wire.of_req data) s = analyze w data s.
Proof.
  destruct data as [u z d la lo t].
  destruct u, z, d; reflexivity.
Qed.

(** C7, as the code has it. A request with fields of the documented types
    whose zone is not in the catalog under its lower-cased name, and that
    lacks a coordinate, is refused by [analyze] with status 400 and with no
    forecast fetch (the state is untouched).  The check of
    the user type comes first: the error is the unknown-zone message when
    the user type is a valid one, and the user-type message otherwise.  The
    fetcher itself, called for such a zone, raises [ValueError] before it
    builds a request.  The catalog zone "new-york" without coordinates
    resolves to 40.7128, -74.0060, "America/New_York". *)
Theorem unknown_zone_is_rejected (w : World) (data : Req.t) (s : State) :
  zone_known (Str.lower (req_zone data)) = false ->
  Req.lat data = None \/ Req.lon data = None ->
  Wire.analyze w (Wire.of_req data) s
  = (error_400
       (if Str.mem (req_user_type data) ["home"; "industry"]
        then unknown_zone_message (req_zone data)
        else USER_TYPE_MESSAGE), s)
  /\ (forall d,
        Lru.find (req_zone data, d, Req.lat data, Req.lon data, Req.tz data) (cache s)
        = None ->
        get_climate_data w (req_zone data) d (Req.lat data) (Req.lon data)
          (Req.tz data) s
        = (Raise (mkExn ValueError
                    ("Zone '" ++ req_zone data
                     ++ "' not available and no coordinates provided.")), s))
  /\ resolve_coords "new-york" None None None = Ok NEW_YORK.
Proof.
  intros U C. unfold req_zone, req_user_type in *.
  split; [|split; [|reflexivity]].
  - rewrite analyze_of_req. unfold analyze, analyze_checked.
    destruct (Str.mem _ _); cbn [negb]; [|reflexivity].
    rewrite U, (missing_coordinate _ _ C). reflexivity.
  - intros d M.
    apply get_climate_data_unknown; [exact M|]. apply resolve_unknown; assumption.
Qed.

Lemma analyze_rejects_horizon (w : World) (data : Req.t) (s : State) :
  get (Req.days data) 30 < 7 \/ 365 < get (Req.days data) 30 ->
  snd (analyze w data s) = s /\ status (fst (analyze w data s)) = 400.
Proof.
  intros R. unfold analyze, analyze_checked.
  destruct (negb (Str.mem _ _)); [split; reflexivity|].
  destruct (negb (zone_known _) && _)%bool; [split; reflexivity|].
  assert (V : ((7 <=? get (Req.days data) 30)%Z && (get (Req.days data) 30 <=? 365)%Z)%bool
              = false).
  { apply andb_false_iff. destruct R; [left | right]; apply Z.leb_gt; assumption. }
  rewrite V. split; reflexivity.
Qed.

Lemma export_csv_fetches (w : World) (data : Req.t) (s : State) (c : Coords) :
  Lru.find (get (Req.zona data) "new-york", get (Req.days data) 30, Req.lat data,
            Req.lon data, Req.tz data) (cache s) = None ->
  resolve_coords (get (Req.zona data) "new-york") (Req.lat data) (Req.lon data)
    (Req.tz data) = Ok c ->
  fetch_log (snd (export_csv w data s))
  = build_params w c (get (Req.days data) 30) :: fetch_log s.
Proof.
  intros M R. unfold export_csv, export_csv_checked, Prog.bind.
  rewrite (get_climate_data_miss _ _ _ _ _ _ _ c) by assumption.
  destruct (normalize _) as [df|e]; [|reflexivity].
  unfold Prog.deref, Prog.on_frame. cbn [heap].
  destruct (nth_error _ _); reflexivity.
Qed.

(** C2 (the code at the failing inputs). [export_csv] does not check the
    horizon: with days = 6 and with days = 366 it sends a forecast request,
    for the range [today, today + days], where [analyze] refuses the same
    horizon with status 400 and no fetch. *)
Theorem export_csv_fetches_out_of_range (w : World) :
  fetch_log (snd (export_csv w (horizon_request 6) initial))
  = [build_params w NEW_YORK 6]
  /\ fetch_log (snd (export_csv w (horizon_request 366) initial))
     = [build_params w NEW_YORK 366]
  /\ analyze w (horizon_request 6) initial
     = (error_400 "Days range must be between 7 and 365", initial)
  /\ analyze w (horizon_request 366) initial
     = (error_400 "Days range must be between 7 and 365", initial).
Proof.
  split; [|split; [|split; reflexivity]].
  - apply (export_csv_fetches w (horizon_request 6) initial NEW_YORK); reflexivity.
  - apply (export_csv_fetches w (horizon_request 366) initial NEW_YORK); reflexivity.
Qed.

(** ** The requested date range *)

Lemma length_date_range (a b : Z) :
  List.length (date_range a b) = Z.to_nat (b - a + 1).
Proof. unfold date_range. rewrite length_map, length_seq. reflexivity. Qed.

Lemma offsets_increasing (a : Z) (n st : nat) :
  StronglySorted Z.lt (map (fun i => a + Z.of_nat i) (seq st n)).
Proof.
  revert st. induction n as [|n IH]; intros st; simpl.
  - constructor.
  - constructor; [apply IH|].
    apply Forall_forall. intros y Hy. apply in_map_iff in Hy.
    destruct Hy as (i & <- & Hi). apply in_seq in Hi. lia.
Qed.

Lemma date_range_increasing (a b : Z) : StronglySorted Z.lt (date_range a b).
Proof. apply offsets_increasing. Qed.

Lemma all_equal_lengths (n : nat) (l : list (string * Series)) :
  forallb (fun col => Nat.eqb (List.length (snd col)) n) l = true ->
  all_equal (n :: map (fun c => List.length (snd c)) l) = true.
Proof.
  unfold all_equal. induction l as [|c l IH]; simpl; [reflexivity|].
  intros H. apply andb_true_iff in H. destruct H as [H1 H2].
  rewrite Nat.eqb_sym, H1. apply IH, H2.
Qed.

Lemma nth_error_new {A} (l : list A) (a : A) :
  nth_error (l ++ [a]) (List.length l) = Some a.
Proof.
  rewrite nth_error_app2 by lia. rewrite Nat.sub_diag. reflexivity.
Qed.

(** C8 (the code, and the code at the failing input). The fetch reads the
    clock once for the first day and once more for the last day (lines 76
    and 77).  For a horizon [h] in [7, 365] and a catalog zone that is not
    cached, the provider is asked for the days from the first reading to
    the second reading plus [h].  When both readings fall on the same day
    that is [h + 1] days in strictly increasing order, and a provider that
    answers with exactly the requested days gives a series of [h + 1] daily
    records.  When midnight passes between the two readings it is [h + 2]
    days, and so is the series then. *)
Theorem fetch_range_follows_two_clock_readings (w : World) (zone : string) (h : Z)
    (t : option string) (s : State) (c : Coords) :
  7 <= h <= 365 ->
  Lru.find (zone, h, None, None, t) (cache s) = None ->
  zone_lookup (Str.lower zone) ZONE_COORDINATES = Some c ->
  fetch_log (snd (get_climate_data w zone h None None t s))
  = request_for c (today w) (today_again w + h) :: fetch_log s
  /\ (today_again w = today w ->
      List.length (date_range (today w) (today_again w + h)) = Z.to_nat (h + 1)
      /\ StronglySorted Z.lt (date_range (today w) (today_again w + h)))
  /\ (today_again w = today w + 1 ->
      List.length (date_range (today w) (today_again w + h)) = Z.to_nat (h + 2))
  /\ (forall dd,
        provider w (request_for c (today w) (today_again w + h)) = Payload (Some dd) ->
        time dd = Some (date_range (today w) (today_again w + h)) ->
        forallb (fun col =>
                   Nat.eqb (List.length (snd col))
                     (List.length (date_range (today w) (today_again w + h))))
                (arrays dd) = true ->
        exists r s1 df,
          get_climate_data w zone h None None t s = (Ok r, s1)
          /\ nth_error (heap s1) r = Some df
          /\ Date df = date_range (today w) (today_again w + h)).
Proof.
  intros Hh M Z.
  assert (R : resolve_coords zone None None t = Ok c) by (apply resolve_catalog, Z).
  assert (B : build_params w c h = request_for c (today w) (today_again w + h))
    by reflexivity.
  split.
  { rewrite (get_climate_data_miss _ _ _ _ _ _ _ c) by assumption.
    rewrite B. destruct (normalize _); reflexivity. }
  split.
  { intros E. rewrite E. split; [|apply date_range_increasing].
    rewrite length_date_range. f_equal. lia. }
  split.
  { intros E. rewrite E, length_date_range. f_equal. lia. }
  intros dd PR T A.
  assert (F : frame_of_daily dd
              = Ok (mkDataFrame (date_range (today w) (today_again w + h)) (arrays dd))).
  { unfold frame_of_daily. rewrite T. cbn [app].
    rewrite all_equal_lengths by exact A. reflexivity. }
  rewrite (get_climate_data_miss _ _ _ _ _ _ _ c) by assumption.
  rewrite B. unfold normalize. rewrite PR, F.
  do 3 eexists. split; [reflexivity|]. cbn [heap].
  split; [apply nth_error_new | reflexivity].
Qed.

(** ** The pipeline *)

Lemma nth_error_update {A} (l : list A) (n : nat) (a b : A) :
  nth_error l n = Some a -> nth_error (Prog.update n b l) n = Some b.
Proof.
  revert n. induction l as [|x l IH]; intros [|n]; simpl; try discriminate.
  - reflexivity.
  - apply IH.
Qed.

Lemma update_update {A} (l : list A) (n : nat) (a b : A) :
  Prog.update n b (Prog.update n a l) = Prog.update n b l.
Proof.
  revert n. induction l as [|x l IH]; intros [|n]; simpl; try reflexivity.
  f_equal. apply IH.
Qed.

Lemma generate_ai_suggestion_runs (w : World) (m : EnergyMetrics)
    (u zone : string) (days : Z) (ctx : string) (s : State) :
  context_lookup u user_context = Some ctx ->
  generate_ai_suggestion w m u zone days s
  = (Ok (advisory w (prompt_text m u zone days ctx)),
     mkState (heap s) (cache s) (fetch_log s)
             (prompt_text m u zone days ctx :: gen_log s)).
Proof.
  intros C. unfold generate_ai_suggestion, advisory. rewrite C.
  unfold Prog.try_except, call_model, Prog.bind, log_prompt, Prog.lift, Prog.ret.
  destruct (generate_content w _); reflexivity.
Qed.

Lemma analyze_pipeline_runs (w : World) (u zone : string) (days : Z)
    (la lo : option Q) (t : option string) (s s1 : State) (r : ref)
    (df : DataFrame) (a x rr c h : Series) (ctx : string) (charts : string * string) :
  get_climate_data w zone days la lo t s = (Ok r, s1) ->
  nth_error (heap s1) r = Some df ->
  has_columns df a x rr c h ->
  context_lookup u user_context = Some ctx ->
  savefig w (with_helper_columns df a rr c) zone = Ok charts ->
  analyze_pipeline w u zone days la lo t s
  = (Ok (success_response w u zone days (metrics_of a x rr c h)
           (advisory w (prompt_text (metrics_of a x rr c h) u zone days ctx))
           charts),
     mkState (Prog.update r (with_helper_columns df a rr c) (heap s1))
             (cache s1) (fetch_log s1)
             (prompt_text (metrics_of a x rr c h) u zone days ctx :: gen_log s1)).
Proof.
  intros G N C U V.
  unfold analyze_pipeline. unfold Prog.bind at 1. rewrite G.
  unfold Prog.bind at 1. unfold Prog.on_frame at 1. rewrite N.
  rewrite (calculate_energy_metrics_runs df a x rr c h C).
  unfold Prog.bind at 1.
  rewrite (generate_ai_suggestion_runs _ _ _ _ _ ctx) by exact U.
  unfold Prog.bind at 1. unfold generate_charts, Prog.bind at 1.
  unfold Prog.deref, Prog.on_frame. cbn [heap cache fetch_log gen_log].
  rewrite (nth_error_update _ _ df) by exact N.
  unfold Prog.lift. rewrite V. unfold Prog.bind, Prog.ret.
  rewrite update_update. reflexivity.
Qed.

(** ** Worked inputs *)

Lemma repeated_request_on_full_cache :
  List.length (cache Demo.full_state) = Lru.maxsize
  /\ fetch_count Demo.after_overflow = S (fetch_count Demo.full_state)
  /\ (exists s2,
        get_climate_data Demo.failing_world "miami" 200 None None None
          Demo.after_overflow = (Ok 100%nat, s2)
        /\ fetch_count s2 = 101%nat
        /\ heap s2 = heap Demo.after_overflow
        /\ cache s2 = cache Demo.after_overflow)
  /\ Lru.find ("miami", 7, None, None, None) (cache Demo.full_state) = Some 0%nat
  /\ Lru.find ("miami", 7, None, None, None) (cache Demo.after_overflow) = None
  /\ Lru.find ("miami", 8, None, None, None) (cache Demo.after_overflow) = Some 1%nat.
Proof.
  assert (L : (List.length (cache Demo.full_state) <= Lru.maxsize)%nat)
    by (vm_compute; lia).
  assert (M : Lru.find ("miami", 200, None, None, None) (cache Demo.full_state) = None)
    by (vm_compute; reflexivity).
  assert (E : get_climate_data Demo.world "miami" 200 None None None Demo.full_state
              = (Ok 100%nat, Demo.after_overflow))
    by (vm_compute; reflexivity).
  destruct (repeated_request_fetches_once Demo.world Demo.failing_world
              "miami" 200 None None None Demo.full_state Demo.after_overflow 100%nat
              L E)
    as (F1 & (s2 & G2 & F2 & H2 & C2) & _ & C & _).
  specialize (C M).
  split; [vm_compute; reflexivity|].
  split; [rewrite F1; vm_compute; reflexivity|]. split.
  - exists s2. split; [exact G2|]. split; [|split; assumption].
    rewrite F2. vm_compute. reflexivity.
  - split; [vm_compute; reflexivity|].
    rewrite C. split; vm_compute; reflexivity.
Defined.

(** The claim of C5 as it was stated fails when the first call raises: a
    call that raises stores nothing, so the same request made again calls
    the provider again.  And two calls that both return cost no forecast
    call at all when the key is cached already. *)
Lemma failed_request_is_fetched_again :
  (List.length (cache initial) <= Lru.maxsize)%nat
  /\ (exists e,
        fst (get_climate_data out_of_service_world "new-york" 30 None None None initial)
        = Raise e)
  /\ cache (snd (get_climate_data out_of_service_world "new-york" 30 None None None
                   initial)) = []
  /\ fetch_count
       (snd (get_climate_data out_of_service_world "new-york" 30 None None None
               (snd (get_climate_data out_of_service_world "new-york" 30 None None None
                       initial)))) = 2%nat
  /\ (List.length (cache Demo.after_Miami) <= Lru.maxsize)%nat
  /\ fetch_count
       (snd (get_climate_data Demo.world "Miami" 30 None None None
               (snd (get_climate_data Demo.world "Miami" 30 None None None
                       Demo.after_Miami))))
     = fetch_count Demo.after_Miami.
Proof.
  split; [vm_compute; lia|]. split; [eexists; vm_compute; reflexivity|].
  split; [vm_compute; reflexivity|]. split; [vm_compute; reflexivity|].
  split; [vm_compute; lia | vm_compute; reflexivity].
Qed.


Lemma unknown_place_is_rejected :
  analyze Demo.world (Req.mk None (Some "Unknown-Place") None None None None) initial
  = (error_400 (unknown_zone_message "Unknown-Place"), initial)
  /\ get_climate_data Demo.world "Unknown-Place" 30 None None None initial
     = (Raise (mkExn ValueError
                 "Zone 'Unknown-Place' not available and no coordinates provided."),
        initial)
  /\ resolve_coords "new-york" None None None = Ok NEW_YORK.
Proof.
  pose proof (unknown_zone_is_rejected Demo.world
                (Req.mk None (Some "Unknown-Place") None None None None) initial
                eq_refl (or_introl eq_refl)) as (A1 & A2 & A3).
  split; [|split; [exact (A2 30 eq_refl) | exact A3]].
  rewrite <- analyze_of_req. exact A1.
Defined.

(** The claim of C7 as it was stated fails on two counts.  With a user type
    that is not a valid one, a request for an unknown zone is refused for
    its user type, not as an unknown zone.  And with [days] that [int]
    cannot convert, it is not refused as input at all: the conversion
    raises before any check and the answer is 500. *)
Lemma unknown_zone_is_not_always_reported :
  zone_known (Str.lower "Atlantis") = false
  /\ Wire.analyze Demo.world
       (Wire.of_req (Req.mk (Some "office") (Some "Atlantis") None None None None))
       initial
     = (error_400 USER_TYPE_MESSAGE, initial)
  /\ USER_TYPE_MESSAGE <> unknown_zone_message "Atlantis"
  /\ status (fst (Wire.analyze Demo.world
                    (Wire.Parsed (Wire.VDict
                       (Wire.mkFields None (Some (Wire.VStr "Atlantis"))
                          (Some (Wire.VStr "abc")) None None None)))
                    initial)) = 500
  /\ status (fst (Wire.analyze Demo.world
                    (Wire.Parsed (Wire.VDict
                       (Wire.mkFields None (Some (Wire.VStr "Atlantis"))
                          (Some Wire.VNone) None None None)))
                    initial)) = 500.
Proof.
  split; [reflexivity|]. split; [reflexivity|]. split; [discriminate|].
  split; reflexivity.
Qed.

Lemma thirty_day_horizon_at_midnight :
  (exists r s1 df,
     get_climate_data Demo.world "seattle" 30 None None None initial = (Ok r, s1)
     /\ nth_error (heap s1) r = Some df
     /\ DF.nrows df = 31%nat
     /\ hd_error (Date df) = Some 739621
     /\ last (Date df) 0 = 739651)
  /\ (exists r s1 df,
        get_climate_data midnight_world "seattle" 30 None None None initial = (Ok r, s1)
        /\ nth_error (heap s1) r = Some df
        /\ DF.nrows df = 32%nat
        /\ hd_error (Date df) = Some 739621
        /\ last (Date df) 0 = 739652)
  /\ fetch_log (snd (get_climate_data midnight_world "seattle" 30 None None None initial))
     = [mkRequest 47.6062 (-122.3321) 739621 739652 "MRI_AGCM3_2_S" DAILY_FIELDS
          "America/Los_Angeles"].
Proof.
  assert (H : 7 <= 30 <= 365) by lia.
  pose proof (fetch_range_follows_two_clock_readings Demo.world "seattle" 30 None
                initial (mkCoords 47.6062 (-122.3321) "America/Los_Angeles")
                H eq_refl eq_refl) as (_ & _ & _ & S).
  pose proof (fetch_range_follows_two_clock_readings midnight_world "seattle" 30 None
                initial (mkCoords 47.6062 (-122.3321) "America/Los_Angeles")
                H eq_refl eq_refl) as (Q & _ & _ & N).
  split; [|split; [|exact Q]].
  - destruct (S _ eq_refl eq_refl eq_refl) as (r & s1 & df & G & E & D).
    exists r, s1, df. split; [exact G|]. split; [exact E|].
    unfold DF.nrows. rewrite D. repeat split.
  - destruct (N _ eq_refl eq_refl eq_refl) as (r & s1 & df & G & E & D).
    exists r, s1, df. split; [exact G|]. split; [exact E|].
    unfold DF.nrows. rewrite D. repeat split.
Defined.

(** ** A validated request *)

Lemma analyze_checked_valid (w : World) (data : Req.t) :
  passes_validation data = true ->
  analyze_checked w data
  = analyze_pipeline w (req_user_type data) (req_zone data) (req_days data)
      (Req.lat data) (Req.lon data) (Req.tz data).
Proof.
  unfold passes_validation, analyze_checked, req_user_type, req_zone, req_days.
  intros V. apply andb_true_iff in V. destruct V as [V V3].
  apply andb_true_iff in V. destruct V as [V1 V2].
  rewrite V1, V3. cbn [negb].
  destruct (zone_known _); cbn [negb andb orb] in *; [reflexivity|].
  destruct (Req.lat data), (Req.lon data); try discriminate. reflexivity.
Qed.


Lemma fallback_text_shape (err : string) :
  fallback_text err = FALLBACK_PREFIX ++ err ++ Str.nl ++ Str.nl ++ FALLBACK_ADVICE.
Proof. reflexivity. Qed.

Lemma generate_ai_suggestion_never_failing (w : World) (m : EnergyMetrics)
    (u zone : string) (days : Z) (s : State) :
  generate_ai_suggestion (never_failing w) m u zone days s
  = generate_ai_suggestion w m u zone days s.
Proof.
  unfold generate_ai_suggestion.
  destruct (context_lookup u user_context) as [ctx|]; [|reflexivity].
  unfold Prog.try_except, call_model, Prog.bind, log_prompt, Prog.lift, Prog.ret.
  cbn [never_failing with_generation generate_content]. unfold advisory.
  destruct (generate_content w _); reflexivity.
Qed.

Lemma bind_ext {A B} (m m' : P A) (k k' : A -> P B) (s : State) :
  m s = m' s -> (forall a s1, k a s1 = k' a s1) ->
  Prog.bind m k s = Prog.bind m' k' s.
Proof.
  intros M K. unfold Prog.bind. rewrite M.
  destruct (m' s) as [[a|e] s1]; [apply K | reflexivity].
Qed.

Lemma bind_lift {A B} (r : result A) (k : A -> P B) (s : State) :
  Prog.bind (Prog.lift r) k s
  = match r with Ok a => k a s | Raise e => (Raise e, s) end.
Proof. destruct r; reflexivity. Qed.

Lemma analyze_pipeline_never_failing (w : World) (u zone : string) (d : Z)
    (la lo : option Q) (t : option string) (s : State) :
  analyze_pipeline (never_failing w) u zone d la lo t s
  = analyze_pipeline w u zone d la lo t s.
Proof.
  unfold analyze_pipeline.
  apply bind_ext; [reflexivity | intros r s1].
  apply bind_ext; [reflexivity | intros m s2].
  apply bind_ext; [apply generate_ai_suggestion_never_failing | intros sug s3].
  reflexivity.
Qed.

Lemma wire_analyze_never_failing (w : World) (b : Wire.body) (s : State) :
  Wire.analyze (never_failing w) b s = Wire.analyze w b s.
Proof.
  unfold Wire.analyze.
  assert (E : Wire.analyze_checked (never_failing w) b s = Wire.analyze_checked w b s).
  { destruct b as [e|[| | | | | |data]]; try reflexivity.
    unfold Wire.analyze_checked.
    apply bind_ext; [reflexivity | intros u s1].
    apply bind_ext; [reflexivity | intros days s2].
    destruct (negb (Str.mem _ _)); [reflexivity|].
    apply bind_ext; [reflexivity | intros z s3].
    destruct (negb (zone_known _) && _)%bool; [reflexivity|].
    destruct (negb _); [reflexivity|].
    apply analyze_pipeline_never_failing. }
  rewrite E. reflexivity.
Qed.

Lemma pipeline_response (w : World) (u zone : string) (d : Z)
    (la lo : option Q) (t : option string) (s s' : State) (resp : HttpResponse) :
  analyze_pipeline w u zone d la lo t s = (Ok resp, s') ->
  exists m sug charts, resp = success_response w u zone d m sug charts.
Proof.
  unfold analyze_pipeline. unfold Prog.bind at 1.
  destruct (get_climate_data w zone d la lo t s) as [[r|e] s1]; [|discriminate].
  unfold Prog.bind at 1.
  destruct (Prog.on_frame r calculate_energy_metrics s1) as [[m|e] s2];
    [|discriminate].
  unfold Prog.bind at 1.
  destruct (generate_ai_suggestion w m u zone d s2) as [[sug|e] s3]; [|discriminate].
  unfold Prog.bind at 1.
  destruct (generate_charts w r zone s3) as [[ch|e] s4]; [|discriminate].
  unfold Prog.ret. intros [= <- _]. eauto.
Qed.

(** Whatever [analyze] answers, the advisory is absent or a plain string. *)
Lemma suggestion_is_text (w : World) (b : Wire.body) (s : State) :
  suggestion_of (fst (Wire.analyze w b s)) = None
  \/ exists text, suggestion_of (fst (Wire.analyze w b s)) = Some (JStr text).
Proof.
  unfold Wire.analyze.
  destruct (Wire.analyze_checked w b s) as [[resp|e] s'] eqn:E; [|left; reflexivity].
  cbn [fst].
  destruct b as [e|[| | | | | |data]]; try discriminate.
  unfold Wire.analyze_checked in E. rewrite bind_lift in E.
  destruct (Wire.text _) as [u|e]; [|discriminate].
  rewrite bind_lift in E.
  destruct (Wire.int _) as [days|e]; [|discriminate].
  destruct (negb (Str.mem _ _)); [injection E as <- _; left; reflexivity|].
  rewrite bind_lift in E.
  destruct (Wire.text _) as [z|e]; [|discriminate].
  destruct (negb (zone_known _) && _)%bool; [injection E as <- _; left; reflexivity|].
  destruct (negb _); [injection E as <- _; left; reflexivity|].
  destruct (pipeline_response _ _ _ _ _ _ _ _ _ _ E) as (m & sug & ch & ->).
  right. exists sug. reflexivity.
Qed.

(** C4, as the code has it. When the text-generation call raises,
    [generate_ai_suggestion] returns after that one call (one prompt
    logged, no retry) the fallback string: a fixed prefix, the error text,
    and a fixed recommendation that depends on no data; a text that the
    service returns is passed on as it is.  To the rest of
    the request a service that raises is a service that answers with the
    fallback text: [analyze] answers, and leaves the state, exactly as it
    does with the service that never raises, so the failure itself fails
    no request.  The advisory is absent or a plain string under
    "suggestion": no response has a "source" field. *)
Theorem generation_failure_falls_back (w : World) (b : Wire.body) (s : State) :
  (forall m u zone days ctx s0 e,
      context_lookup u user_context = Some ctx ->
      generate_content w (prompt_text m u zone days ctx) = Raise e ->
      generate_ai_suggestion w m u zone days s0
      = (Ok (fallback_text (message e)),
         mkState (heap s0) (cache s0) (fetch_log s0)
                 (prompt_text m u zone days ctx :: gen_log s0))
      /\ advisory w (prompt_text m u zone days ctx) = fallback_text (message e))
  /\ (forall m u zone days ctx s0 text,
        context_lookup u user_context = Some ctx ->
        generate_content w (prompt_text m u zone days ctx) = Ok text ->
        fst (generate_ai_suggestion w m u zone days s0) = Ok text)
  /\ (forall err,
        fallback_text err
        = FALLBACK_PREFIX ++ err ++ Str.nl ++ Str.nl ++ FALLBACK_ADVICE
        /\ fallback_text err <> "")
  /\ Wire.analyze w b s = Wire.analyze (never_failing w) b s
  /\ ~ advisory_source_is_fallback (fst (Wire.analyze w b s)).
Proof.
  split.
  { intros m u zone days ctx s0 e C E.
    rewrite (generate_ai_suggestion_runs _ _ _ _ _ ctx) by exact C.
    unfold advisory. rewrite E. split; reflexivity. }
  split.
  { intros m u zone days ctx s0 text C E.
    rewrite (generate_ai_suggestion_runs _ _ _ _ _ ctx) by exact C.
    unfold advisory. rewrite E. reflexivity. }
  split.
  { intros err. split; [apply fallback_text_shape|].
    rewrite fallback_text_shape. discriminate. }
  split; [symmetry; apply wire_analyze_never_failing|].
  intros (j & adv & B & S & F).
  destruct (suggestion_is_text w b s) as [N|[text T]];
    unfold suggestion_of in *; rewrite B in *; rewrite S in *.
  - discriminate.
  - injection T as ->. discriminate.
Qed.

Lemma generation_failure_on_default_request :
  status (fst (Wire.analyze Demo.failing_world Wire.empty_object initial)) = 200
  /\ suggestion_of (fst (Wire.analyze Demo.failing_world Wire.empty_object initial))
     = Some (JStr (fallback_text "503 The model is overloaded."))
  /\ gen_count (snd (Wire.analyze Demo.failing_world Wire.empty_object initial)) = 1%nat
  /\ fetch_count (snd (Wire.analyze Demo.failing_world Wire.empty_object initial))
     = 1%nat
  /\ Wire.analyze Demo.failing_world Wire.empty_object initial
     = Wire.analyze (never_failing Demo.failing_world) Wire.empty_object initial
  /\ ~ advisory_source_is_fallback
         (fst (Wire.analyze Demo.failing_world Wire.empty_object initial)).
Proof.
  destruct (generation_failure_falls_back Demo.failing_world Wire.empty_object initial)
    as (_ & _ & _ & E & N).
  split; [vm_compute; reflexivity|]. split; [vm_compute; reflexivity|].
  split; [vm_compute; reflexivity|]. split; [vm_compute; reflexivity|].
  split; [exact E | exact N].
Defined.

(** The claim of C4 as it was stated fails on three counts.  The fallback
    advisory has no "source" field: it is a bare string.  A result that the
    service returns without raising is passed on as it is, here an empty
    text, and no fallback takes its place.  And the request does not always
    succeed: when the charts cannot be drawn either, the answer is 500. *)
Lemma fallback_advisory_has_no_source :
  ((forall p, generate_content Demo.failing_world p
              = Raise (mkExn GenerationError "503 The model is overloaded."))
   /\ status (fst (analyze Demo.failing_world Req.empty initial)) = 200
   /\ ~ advisory_source_is_fallback (fst (analyze Demo.failing_world Req.empty initial)))
  /\ ((forall p, generate_content blank_world p = Ok "")
      /\ status (fst (analyze blank_world Req.empty initial)) = 200
      /\ suggestion_of (fst (analyze blank_world Req.empty initial)) = Some (JStr ""))
  /\ ((forall p, generate_content unrenderable_world p
                 = Raise (mkExn GenerationError "503 The model is overloaded."))
      /\ status (fst (analyze unrenderable_world Req.empty initial)) = 500).
Proof.
  split; [|split].
  - split; [reflexivity|]. split; [vm_compute; reflexivity|].
    intros (j & adv & B & S & F).
    vm_compute in B. injection B as <-.
    vm_compute in S. injection S as <-.
    discriminate.
  - split; [reflexivity|]. split; vm_compute; reflexivity.
  - split; [reflexivity|]. vm_compute. reflexivity.
Qed.

(** ** The cached frame after the metrics ran *)

Lemma assign_new (n : string) (c : Series) (l : list (string * Series)) :
  DF.lookup n l = None -> DF.assign n c l = (l ++ [(n, c)])%list.
Proof.
  induction l as [|[m c0] l IH]; cbn [DF.lookup DF.assign app]; [reflexivity|].
  destruct (String.eqb n m); intros H; [discriminate H|]. f_equal. apply IH, H.
Qed.

Lemma lookup_app_none (n m : string) (c : Series) (l : list (string * Series)) :
  DF.lookup n l = None -> String.eqb n m = false ->
  DF.lookup n (l ++ [(m, c)]) = None.
Proof.
  intros H D. induction l as [|[k c0] l IH]; cbn [DF.lookup app] in *.
  - rewrite D. reflexivity.
  - destruct (String.eqb n k); [discriminate H|]. apply IH, H.
Qed.

Lemma columns_with_helper_columns (df : DataFrame) (a r c : Series) :
  DF.lookup "CDD" (cols df) = None ->
  DF.lookup "Solar_Potential" (cols df) = None ->
  DF.columns (with_helper_columns df a r c)
  = (DF.columns df ++ ["CDD"; "Solar_Potential"])%list.
Proof.
  intros H1 H2. unfold DF.columns, with_helper_columns. cbn [cols].
  rewrite (assign_new "CDD") by exact H1.
  rewrite assign_new.
  - rewrite !map_app, <- app_assoc. reflexivity.
  - apply lookup_app_none; [exact H2 | reflexivity].
Qed.

(** After [analyze], the frame that the cache holds for the request's key
    is the fetched frame plus the two helper columns, and that is what the
    next request for the key is served. *)
Lemma analyze_leaves_helper_columns_in_cache (w w2 : World) (data : Req.t)
    (s s1 : State) (r : ref) (df : DataFrame) (a x rr c h : Series) (ctx : string)
    (charts : string * string) :
  passes_validation data = true ->
  get_climate_data w (req_zone data) (req_days data) (Req.lat data) (Req.lon data)
    (Req.tz data) s = (Ok r, s1) ->
  nth_error (heap s1) r = Some df ->
  has_columns df a x rr c h ->
  context_lookup (req_user_type data) user_context = Some ctx ->
  savefig w (with_helper_columns df a rr c) (req_zone data) = Ok charts ->
  exists s3,
    get_climate_data w2 (req_zone data) (req_days data) (Req.lat data)
      (Req.lon data) (Req.tz data) (snd (analyze w data s)) = (Ok r, s3)
    /\ fetch_log s3 = fetch_log s1
    /\ nth_error (heap s3) r = Some (with_helper_columns df a rr c).
Proof.
  intros V G N C U R.
  unfold analyze. rewrite analyze_checked_valid by exact V.
  rewrite (analyze_pipeline_runs w _ _ _ _ _ _ s s1 r df a x rr c h ctx charts)
    by assumption.
  cbn [snd].
  destruct (served_key_is_front _ _ _ _ _ _ _ _ _ G) as [c' K].
  eexists. split.
  - apply get_climate_data_hit. cbn [cache]. rewrite K. apply find_front.
  - cbn [fetch_log heap]. split; [reflexivity|].
    apply (nth_error_update _ _ df). exact N.
Qed.

(** C3 (the code on a concrete run). The data frame in the cache is the
    object that [calculate_energy_metrics] writes its helper columns into.
    An export before any analysis has the seven fetched columns; after one
    [analyze] of the same request, the export served from the cache (no new
    fetch) has nine: the cached series did not stay as the fetcher made it. *)
Theorem export_after_analyze_shows_helper_columns :
  Demo.csv_columns (fst (export_csv Demo.world Req.empty initial)) = FETCHED_COLUMNS
  /\ status (fst (analyze Demo.world Req.empty
                    (snd (export_csv Demo.world Req.empty initial)))) = 200
  /\ Demo.csv_columns
       (fst (export_csv Demo.world Req.empty
               (snd (analyze Demo.world Req.empty
                       (snd (export_csv Demo.world Req.empty initial))))))
     = (FETCHED_COLUMNS ++ ["CDD"; "Solar_Potential"])%list
  /\ fetch_count
       (snd (export_csv Demo.world Req.empty
               (snd (analyze Demo.world Req.empty
                       (snd (export_csv Demo.world Req.empty initial))))))
     = 1%nat.
Proof. vm_compute. repeat split. Qed.

(** ** Defaults of [analyze] *)

Lemma lower_ascii_idempotent (c : ascii) :
  Str.lower_ascii (Str.lower_ascii c) = Str.lower_ascii c.
Proof. destruct c as [[] [] [] [] [] [] [] []]; reflexivity. Qed.

Lemma lower_ascii_high (c d : ascii) :
  Nat.leb 128 (nat_of_ascii d) = true -> Str.lower_ascii c = d -> c = d.
Proof.
  destruct c as [[] [] [] [] [] [] [] []]; cbn; intros H <-;
    try reflexivity; discriminate.
Qed.

(** [Str.lower] one character on: an ordinary character, or a Kelvin
    sign. *)
Lemma lower_cons (c : ascii) (r : string) :
  Str.lower (String c r) = String (Str.lower_ascii c) (Str.lower r)
  \/ exists r', r = String "132" (String "170" r') /\ c = "226"%char
                /\ Str.lower (String c r) = String "k" (Str.lower r').
Proof.
  cbn [Str.lower]. destruct r as [|c1 [|c2 r']]; try (left; reflexivity).
  destruct (Ascii.eqb c "226" && Ascii.eqb c1 "132" && Ascii.eqb c2 "170")%bool eqn:E.
  - right. apply andb_true_iff in E. destruct E as [E E2].
    apply andb_true_iff in E. destruct E as [E0 E1].
    apply Ascii.eqb_eq in E0, E1, E2. subst. eauto.
  - left. reflexivity.
Qed.

Lemma lower_idempotent_upto (n : nat) (s : string) :
  (String.length s <= n)%nat -> Str.lower (Str.lower s) = Str.lower s.
Proof.
  revert s. induction n as [|n IH]; intros s L.
  - destruct s; [reflexivity | cbn in L; lia].
  - destruct s as [|c r]; [reflexivity|].
    destruct (lower_cons c r) as [E|(r' & -> & -> & E)].
    + rewrite E.
      destruct (lower_cons (Str.lower_ascii c) (Str.lower r))
        as [E'|(r' & R & C & E')].
      * rewrite E', lower_ascii_idempotent, IH; [reflexivity | cbn in L; lia].
      * exfalso.
        apply lower_ascii_high in C; [|reflexivity]. subst c.
        destruct r as [|c1 r1]; [discriminate|].
        destruct (lower_cons c1 r1) as [E1|(r1' & -> & -> & E1)];
          rewrite E1 in R; [|discriminate].
        injection R as C1 R1. apply lower_ascii_high in C1; [|reflexivity]. subst c1.
        destruct r1 as [|c2 r2]; [discriminate|].
        destruct (lower_cons c2 r2) as [E2|(r2' & -> & -> & E2)];
          rewrite E2 in R1; [|discriminate].
        injection R1 as C2 _. apply lower_ascii_high in C2; [|reflexivity]. subst c2.
        cbn in E. discriminate.
    + rewrite E.
      destruct (lower_cons "k" (Str.lower r')) as [E'|(r'' & _ & C & _)];
        [|discriminate].
      rewrite E'. rewrite IH; [reflexivity | cbn in L; lia].
Qed.

Lemma lower_idempotent (s : string) : Str.lower (Str.lower s) = Str.lower s.
Proof. apply (lower_idempotent_upto (String.length s)). lia. Qed.

(** "New-Yor" followed by the Kelvin sign names New York, as in Python. *)
Lemma kelvin_sign_names_new_york :
  resolve_coords ("New-Yor" ++ String "226" (String "132" (String "170" "")))
    None None None
  = Ok NEW_YORK.
Proof. reflexivity. Qed.

Lemma pipeline_keeps_fetch_log (w : World) (u zone : string) (d : Z)
    (la lo : option Q) (t : option string) (s : State) :
  fetch_log (snd (analyze_pipeline w u zone d la lo t s))
  = fetch_log (snd (get_climate_data w zone d la lo t s)).
Proof.
  unfold analyze_pipeline. unfold Prog.bind at 1.
  destruct (get_climate_data w zone d la lo t s) as [[r|e] s1]; [|reflexivity].
  unfold Prog.bind at 1. unfold Prog.on_frame at 1.
  destruct (nth_error (heap s1) r) as [df|]; [|reflexivity].
  destruct (calculate_energy_metrics df) as [[m|e] df']; [|reflexivity].
  unfold Prog.bind at 1. unfold generate_ai_suggestion.
  destruct (context_lookup u user_context) as [ctx|]; [|reflexivity].
  unfold Prog.try_except, call_model, Prog.bind at 1, log_prompt, Prog.lift.
  unfold Prog.bind at 1.
  assert (K : forall sug s',
             fetch_log s' = fetch_log s1 ->
             fetch_log
               (snd (Prog.bind (generate_charts w r zone)
                       (fun charts =>
                          Prog.ret (success_response w u zone d m sug charts)) s'))
             = fetch_log s1).
  { intros sug s' F. unfold Prog.bind at 1. unfold generate_charts, Prog.bind at 1.
    unfold Prog.deref, Prog.on_frame.
    destruct (nth_error (heap s') r); [|exact F].
    unfold Prog.lift. destruct (savefig w _ zone); exact F. }
  destruct (generate_content w _); cbn [snd fetch_log]; apply K; reflexivity.
Qed.

Lemma analyze_state (w : World) (data : Req.t) (s : State) :
  snd (analyze w data s) = snd (analyze_checked w data s).
Proof.
  unfold analyze. destruct (analyze_checked w data s) as [[r|e] s']; reflexivity.
Qed.

(** C10, as the code has it. [analyze] reads an absent [user_type] as
    "home", an absent [zona] as "new-york" and absent [days] as 30, and
    lower-cases the user type before it checks it.  The empty JSON object
    passes validation and runs the pipeline for ("home", "new-york", 30);
    from a cache that lacks the key it asks the provider for New York and
    a horizon of 30 days.  "HOME" is accepted like "home".  The fields that
    are supplied are the ones used: "Industry", "miami" and 7 run the
    pipeline for ("industry", "miami", 7), and a user type that is neither
    "home" nor "industry" in lower case is refused with status 400. *)
Theorem analyze_fills_defaults (w : World) (s : State) :
  Wire.analyze w Wire.empty_object s
  = analyze w (Req.mk (Some "home") (Some "new-york") (Some 30) None None None) s
  /\ analyze_checked w Req.empty s
     = analyze_pipeline w "home" "new-york" 30 None None None s
  /\ (forall u zona days la lo t,
        analyze w (Req.mk (Some u) zona days la lo t) s
        = analyze w (Req.mk (Some (Str.lower u)) zona days la lo t) s)
  /\ analyze_checked w (Req.mk (Some "HOME") None None None None None) s
     = analyze_pipeline w "home" "new-york" 30 None None None s
  /\ analyze_checked w (Req.mk (Some "Industry") (Some "miami") (Some 7) None None None) s
     = analyze_pipeline w "industry" "miami" 7 None None None s
  /\ (forall u zona days la lo t,
        Str.mem (Str.lower u) ["home"; "industry"] = false ->
        analyze w (Req.mk (Some u) zona days la lo t) s
        = (error_400 USER_TYPE_MESSAGE, s))
  /\ (Lru.find ("new-york", 30, None, None, None) (cache s) = None ->
      fetch_log (snd (Wire.analyze w Wire.empty_object s))
      = build_params w NEW_YORK 30 :: fetch_log s).
Proof.
  split; [reflexivity|]. split; [reflexivity|]. split.
  { intros u zona days la lo t. unfold analyze, analyze_checked.
    cbn [Req.user_type Req.zona Req.days Req.lat Req.lon Req.tz get].
    rewrite lower_idempotent. reflexivity. }
  split; [reflexivity|]. split; [reflexivity|]. split.
  { intros u zona days la lo t U. unfold analyze, analyze_checked.
    cbn [Req.user_type get]. rewrite U. reflexivity. }
  intros M.
  change (Wire.analyze w Wire.empty_object s) with (analyze w Req.empty s).
  rewrite analyze_state.
  change (analyze_checked w Req.empty s)
    with (analyze_pipeline w "home" "new-york" 30 None None None s).
  rewrite pipeline_keeps_fetch_log.
  rewrite (get_climate_data_miss _ _ _ _ _ _ _ NEW_YORK) by (exact M || reflexivity).
  destruct (normalize _); reflexivity.
Qed.

Lemma analyze_empty_request :
  Lru.find ("new-york", 30, None, None, None) (cache initial) = None
  /\ fetch_log (snd (Wire.analyze Demo.world Wire.empty_object initial))
     = [build_params Demo.world NEW_YORK 30]
  /\ status (fst (Wire.analyze Demo.world Wire.empty_object initial)) = 200
  /\ status (fst (analyze Demo.world
                    (Req.mk (Some "HOME") None None None None None) initial)) = 200
  /\ status (fst (analyze Demo.world
                    (Req.mk (Some "office") None None None None None) initial)) = 400.
Proof.
  destruct (analyze_fills_defaults Demo.world initial) as (_ & _ & _ & _ & _ & R & F).
  split; [reflexivity|]. split; [exact (F eq_refl)|].
  split; [vm_compute; reflexivity|]. split; [vm_compute; reflexivity|].
  rewrite (R "office" None None None None None eq_refl). reflexivity.
Defined.

(** The claim of C10 as it was stated fails for a request without a body:
    [request.json] raises inside the [try], whatever Flask's exception is,
    and the answer is 500 with nothing fetched.  The same holds for a body
    that is JSON but no object, such as [null]. *)
Lemma empty_body_is_answered_500 :
  (forall e,
     Wire.analyze Demo.world (Wire.NotJson e) initial
     = (error_500 Demo.world (message e), initial))
  /\ status (fst (Wire.analyze Demo.world
                    (Wire.NotJson (mkExn BadRequest
                       "400 Bad Request: Failed to decode JSON object"))
                    initial)) = 500
  /\ Wire.analyze Demo.world (Wire.Parsed Wire.VNone) initial
     = (error_500 Demo.world "'NoneType' object has no attribute 'get'", initial)
  /\ status (fst (Wire.analyze Demo.world Wire.empty_object initial)) = 200.
Proof.
  split; [reflexivity|]. split; [reflexivity|]. split; [reflexivity|].
  vm_compute. reflexivity.
Qed.

(** ** Missing values *)


Lemma complete_present (s : Series) :
  s <> [] -> complete s = true -> Ser.present s <> [].
Proof.
  destruct s as [|[|q] s]; [congruence | discriminate | discriminate].
Qed.










(** * Further properties *)

(** ** The metrics engine on any frame *)

Lemma bind_getitem_missing {A} (n : string) (k : Series -> DF.M A) (df : DataFrame) :
  DF.lookup n (cols df) = None ->
  DF.bind (DF.getitem n) k df = (Raise (missing n), df).
Proof.
  intros H. unfold DF.bind, DF.getitem. rewrite H. reflexivity.
Qed.

Ltac miss_column :=
  rewrite bind_getitem_missing
    by (cbn [cols]; rewrite ?lookup_assign_other by reflexivity; assumption).

(** The outcome of [calculate_energy_metrics] by the columns the frame
    has, in the order the function reads them. *)
Lemma calculate_energy_metrics_cases (df : DataFrame) :
  calculate_energy_metrics df
  = match DF.lookup "Avg_Temp" (cols df) with
    | None => (Raise (missing "Avg_Temp"), df)
    | Some a =>
      match DF.lookup "Max_Temp" (cols df) with
      | None => (Raise (missing "Max_Temp"), df)
      | Some x =>
        match DF.lookup "Solar_Radiation" (cols df) with
        | None => (Raise (missing "Solar_Radiation"), with_cdd df a)
        | Some r =>
          match DF.lookup "Cloud_Cover" (cols df) with
          | None => (Raise (missing "Cloud_Cover"), with_cdd df a)
          | Some c =>
            match DF.lookup "Relative_Humidity" (cols df) with
            | None => (Raise (missing "Relative_Humidity"),
                       with_helper_columns df a r c)
            | Some h => (Ok (metrics_of a x r c h), with_helper_columns df a r c)
            end
          end
        end
      end
    end.
Proof.
  destruct (DF.lookup "Avg_Temp" (cols df)) as [a|] eqn:Ha.
  2:{ unfold calculate_energy_metrics. miss_column. reflexivity. }
  destruct (DF.lookup "Max_Temp" (cols df)) as [x|] eqn:Hx.
  2:{ unfold calculate_energy_metrics. repeat step_frame. miss_column. reflexivity. }
  destruct (DF.lookup "Solar_Radiation" (cols df)) as [r|] eqn:Hr.
  2:{ unfold calculate_energy_metrics. repeat step_frame. miss_column. reflexivity. }
  destruct (DF.lookup "Cloud_Cover" (cols df)) as [c|] eqn:Hc.
  2:{ unfold calculate_energy_metrics. repeat step_frame. miss_column. reflexivity. }
  destruct (DF.lookup "Relative_Humidity" (cols df)) as [h|] eqn:Hh.
  2:{ unfold calculate_energy_metrics. repeat step_frame. miss_column. reflexivity. }
  apply calculate_energy_metrics_runs. repeat split; assumption.
Qed.

Lemma metrics_need_five_columns_aux (df : DataFrame) :
  (exists m df', calculate_energy_metrics df = (Ok m, df'))
  <-> (exists a x r c h, has_columns df a x r c h).
Proof.
  rewrite calculate_energy_metrics_cases. unfold has_columns.
  destruct (DF.lookup "Avg_Temp" (cols df)) as [a|];
    [destruct (DF.lookup "Max_Temp" (cols df)) as [x|];
     [destruct (DF.lookup "Solar_Radiation" (cols df)) as [r|];
      [destruct (DF.lookup "Cloud_Cover" (cols df)) as [c|];
       [destruct (DF.lookup "Relative_Humidity" (cols df)) as [h|]|]|]|]|].
  1:{ split; intros _; [exists a, x, r, c, h; repeat split | eauto]. }
  all: split;
    [ intros (m & df' & [=])
    | intros (a' & x' & r' & c' & h' & H1 & H2 & H3 & H4 & H5); discriminate ].
Qed.



(** X2. Whatever the frame and whether or not it raises,
    [calculate_energy_metrics] leaves the dates and every column other than
    its two helper columns as they were. *)
Theorem metrics_keep_fetched_columns (df : DataFrame) (n : string) :
  String.eqb n "CDD" = false ->
  String.eqb n "Solar_Potential" = false ->
  Date (snd (calculate_energy_metrics df)) = Date df
  /\ DF.lookup n (cols (snd (calculate_energy_metrics df))) = DF.lookup n (cols df).
Proof.
  intros N1 N2. rewrite calculate_energy_metrics_cases.
  destruct (DF.lookup "Avg_Temp" (cols df)) as [a|];
    [destruct (DF.lookup "Max_Temp" (cols df)) as [x|];
     [destruct (DF.lookup "Solar_Radiation" (cols df)) as [r|];
      [destruct (DF.lookup "Cloud_Cover" (cols df)) as [c|];
       [destruct (DF.lookup "Relative_Humidity" (cols df)) as [h|]|]|]|]|];
    cbn [snd with_cdd with_helper_columns Date cols];
    rewrite ?lookup_assign_other by assumption; split; reflexivity.
Qed.

Lemma metrics_keep_wind_speed :
  String.eqb "Wind_Speed" "CDD" = false
  /\ String.eqb "Wind_Speed" "Solar_Potential" = false
  /\ DF.lookup "Wind_Speed" (cols (snd (calculate_energy_metrics Demo.week_frame)))
     = Some (Demo.constant 7 12).
Proof.
  split; [reflexivity|]. split; [reflexivity|].
  destruct (metrics_keep_fetched_columns Demo.week_frame "Wind_Speed" eq_refl eq_refl)
    as [_ L].
  rewrite L. reflexivity.
Defined.

Lemma assign_present (n : string) (c : Series) (l : list (string * Series)) :
  DF.lookup n l = Some c -> DF.assign n c l = l.
Proof.
  induction l as [|[m c0] l IH]; cbn [DF.lookup DF.assign]; [discriminate|].
  destruct (String.eqb n m) eqn:E.
  - intros [= ->]. reflexivity.
  - intros H. f_equal. apply IH, H.
Qed.

Lemma has_columns_after (df : DataFrame) (a x r c h : Series) :
  has_columns df a x r c h ->
  has_columns (with_helper_columns df a r c) a x r c h.
Proof.
  intros (Ha & Hx & Hr & Hc & Hh). unfold has_columns, with_helper_columns.
  cbn [cols]. rewrite !lookup_assign_other by reflexivity. repeat split; assumption.
Qed.

Lemma with_helper_columns_fixpoint (df : DataFrame) (a r c : Series) :
  with_helper_columns (with_helper_columns df a r c) a r c
  = with_helper_columns df a r c.
Proof.
  unfold with_helper_columns. cbn [Date cols]. f_equal.
  rewrite (assign_present "CDD").
  - apply assign_present, lookup_assign_same.
  - rewrite lookup_assign_other by reflexivity. apply lookup_assign_same.
Qed.

(** X3. Running [calculate_energy_metrics] again on the frame it has
    already worked on gives the same metrics and changes the frame no
    further: the helper columns are overwritten with the values they hold. *)
Theorem metrics_twice (df df1 : DataFrame) (m : EnergyMetrics) :
  calculate_energy_metrics df = (Ok m, df1) ->
  calculate_energy_metrics df1 = (Ok m, df1).
Proof.
  intros H.
  assert (C : exists a x r c h, has_columns df a x r c h).
  { apply (proj1 (metrics_need_five_columns_aux df)). eauto. }
  destruct C as (a & x & r & c & h & C).
  rewrite (calculate_energy_metrics_runs df a x r c h C) in H.
  injection H as <- <-.
  rewrite (calculate_energy_metrics_runs _ a x r c h (has_columns_after _ _ _ _ _ _ C)).
  rewrite with_helper_columns_fixpoint. reflexivity.
Qed.

Lemma metrics_twice_week_frame :
  exists m df1,
    calculate_energy_metrics Demo.week_frame = (Ok m, df1)
    /\ calculate_energy_metrics df1 = (Ok m, df1).
Proof.
  destruct (calculate_energy_metrics Demo.week_frame) as [[m|e] df1] eqn:E;
    [|vm_compute in E; discriminate].
  exists m, df1. split; [reflexivity|].
  exact (metrics_twice Demo.week_frame df1 m E).
Defined.

(** ** The day counts *)

Lemma count_le_length (m : list bool) : 0 <= Ser.count m <= Z.of_nat (List.length m).
Proof.
  unfold Ser.count. pose proof (filter_length_le (fun b : bool => b) m). lia.
Qed.

Lemma count_cons (b : bool) (m : list bool) :
  Ser.count (b :: m) = (if b then 1 else 0) + Ser.count m.
Proof.
  unfold Ser.count. cbn [filter]. destruct b; cbn [List.length]; lia.
Qed.

Lemma count_exclusive (f g : pyfloat -> bool) (s : Series) :
  (forall v, f v && g v = false) ->
  Ser.count (map f s) + Ser.count (map g s) <= Z.of_nat (List.length s).
Proof.
  intros D. induction s as [|v s IH]; [cbn; lia|].
  cbn [map]. rewrite !count_cons. specialize (D v).
  cbn [List.length]. destruct (f v), (g v); try discriminate; lia.
Qed.

Lemma count_band_le (a b : list bool) : Ser.count (Ser.band a b) <= Ser.count a.
Proof.
  revert b. induction a as [|x a IH]; intros [|y b]; cbn [Ser.band].
  - lia.
  - lia.
  - pose proof (count_le_length (x :: a)). unfold Ser.count at 1. cbn. lia.
  - rewrite !count_cons. specialize (IH b). destruct x, y; cbn [andb]; lia.
Qed.

Lemma hot_is_not_comfortable (c : Q) (v : pyfloat) :
  (TEMP_COMFORT <= c)%Q -> Float.gt v c && Float.le v TEMP_COMFORT = false.
Proof.
  intros H. destruct v as [|q]; [reflexivity|]. cbn [Float.gt Float.le].
  destruct (Qle_bool q c) eqn:E1; [reflexivity|].
  destruct (Qle_bool q TEMP_COMFORT) eqn:E2; [|reflexivity].
  apply Qle_bool_iff in E2.
  assert (E : Qle_bool q c = true) by (apply Qle_bool_iff; eapply Qle_trans; eauto).
  congruence.
Qed.

(** X4. The day counts of the metrics are counts of days of the series:
    none is negative, an extreme-heat day (above 35) is never a comfortable
    day (at most 24), so the two together do not exceed the number of days;
    the same holds for high-demand and comfortable days; and a high-demand
    day is a day above 32, so there are no more of them than such days. *)
Theorem day_counts_bounded (df : DataFrame) (a x r c h : Series) :
  has_columns df a x r c h ->
  exists m df',
    calculate_energy_metrics df = (Ok m, df')
    /\ 0 <= extreme_heat_days m
    /\ 0 <= comfortable_days m
    /\ 0 <= high_demand_days m
    /\ 0 <= optimal_solar_days m <= Z.of_nat (List.length c)
    /\ extreme_heat_days m + comfortable_days m <= Z.of_nat (List.length x)
    /\ high_demand_days m + comfortable_days m <= Z.of_nat (List.length x)
    /\ high_demand_days m <= Ser.count (Ser.gt x 32).
Proof.
  intros H. exists (metrics_of a x r c h), (with_helper_columns df a r c).
  split; [apply calculate_energy_metrics_runs, H|].
  cbn [metrics_of extreme_heat_days comfortable_days high_demand_days
       optimal_solar_days].
  split; [apply count_le_length|]. split; [apply count_le_length|].
  split; [apply count_le_length|]. split.
  - pose proof (count_le_length (Ser.lt c 40)) as B.
    unfold Ser.lt in B. rewrite length_map in B. exact B.
  - split; [|split].
    + apply (count_exclusive (fun v => Float.gt v TEMP_EXTREME)
               (fun v => Float.le v TEMP_COMFORT)).
      intros v. apply hot_is_not_comfortable. discriminate.
    + pose proof (count_band_le (Ser.gt x 32) (Ser.gt h 60)) as B.
      pose proof (count_exclusive (fun v => Float.gt v 32)
                    (fun v => Float.le v TEMP_COMFORT) x) as E.
      unfold Ser.gt, Ser.le in *.
      assert (D : forall v, Float.gt v 32 && Float.le v TEMP_COMFORT = false)
        by (intros v; apply hot_is_not_comfortable; discriminate).
      specialize (E D). lia.
    + apply count_band_le.
Qed.

Lemma day_counts_week_frame :
  exists m df',
    calculate_energy_metrics Demo.week_frame = (Ok m, df')
    /\ extreme_heat_days m + comfortable_days m <= 7
    /\ high_demand_days m + comfortable_days m <= 7.
Proof.
  assert (H : has_columns Demo.week_frame (map Fin week_temps) (Demo.constant 7 33)
                (Demo.constant 7 20) (Demo.constant 7 30) (Demo.constant 7 65))
    by (repeat split).
  destruct (day_counts_bounded Demo.week_frame _ _ _ _ _ H)
    as (m & df' & E & _ & _ & _ & _ & B1 & B2 & _).
  exists m, df'. split; [exact E|]. split; [exact B1 | exact B2].
Defined.

(** ** Cooling degree days of a cool series *)

Lemma degree_days_cool (l : list Q) :
  Forall (fun t => (t <= TEMP_COMFORT)%Q) l -> (degree_days l == 0)%Q.
Proof.
  induction 1 as [|t l Ht _ IH]; cbn [degree_days]; [reflexivity|].
  rewrite IH. rewrite Q.max_r.
  - ring.
  - unfold TEMP_COMFORT in Ht. unfold Qminus.
    setoid_replace 0%Q with (24 + - 24)%Q by ring.
    apply Qplus_le_compat; [exact Ht | apply Qle_refl].
Qed.

(** X5. When no day's average temperature is above 24 degrees, the cooling
    degree days are exactly 0. *)
Theorem cdd_zero_when_cool (df : DataFrame) (a x r c h : Series) :
  has_columns df a x r c h ->
  Forall (fun t => (t <= TEMP_COMFORT)%Q) (Ser.present a) ->
  exists m df', calculate_energy_metrics df = (Ok m, df') /\ cdd_total m = Fin 0.
Proof.
  intros H Cool. exists (metrics_of a x r c h), (with_helper_columns df a r c).
  split; [apply calculate_energy_metrics_runs, H|].
  cbn [metrics_of cdd_total]. unfold Ser.sum, Float.round1. f_equal.
  rewrite present_cdd_column.
  rewrite (round1q_compat _ 0); [reflexivity|].
  rewrite qsum_degree_days. apply degree_days_cool, Cool.
Qed.

Lemma cdd_zero_on_cool_week :
  exists m df', calculate_energy_metrics cool_week = (Ok m, df') /\ cdd_total m = Fin 0.
Proof.
  apply (cdd_zero_when_cool cool_week
           [Fin 18; Fin 24; NaN; Fin 21.5; Fin 23.9; Fin 10; Fin (-3)]
           (Demo.constant 7 25) (Demo.constant 7 20) (Demo.constant 7 30)
           (Demo.constant 7 65)).
  - repeat split.
  - cbn [Ser.present]. repeat constructor; unfold TEMP_COMFORT, Qle; simpl; lia.
Defined.

(** ** Rounding to one decimal keeps the order *)

Lemma round_half_even_near_floor (x : Q) :
  Qfloor x <= Float.round_half_even x <= Qfloor x + 1.
Proof.
  unfold Float.round_half_even.
  destruct (Qcompare _ _); [destruct (Z.even _)| |]; lia.
Qed.

Lemma round_half_even_mono (x y : Q) :
  (x <= y)%Q -> Float.round_half_even x <= Float.round_half_even y.
Proof.
  intros H.
  pose proof (Qfloor_resp_le _ _ H) as F.
  pose proof (round_half_even_near_floor x) as Bx.
  pose proof (round_half_even_near_floor y) as By.
  destruct (Z.eq_dec (Qfloor x) (Qfloor y)) as [E|N]; [|lia].
  clear Bx By. unfold Float.round_half_even. rewrite <- E.
  destruct (Qcompare_spec (x - inject_Z (Qfloor x)) (1 # 2)) as [Cx|Cx|Cx];
    destruct (Qcompare_spec (y - inject_Z (Qfloor x)) (1 # 2)) as [Cy|Cy|Cy];
    try (destruct (Z.even (Qfloor x))); try lia; exfalso; lra.
Qed.

Lemma round1q_mono (x y : Q) : (x <= y)%Q -> (Float.round1q x <= Float.round1q y)%Q.
Proof.
  intros H. unfold Float.round1q. rewrite !Qred_correct.
  assert (M : Float.round_half_even (x * 10) <= Float.round_half_even (y * 10)).
  { apply round_half_even_mono. lra. }
  apply Qmult_le_compat_r; [|discriminate].
  rewrite <- Zle_Qle. exact M.
Qed.

(** ** The number of values of a series *)

Lemma inject_succ (n : nat) :
  (inject_Z (Z.of_nat (S n)) == inject_Z (Z.of_nat n) + 1)%Q.
Proof.
  rewrite Nat2Z.inj_succ. unfold Z.succ. rewrite inject_Z_plus. reflexivity.
Qed.

Lemma length_positive {A} (l : list A) :
  l <> [] -> (0 < inject_Z (Z.of_nat (List.length l)))%Q.
Proof.
  destruct l as [|a l]; [congruence|]. intros _.
  cbn [List.length]. rewrite inject_succ.
  assert (0 <= inject_Z (Z.of_nat (List.length l)))%Q.
  { change 0%Q with (inject_Z 0). rewrite <- Zle_Qle. lia. }
  lra.
Qed.

(** ** Solar potential against radiation *)

Lemma cloud_discount (q q' : Q) :
  (0 <= q)%Q -> (0 <= q' <= 100)%Q ->
  (0 <= q * (1 - q' / 100) <= q)%Q.
Proof.
  intros Hq [L U]. unfold Qdiv. change (/ 100)%Q with (1 # 100)%Q.
  set (t := (1 - q' * (1 # 100))%Q).
  assert (T0 : (0 <= t)%Q) by (unfold t; lra).
  assert (T1 : (t <= 1)%Q) by (unfold t; lra).
  split.
  - apply Qmult_le_0_compat; assumption.
  - setoid_replace q with (q * 1)%Q at 2 by ring.
    rewrite (Qmult_comm q t), (Qmult_comm q 1).
    apply Qmult_le_compat_r; assumption.
Qed.

Lemma solar_potential_sums (r c : Series) :
  complete r = true -> complete c = true ->
  List.length r = List.length c ->
  nonnegative r -> percentage c ->
  (0 <= Ser.qsum (Ser.present (solar_potential_column r c)))%Q
  /\ (Ser.qsum (Ser.present (solar_potential_column r c))
      <= Ser.qsum (Ser.present r))%Q
  /\ List.length (Ser.present (solar_potential_column r c))
     = List.length (Ser.present r).
Proof.
  unfold nonnegative, percentage. revert c.
  induction r as [|[|q] r IH]; intros [|[|q'] c] Cr Cc L Nr Pc;
    try discriminate.
  - cbn. repeat split; apply Qle_refl.
  - cbn [complete forallb Float.is_nan negb andb] in Cr, Cc.
    cbn [Ser.present] in Nr, Pc.
    inversion Nr as [|? ? Hq Nr']; subst. inversion Pc as [|? ? Hq' Pc']; subst.
    injection L as L.
    destruct (IH c Cr Cc L Nr' Pc') as (I0 & I1 & I2).
    destruct (cloud_discount q q' Hq Hq') as [D0 D1].
    change (solar_potential_column (Fin q :: r) (Fin q' :: c))
      with (Fin (q * (1 - q' / 100)) :: solar_potential_column r c).
    cbn [Ser.present List.length]. rewrite !qsum_cons.
    split; [lra|]. split; [lra|]. f_equal. exact I2.
Qed.

(** X8. On a series without gaps whose radiation is not negative and whose
    cloud cover is a percentage, the average solar potential lies between 0
    and the average radiation: clouds only take away. *)
Theorem solar_potential_at_most_radiation (df : DataFrame) (a x r c h : Series) :
  has_columns df a x r c h ->
  r <> [] ->
  complete r = true -> complete c = true ->
  List.length r = List.length c ->
  nonnegative r -> percentage c ->
  exists m df' sp rad,
    calculate_energy_metrics df = (Ok m, df')
    /\ avg_solar_potential m = Fin sp /\ avg_radiation m = Fin rad
    /\ (0 <= sp <= rad)%Q.
Proof.
  intros H N Cr Cc L Nr Pc.
  destruct (solar_potential_sums r c Cr Cc L Nr Pc) as (S0 & S1 & S2).
  assert (P : Ser.present r <> []) by (apply complete_present; assumption).
  assert (P' : Ser.present (solar_potential_column r c) <> []).
  { intros E. rewrite E in S2. destruct (Ser.present r); [congruence|discriminate]. }
  pose proof (length_positive _ P) as Pos.
  exists (metrics_of a x r c h), (with_helper_columns df a r c).
  exists (Float.round1q (exact_mean (solar_potential_column r c))).
  exists (Float.round1q (exact_mean r)).
  split; [apply calculate_energy_metrics_runs, H|].
  cbn [metrics_of avg_solar_potential avg_radiation].
  unfold Ser.mean, exact_mean.
  split; [destruct (Ser.present (solar_potential_column r c));
          [congruence | reflexivity]|].
  split; [destruct (Ser.present r); [congruence | reflexivity]|].
  rewrite S2. split.
  - apply round1q_nonneg. apply Qle_shift_div_l; [exact Pos | lra].
  - apply round1q_mono. unfold Qdiv. apply Qmult_le_compat_r; [exact S1|].
    apply Qinv_le_0_compat. lra.
Qed.

Lemma solar_potential_week_frame :
  exists m df' sp rad,
    calculate_energy_metrics Demo.week_frame = (Ok m, df')
    /\ avg_solar_potential m = Fin sp /\ avg_radiation m = Fin rad
    /\ (0 <= sp <= rad)%Q.
Proof.
  apply (solar_potential_at_most_radiation Demo.week_frame (map Fin week_temps)
           (Demo.constant 7 33) (Demo.constant 7 20) (Demo.constant 7 30)
           (Demo.constant 7 65)).
  - repeat split.
  - discriminate.
  - reflexivity.
  - reflexivity.
  - reflexivity.
  - unfold nonnegative. cbn. repeat constructor; unfold Qle; simpl; lia.
  - unfold percentage. cbn. repeat constructor; unfold Qle; simpl; lia.
Defined.

(** ** The fetcher, case by case *)

Lemma get_climate_data_cases (w : World) (zone : string) (d : Z) (la lo : option Q)
    (t : option string) (s : State) :
  get_climate_data w zone d la lo t s
  = match Lru.find (zone, d, la, lo, t) (cache s) with
    | Some r =>
        (Ok r, mkState (heap s) (Lru.touch (zone, d, la, lo, t) r (cache s))
                       (fetch_log s) (gen_log s))
    | None =>
        match resolve_coords zone la lo t with
        | Raise e => (Raise e, s)
        | Ok c =>
            match normalize (provider w (build_params w c d)) with
            | Raise e => (Raise e, logged (build_params w c d) s)
            | Ok df =>
                (Ok (List.length (heap s)),
                 mkState (heap s ++ [df])%list
                   (Lru.store (zone, d, la, lo, t) (List.length (heap s)) (cache s))
                   (build_params w c d :: fetch_log s) (gen_log s))
            end
        end
    end.
Proof.
  destruct (Lru.find (zone, d, la, lo, t) (cache s)) as [r|] eqn:F.
  - apply get_climate_data_hit, F.
  - destruct (resolve_coords zone la lo t) as [c|e] eqn:R.
    + apply get_climate_data_miss; assumption.
    + apply get_climate_data_unknown; assumption.
Qed.

(** ** Keys of the cache *)

Lemma opt_eqb_sym {A} (eqb : A -> A -> bool) (x y : option A) :
  (forall a b, eqb a b = eqb b a) -> Lru.opt_eqb eqb x y = Lru.opt_eqb eqb y x.
Proof. intros S. destruct x, y; cbn; auto. Qed.

Lemma Qeq_bool_sym (a b : Q) : Qeq_bool a b = Qeq_bool b a.
Proof.
  destruct (Qeq_bool a b) eqn:E1, (Qeq_bool b a) eqn:E2; try reflexivity.
  - apply Qeq_bool_iff in E1. symmetry in E1. apply Qeq_bool_iff in E1. congruence.
  - apply Qeq_bool_iff in E2. symmetry in E2. apply Qeq_bool_iff in E2. congruence.
Qed.

Lemma key_eqb_sym (a b : Key) : Lru.key_eqb a b = Lru.key_eqb b a.
Proof.
  destruct a as [[[[z1 d1] la1] lo1] t1], b as [[[[z2 d2] la2] lo2] t2].
  unfold Lru.key_eqb.
  rewrite (String.eqb_sym z1 z2), (Z.eqb_sym d1 d2).
  rewrite (opt_eqb_sym Qeq_bool la1 la2) by apply Qeq_bool_sym.
  rewrite (opt_eqb_sym Qeq_bool lo1 lo2) by apply Qeq_bool_sym.
  rewrite (opt_eqb_sym String.eqb t1 t2) by apply String.eqb_sym.
  reflexivity.
Qed.

Lemma opt_eqb_trans {A} (eqb : A -> A -> bool) (x y z : option A) :
  (forall a b c, eqb a b = true -> eqb b c = true -> eqb a c = true) ->
  Lru.opt_eqb eqb x y = true -> Lru.opt_eqb eqb y z = true ->
  Lru.opt_eqb eqb x z = true.
Proof. intros T. destruct x, y, z; cbn; try discriminate; eauto. Qed.

Lemma Qeq_bool_trans (a b c : Q) :
  Qeq_bool a b = true -> Qeq_bool b c = true -> Qeq_bool a c = true.
Proof.
  rewrite !Qeq_bool_iff. intros E1 E2. rewrite E1. exact E2.
Qed.

Lemma string_eqb_trans (a b c : string) :
  String.eqb a b = true -> String.eqb b c = true -> String.eqb a c = true.
Proof. rewrite !String.eqb_eq. congruence. Qed.

Lemma key_eqb_trans (a b c : Key) :
  Lru.key_eqb a b = true -> Lru.key_eqb b c = true -> Lru.key_eqb a c = true.
Proof.
  destruct a as [[[[z1 d1] la1] lo1] t1], b as [[[[z2 d2] la2] lo2] t2],
           c as [[[[z3 d3] la3] lo3] t3].
  unfold Lru.key_eqb. rewrite !andb_true_iff.
  intros ((((A1 & A2) & A3) & A4) & A5) ((((B1 & B2) & B3) & B4) & B5).
  repeat split.
  - eapply string_eqb_trans; eassumption.
  - apply Z.eqb_eq in A2, B2. apply Z.eqb_eq. congruence.
  - eapply opt_eqb_trans; [apply Qeq_bool_trans | eassumption | eassumption].
  - eapply opt_eqb_trans; [apply Qeq_bool_trans | eassumption | eassumption].
  - eapply opt_eqb_trans; [apply string_eqb_trans | eassumption | eassumption].
Qed.

Lemma find_equal_keys (k k' : Key) (c : list (Key * ref)) :
  Lru.key_eqb k k' = true -> Lru.find k c = Lru.find k' c.
Proof.
  intros E. induction c as [|[k0 r0] c IH]; cbn [Lru.find]; [reflexivity|].
  destruct (Lru.key_eqb k k0) eqn:E1, (Lru.key_eqb k' k0) eqn:E2;
    try reflexivity; try exact IH.
  - rewrite key_eqb_sym in E.
    rewrite (key_eqb_trans _ _ _ E E1) in E2. discriminate.
  - rewrite (key_eqb_trans _ _ _ E E2) in E1. discriminate.
Qed.

Lemma find_remove_self (k : Key) (c : list (Key * ref)) :
  keys_distinct c -> Lru.find k (Lru.remove k c) = None.
Proof.
  induction c as [|[k0 r0] c IH]; cbn [keys_distinct Lru.remove]; [reflexivity|].
  intros [N D]. destruct (Lru.key_eqb k k0) eqn:E.
  - rewrite (find_equal_keys k k0) by exact E. exact N.
  - cbn [Lru.find]. rewrite E. apply IH, D.
Qed.

Lemma keys_distinct_remove (k : Key) (c : list (Key * ref)) :
  keys_distinct c -> keys_distinct (Lru.remove k c).
Proof.
  induction c as [|[k0 r0] c IH]; cbn [keys_distinct Lru.remove]; [tauto|].
  intros [N D]. destruct (Lru.key_eqb k k0); [exact D|].
  cbn [keys_distinct]. split; [apply find_none_remove, N | apply IH, D].
Qed.

Lemma keys_distinct_removelast (c : list (Key * ref)) :
  keys_distinct c -> keys_distinct (removelast c).
Proof.
  induction c as [|[k0 r0] c IH]; [tauto|].
  intros [N D]. destruct c as [|p c']; [exact I|].
  change (removelast ((k0, r0) :: p :: c')) with ((k0, r0) :: removelast (p :: c')).
  cbn [keys_distinct]. split; [apply find_none_removelast, N | apply IH, D].
Qed.

Lemma find_in (k : Key) (r : ref) (c : list (Key * ref)) :
  Lru.find k c = Some r -> exists k', In (k', r) c.
Proof.
  induction c as [|[k0 r0] c IH]; cbn [Lru.find]; [discriminate|].
  destruct (Lru.key_eqb k k0).
  - intros [= ->]. exists k0. left. reflexivity.
  - intros H. destruct (IH H) as [k' I]. exists k'. right. exact I.
Qed.

Lemma Forall_remove (P : Key * ref -> Prop) (k : Key) (c : list (Key * ref)) :
  Forall P c -> Forall P (Lru.remove k c).
Proof.
  induction 1 as [|[k0 r0] c H0 H IH]; cbn [Lru.remove]; [constructor|].
  destruct (Lru.key_eqb k k0); [exact H | constructor; assumption].
Qed.

Lemma Forall_removelast {A} (P : A -> Prop) (l : list A) :
  Forall P l -> Forall P (removelast l).
Proof.
  induction 1 as [|a l H0 H IH]; [constructor|].
  destruct l as [|b l']; [constructor|].
  change (removelast (a :: b :: l')) with (a :: removelast (b :: l')).
  constructor; assumption.
Qed.

(** ** Rectangular frames *)

Lemma lookup_length (df : DataFrame) (n : string) (c : Series) :
  rectangular df = true -> DF.lookup n (cols df) = Some c ->
  List.length c = List.length (Date df).
Proof.
  unfold rectangular. induction (cols df) as [|[m c0] l IH];
    cbn [forallb DF.lookup snd]; [discriminate|].
  rewrite andb_true_iff. intros [E R].
  destruct (String.eqb n m).
  - intros [= <-]. apply Nat.eqb_eq, E.
  - apply IH, R.
Qed.

Lemma rectangular_assign (df : DataFrame) (n : string) (c : Series) :
  rectangular df = true -> List.length c = List.length (Date df) ->
  rectangular (mkDataFrame (Date df) (DF.assign n c (cols df))) = true.
Proof.
  unfold rectangular. cbn [Date cols]. intros R L.
  induction (cols df) as [|[m c0] l IH]; cbn [DF.assign forallb snd] in *.
  - rewrite L, Nat.eqb_refl. reflexivity.
  - apply andb_true_iff in R. destruct R as [E R].
    destruct (String.eqb n m); cbn [forallb snd].
    + rewrite L, Nat.eqb_refl, R. reflexivity.
    + rewrite E. apply IH, R.
Qed.

Lemma length_cdd_column (a : Series) : List.length (cdd_column a) = List.length a.
Proof.
  unfold cdd_column, Ser.clip_lower, Ser.sub_scalar. rewrite !length_map. reflexivity.
Qed.

Lemma length_mul (a b : Series) :
  List.length a = List.length b -> List.length (Ser.mul a b) = List.length a.
Proof.
  revert b. induction a as [|x a IH]; intros [|y b]; cbn [Ser.mul List.length];
    try discriminate; [reflexivity|].
  intros [= L]. f_equal. apply IH, L.
Qed.

Lemma length_solar_potential_column (r c : Series) :
  List.length r = List.length c ->
  List.length (solar_potential_column r c) = List.length r.
Proof.
  intros L. unfold solar_potential_column. apply length_mul.
  unfold Ser.rsub_scalar, Ser.div_scalar. rewrite !length_map. exact L.
Qed.

Lemma rectangular_with_cdd (df : DataFrame) (a : Series) :
  rectangular df = true -> DF.lookup "Avg_Temp" (cols df) = Some a ->
  rectangular (with_cdd df a) = true.
Proof.
  intros R H. apply rectangular_assign; [exact R|].
  rewrite length_cdd_column. eapply lookup_length; eassumption.
Qed.

Lemma rectangular_with_helper_columns (df : DataFrame) (a r c : Series) :
  rectangular df = true ->
  DF.lookup "Avg_Temp" (cols df) = Some a ->
  DF.lookup "Solar_Radiation" (cols df) = Some r ->
  DF.lookup "Cloud_Cover" (cols df) = Some c ->
  rectangular (with_helper_columns df a r c) = true.
Proof.
  intros R Ha Hr Hc.
  pose proof (lookup_length _ _ _ R Hr) as Lr.
  pose proof (lookup_length _ _ _ R Hc) as Lc.
  apply (rectangular_assign (with_cdd df a)).
  - apply rectangular_with_cdd; assumption.
  - cbn [with_cdd Date]. rewrite length_solar_potential_column; congruence.
Qed.

Lemma metrics_keep_rectangular (df : DataFrame) :
  rectangular df = true -> rectangular (snd (calculate_energy_metrics df)) = true.
Proof.
  intros R. rewrite calculate_energy_metrics_cases.
  destruct (DF.lookup "Avg_Temp" (cols df)) as [a|] eqn:Ha; [|exact R].
  destruct (DF.lookup "Max_Temp" (cols df)) as [x|]; [|exact R].
  destruct (DF.lookup "Solar_Radiation" (cols df)) as [r|] eqn:Hr;
    [|apply rectangular_with_cdd; assumption].
  destruct (DF.lookup "Cloud_Cover" (cols df)) as [c|] eqn:Hc;
    [|apply rectangular_with_cdd; assumption].
  destruct (DF.lookup "Relative_Humidity" (cols df));
    apply rectangular_with_helper_columns; assumption.
Qed.

Lemma all_equal_columns (n : nat) (l : list (string * Series)) :
  all_equal (n :: map (fun c => List.length (snd c)) l) = true ->
  forallb (fun c => Nat.eqb (List.length (snd c)) n) l = true.
Proof.
  unfold all_equal. induction l as [|c l IH]; cbn [map forallb]; [reflexivity|].
  rewrite !andb_true_iff. intros [E R]. split; [|apply IH, R].
  rewrite Nat.eqb_sym. exact E.
Qed.

Lemma forallb_renamed (n : nat) (l : list (string * Series)) :
  forallb (fun c => Nat.eqb (List.length (snd c)) n)
          (map (fun c => (rename_one (fst c) RENAME, snd c)) l)
  = forallb (fun c => Nat.eqb (List.length (snd c)) n) l.
Proof.
  induction l as [|c l IH]; cbn [map forallb snd]; [reflexivity|].
  rewrite IH. reflexivity.
Qed.

Lemma normalize_rectangular (resp : ProviderResponse) (df : DataFrame) :
  normalize resp = Ok df -> rectangular df = true.
Proof.
  unfold normalize. destruct resp as [msg|[d|]]; try discriminate.
  unfold frame_of_daily. destruct (time d) as [t|].
  - cbn [app]. destruct (all_equal _) eqn:E; [|discriminate].
    intros [= <-]. unfold rectangular, rename_columns. cbn [Date cols].
    rewrite forallb_renamed. apply all_equal_columns, E.
  - destruct (all_equal _); discriminate.
Qed.

(** ** The state invariant, step by step *)

Lemma length_update {A} (n : nat) (a : A) (l : list A) :
  List.length (Prog.update n a l) = List.length l.
Proof.
  revert n. induction l as [|x l IH]; intros [|n]; cbn; try reflexivity.
  f_equal. apply IH.
Qed.

Lemma Forall_update {A} (P : A -> Prop) (n : nat) (a : A) (l : list A) :
  P a -> Forall P l -> Forall P (Prog.update n a l).
Proof.
  intros Pa H. revert n. induction H as [|x l Hx H IH]; intros [|n]; cbn;
    constructor; auto.
Qed.

Lemma state_ok_initial : state_ok initial.
Proof.
  unfold state_ok, initial. cbn. repeat split; try constructor. lia.
Qed.

Lemma state_ok_same_store (s s' : State) :
  heap s' = heap s -> cache s' = cache s -> state_ok s -> state_ok s'.
Proof. unfold state_ok. intros -> ->. tauto. Qed.

Lemma state_ok_get_climate_data (w : World) (zone : string) (d : Z)
    (la lo : option Q) (t : option string) (s : State) :
  state_ok s -> state_ok (snd (get_climate_data w zone d la lo t s)).
Proof.
  intros (L & D & V & R). rewrite get_climate_data_cases.
  destruct (Lru.find (zone, d, la, lo, t) (cache s)) as [r|] eqn:F.
  - cbn [snd]. unfold state_ok. cbn [heap cache]. repeat split.
    + unfold Lru.touch. cbn [List.length].
      rewrite (length_remove_found _ _ _ F). exact L.
    + apply find_remove_self, D.
    + apply keys_distinct_remove, D.
    + unfold Lru.touch. constructor; [|apply Forall_remove, V].
      destruct (find_in _ _ _ F) as [k' I].
      rewrite Forall_forall in V. exact (V _ I).
    + exact R.
  - destruct (resolve_coords zone la lo t) as [c|e]; [|repeat split; assumption].
    destruct (normalize _) as [df|e] eqn:N; [|repeat split; assumption].
    cbn [snd]. unfold state_ok. cbn [heap cache]. repeat split.
    + apply length_store, L.
    + unfold Lru.store.
      destruct (Nat.leb _ _); [apply find_none_removelast|]; exact F.
    + unfold Lru.store.
      destruct (Nat.leb _ _); [apply keys_distinct_removelast|]; exact D.
    + rewrite length_app. cbn [List.length]. unfold Lru.store.
      constructor; [cbn [snd]; lia|].
      assert (V' : Forall (fun e : Key * ref =>
                             (snd e < List.length (heap s) + 1)%nat) (cache s)).
      { eapply Forall_impl; [|exact V]. intros e He. cbn beta in He.
        apply Nat.lt_lt_add_r. exact He. }
      destruct (Nat.leb _ _); [apply Forall_removelast|]; exact V'.
    + apply Forall_app. split; [exact R|].
      constructor; [|constructor]. eapply normalize_rectangular, N.
Qed.

Lemma state_ok_on_frame {A} (r : ref) (op : DF.M A) (s : State) :
  (forall df, rectangular df = true -> rectangular (snd (op df)) = true) ->
  state_ok s -> state_ok (snd (Prog.on_frame r op s)).
Proof.
  intros K (L & D & V & R). unfold Prog.on_frame.
  destruct (nth_error (heap s) r) as [df|] eqn:N; [|repeat split; assumption].
  specialize (K df). destruct (op df) as [res df']. cbn [snd] in *.
  unfold state_ok. cbn [heap cache]. rewrite length_update.
  repeat split; try assumption.
  apply Forall_update; [|exact R]. apply K.
  rewrite Forall_forall in R. apply R. eapply nth_error_In, N.
Qed.

Lemma update_unchanged {A} (l : list A) (n : nat) (a : A) :
  nth_error l n = Some a -> Prog.update n a l = l.
Proof.
  revert n. induction l as [|x l IH]; intros [|n]; cbn; try discriminate.
  - intros [= ->]. reflexivity.
  - intros H. f_equal. apply IH, H.
Qed.

Lemma on_frame_store {A} (r : ref) (op : DF.M A) (s : State) :
  cache (snd (Prog.on_frame r op s)) = cache s
  /\ fetch_log (snd (Prog.on_frame r op s)) = fetch_log s
  /\ gen_log (snd (Prog.on_frame r op s)) = gen_log s
  /\ List.length (heap (snd (Prog.on_frame r op s))) = List.length (heap s).
Proof.
  unfold Prog.on_frame. destruct (nth_error (heap s) r) as [df|]; [|tauto].
  destruct (op df) as [res df']. cbn [snd cache fetch_log gen_log heap].
  rewrite length_update. tauto.
Qed.

Lemma generate_charts_store (w : World) (r : ref) (zone : string) (s : State) :
  snd (generate_charts w r zone s) = s.
Proof.
  unfold generate_charts, Prog.bind, Prog.deref, Prog.on_frame.
  destruct (nth_error (heap s) r) as [df|] eqn:N; [|reflexivity].
  rewrite (update_unchanged _ _ _ N).
  unfold Prog.lift. destruct s. reflexivity.
Qed.

Lemma generate_ai_suggestion_store (w : World) (m : EnergyMetrics)
    (u zone : string) (d : Z) (s : State) :
  heap (snd (generate_ai_suggestion w m u zone d s)) = heap s
  /\ cache (snd (generate_ai_suggestion w m u zone d s)) = cache s
  /\ fetch_log (snd (generate_ai_suggestion w m u zone d s)) = fetch_log s
  /\ grown_by_at_most_one (gen_log s)
       (gen_log (snd (generate_ai_suggestion w m u zone d s))).
Proof.
  unfold generate_ai_suggestion, grown_by_at_most_one.
  destruct (context_lookup u user_context) as [ctx|].
  - unfold Prog.try_except, call_model, Prog.bind, log_prompt, Prog.lift, Prog.ret.
    destruct (generate_content w _); cbn [snd heap cache fetch_log gen_log];
      refine (conj eq_refl (conj eq_refl (conj eq_refl _))); right; eauto.
  - unfold Prog.raise. cbn [snd].
    refine (conj eq_refl (conj eq_refl (conj eq_refl _))). left. reflexivity.
Qed.

Lemma pipeline_after_fetch_eq (w : World) (u zone : string) (d : Z)
    (la lo : option Q) (t : option string) (s s1 s' : State)
    (out1 : result ref) (out : result HttpResponse) :
  get_climate_data w zone d la lo t s = (out1, s1) ->
  analyze_pipeline w u zone d la lo t s = (out, s') ->
  cache s' = cache s1
  /\ fetch_log s' = fetch_log s1
  /\ grown_by_at_most_one (gen_log s1) (gen_log s')
  /\ List.length (heap s') = List.length (heap s1)
  /\ (state_ok s1 -> state_ok s').
Proof.
  intros G H. unfold analyze_pipeline in H. unfold Prog.bind at 1 in H.
  rewrite G in H. destruct out1 as [r|e].
  2:{ injection H as _ <-.
      refine (conj eq_refl (conj eq_refl (conj _ (conj eq_refl (fun O => O))))).
      left. reflexivity. }
  unfold Prog.bind at 1 in H.
  pose proof (on_frame_store r calculate_energy_metrics s1) as (C2 & F2 & G2 & H2).
  pose proof (state_ok_on_frame r calculate_energy_metrics s1
                metrics_keep_rectangular) as O2.
  destruct (Prog.on_frame r calculate_energy_metrics s1) as [[m|e] s2];
    cbn [snd] in *.
  2:{ injection H as _ <-.
      refine (conj C2 (conj F2 (conj _ (conj H2 O2)))). left. exact G2. }
  unfold Prog.bind at 1 in H.
  pose proof (generate_ai_suggestion_store w m u zone d s2) as (H3 & C3 & F3 & G3).
  assert (O3 : state_ok s1 ->
               state_ok (snd (generate_ai_suggestion w m u zone d s2))).
  { intros O. eapply state_ok_same_store; [exact H3 | exact C3 | exact (O2 O)]. }
  rewrite <- G2, <- C2, <- F2, <- H2.
  destruct (generate_ai_suggestion w m u zone d s2) as [[sug|e] s3];
    cbn [snd] in *.
  2:{ injection H as _ <-.
      refine (conj C3 (conj F3 (conj G3 (conj _ O3)))). congruence. }
  unfold Prog.bind at 1 in H.
  pose proof (generate_charts_store w r zone s3) as K4.
  destruct (generate_charts w r zone s3) as [[ch|e] s4]; cbn [snd] in *; subst s4;
    unfold Prog.ret in H; injection H as _ <-;
    (refine (conj C3 (conj F3 (conj G3 (conj _ O3)))); congruence).
Qed.

(** The state an [analyze] pipeline leaves, against the state its fetch
    left. *)
Lemma pipeline_after_fetch (w : World) (u zone : string) (d : Z)
    (la lo : option Q) (t : option string) (s : State) :
  cache (snd (analyze_pipeline w u zone d la lo t s))
  = cache (snd (get_climate_data w zone d la lo t s))
  /\ fetch_log (snd (analyze_pipeline w u zone d la lo t s))
     = fetch_log (snd (get_climate_data w zone d la lo t s))
  /\ grown_by_at_most_one
       (gen_log (snd (get_climate_data w zone d la lo t s)))
       (gen_log (snd (analyze_pipeline w u zone d la lo t s)))
  /\ List.length (heap (snd (analyze_pipeline w u zone d la lo t s)))
     = List.length (heap (snd (get_climate_data w zone d la lo t s)))
  /\ (state_ok (snd (get_climate_data w zone d la lo t s)) ->
      state_ok (snd (analyze_pipeline w u zone d la lo t s))).
Proof.
  apply (pipeline_after_fetch_eq w u zone d la lo t s _ _
           (fst (get_climate_data w zone d la lo t s))
           (fst (analyze_pipeline w u zone d la lo t s)));
    apply surjective_pairing.
Qed.

Lemma analyze_checked_invalid (w : World) (data : Req.t) (s : State) :
  passes_validation data = false ->
  exists msg, analyze_checked w data s = (Ok (error_400 msg), s).
Proof.
  unfold passes_validation, analyze_checked, req_user_type, req_zone, req_days.
  destruct (Str.mem _ _); cbn [negb andb]; [|intros _; eexists; reflexivity].
  destruct (zone_known _); cbn [negb andb orb].
  - intros V. rewrite V. eexists. reflexivity.
  - destruct (Req.lat data), (Req.lon data); cbn [andb orb];
      try (intros _; eexists; reflexivity).
    intros V. rewrite V. eexists. reflexivity.
Qed.

Lemma state_ok_analyze (w : World) (data : Req.t) (s : State) :
  state_ok s -> state_ok (snd (analyze w data s)).
Proof.
  intros O. rewrite analyze_state.
  destruct (passes_validation data) eqn:V.
  - rewrite analyze_checked_valid by exact V.
    apply pipeline_after_fetch. apply state_ok_get_climate_data, O.
  - destruct (analyze_checked_invalid w data s V) as [msg E]. rewrite E. exact O.
Qed.

Lemma export_csv_state (w : World) (data : Req.t) (s : State) :
  snd (export_csv w data s)
  = snd (get_climate_data w (req_zone data) (req_days data) (Req.lat data)
           (Req.lon data) (Req.tz data) s).
Proof.
  unfold export_csv, export_csv_checked, req_zone, req_days. unfold Prog.bind at 1.
  destruct (get_climate_data w _ _ _ _ _ s) as [[r|e] s1]; [|reflexivity].
  unfold Prog.bind, Prog.deref, Prog.on_frame, Prog.ret.
  destruct (nth_error (heap s1) r) as [df|] eqn:N; [|reflexivity].
  rewrite (update_unchanged _ _ _ N). destruct s1. reflexivity.
Qed.

(** X9. The cache and the frame store stay well formed through every
    request: starting from the empty state, and after any [analyze] or
    [export_csv], the cache holds at most 100 entries, no key twice, every
    cached reference points to a stored frame, and every stored frame has
    all its columns as long as its date column. *)
Theorem requests_keep_state_ok (w : World) (data : Req.t) (s : State) :
  state_ok s ->
  state_ok (snd (analyze w data s)) /\ state_ok (snd (export_csv w data s)).
Proof.
  intros O. split; [apply state_ok_analyze, O|].
  rewrite export_csv_state. apply state_ok_get_climate_data, O.
Qed.

Lemma requests_keep_state_ok_from_start :
  state_ok initial
  /\ state_ok (snd (analyze Demo.world Req.empty initial))
  /\ state_ok (snd (export_csv Demo.world Req.empty initial)).
Proof.
  split; [exact state_ok_initial|].
  exact (requests_keep_state_ok Demo.world Req.empty initial state_ok_initial).
Defined.

(** ** What one request does to the state *)

Lemma get_climate_data_effects (w : World) (zone : string) (d : Z)
    (la lo : option Q) (t : option string) (s : State) :
  grown_by_at_most_one (fetch_log s)
    (fetch_log (snd (get_climate_data w zone d la lo t s)))
  /\ gen_log (snd (get_climate_data w zone d la lo t s)) = gen_log s
  /\ (forall i df, nth_error (heap s) i = Some df ->
        nth_error (heap (snd (get_climate_data w zone d la lo t s))) i = Some df)
  /\ (List.length (heap (snd (get_climate_data w zone d la lo t s)))
      <= S (List.length (heap s)))%nat.
Proof.
  rewrite get_climate_data_cases. unfold grown_by_at_most_one.
  destruct (Lru.find _ _) as [r|].
  - cbn. repeat split; auto.
  - destruct (resolve_coords zone la lo t) as [c|e]; [|cbn; repeat split; auto].
    destruct (normalize _) as [df|e]; cbn [snd logged heap fetch_log gen_log].
    + split; [right; eauto|]. split; [reflexivity|]. split.
      * intros i df0 N. rewrite nth_error_app1; [exact N|].
        apply nth_error_Some. congruence.
      * rewrite length_app. cbn. lia.
    + split; [right; eauto|]. repeat split; auto.
Qed.

(** X10. One request costs at most one forecast call and at most one
    text-generation call ([export_csv]: none), and stores at most one new
    frame; earlier log entries are never dropped or reordered. *)
Theorem one_request_effects (w : World) (data : Req.t) (s : State) :
  grown_by_at_most_one (fetch_log s) (fetch_log (snd (analyze w data s)))
  /\ grown_by_at_most_one (gen_log s) (gen_log (snd (analyze w data s)))
  /\ (List.length (heap (snd (analyze w data s))) <= S (List.length (heap s)))%nat
  /\ grown_by_at_most_one (fetch_log s) (fetch_log (snd (export_csv w data s)))
  /\ gen_log (snd (export_csv w data s)) = gen_log s
  /\ (List.length (heap (snd (export_csv w data s))) <= S (List.length (heap s)))%nat.
Proof.
  assert (E : grown_by_at_most_one (fetch_log s) (fetch_log (snd (export_csv w data s)))
              /\ gen_log (snd (export_csv w data s)) = gen_log s
              /\ (List.length (heap (snd (export_csv w data s)))
                  <= S (List.length (heap s)))%nat).
  { rewrite export_csv_state.
    destruct (get_climate_data_effects w (req_zone data) (req_days data)
                (Req.lat data) (Req.lon data) (Req.tz data) s) as (A & B & _ & D).
    auto. }
  destruct E as (E1 & E2 & E3).
  refine (conj _ (conj _ (conj _ (conj E1 (conj E2 E3))))); rewrite analyze_state;
    (destruct (passes_validation data) eqn:V;
     [ rewrite analyze_checked_valid by exact V
     | destruct (analyze_checked_invalid w data s V) as [msg ->]; cbn [snd] ]).
  - destruct (pipeline_after_fetch w (req_user_type data) (req_zone data)
                (req_days data) (Req.lat data) (Req.lon data) (Req.tz data) s)
      as (_ & F & _).
    rewrite F. apply get_climate_data_effects.
  - left. reflexivity.
  - destruct (pipeline_after_fetch w (req_user_type data) (req_zone data)
                (req_days data) (Req.lat data) (Req.lon data) (Req.tz data) s)
      as (_ & _ & G & _).
    destruct (get_climate_data_effects w (req_zone data) (req_days data)
                (Req.lat data) (Req.lon data) (Req.tz data) s) as (_ & B & _).
    rewrite B in G. exact G.
  - left. reflexivity.
  - destruct (pipeline_after_fetch w (req_user_type data) (req_zone data)
                (req_days data) (Req.lat data) (Req.lon data) (Req.tz data) s)
      as (_ & _ & _ & H & _).
    rewrite H. apply get_climate_data_effects.
  - lia.
Qed.

(** ** Status codes of [analyze] *)

Lemma pipeline_answers_200 (w : World) (u zone : string) (d : Z)
    (la lo : option Q) (t : option string) (s s' : State) (resp : HttpResponse) :
  analyze_pipeline w u zone d la lo t s = (Ok resp, s') -> status resp = 200.
Proof.
  unfold analyze_pipeline. unfold Prog.bind at 1.
  destruct (get_climate_data w zone d la lo t s) as [[r|e] s1]; [|discriminate].
  unfold Prog.bind at 1.
  destruct (Prog.on_frame r calculate_energy_metrics s1) as [[m|e] s2];
    [|discriminate].
  unfold Prog.bind at 1.
  destruct (generate_ai_suggestion w m u zone d s2) as [[sug|e] s3]; [|discriminate].
  unfold Prog.bind at 1.
  destruct (generate_charts w r zone s3) as [[ch|e] s4]; [|discriminate].
  unfold Prog.ret. intros [= <- _]. reflexivity.
Qed.

(** What [analyze] makes of a body: it stops at a check with an answer
    400, or something raises before the pipeline starts, or the pipeline
    runs; the state is untouched in the first two cases. *)
Lemma wire_analyze_checked_cases (w : World) (b : Wire.body) (s : State) :
  (exists msg, Wire.analyze_checked w b s = (Ok (error_400 msg), s))
  \/ (exists e, Wire.analyze_checked w b s = (Raise e, s))
  \/ (exists u z d la lo t,
        Wire.analyze_checked w b s = analyze_pipeline w u z d la lo t s).
Proof.
  destruct b as [e|[| | | | | |data]];
    try (right; left; eexists; reflexivity).
  unfold Wire.analyze_checked. rewrite bind_lift.
  destruct (Wire.text _) as [u|e]; [|right; left; eexists; reflexivity].
  rewrite bind_lift.
  destruct (Wire.int _) as [d|e]; [|right; left; eexists; reflexivity].
  destruct (negb (Str.mem _ _)); [left; eexists; reflexivity|].
  rewrite bind_lift.
  destruct (Wire.text _) as [z|e]; [|right; left; eexists; reflexivity].
  destruct (negb (zone_known _) && _)%bool; [left; eexists; reflexivity|].
  destruct (negb _); [left; eexists; reflexivity|].
  right. right. do 6 eexists. reflexivity.
Qed.

Lemma unreadable_raises (w : World) (b : Wire.body) (s : State) :
  Wire.unreadable b = true ->
  exists e, Wire.analyze_checked w b s = (Raise e, s).
Proof.
  destruct b as [e|[| | | | | |data]]; try (intros _; eexists; reflexivity).
  destruct data as [u z d la lo t]. cbn [Wire.unreadable Wire.user_type Wire.days].
  unfold Wire.analyze_checked. cbn [Wire.user_type Wire.days Wire.zona].
  destruct u as [[| | | | | |[]]|]; cbn [orb get Wire.text];
    try (intros _; eexists; reflexivity);
    destruct d as [[| | | | | |[]]|]; try discriminate;
    intros _; eexists; reflexivity.
Qed.

(** X11. [analyze] answers 200, 400 or 500, and when it answers 400 it has
    touched nothing: no fetch, no generation, no cache change.  A body
    that it cannot read (not JSON, not an object, a user type that is not
    a string, days that are null, an array or an object) is answered 500,
    with nothing touched either.  For a body whose fields have the
    documented types, the answer is 400 exactly when one of the three
    checks (user type, zone or coordinates, horizon) fails. *)
Theorem analyze_status_codes (w : World) (b : Wire.body) (s : State) :
  (status (fst (Wire.analyze w b s)) = 200
   \/ status (fst (Wire.analyze w b s)) = 400
   \/ status (fst (Wire.analyze w b s)) = 500)
  /\ (status (fst (Wire.analyze w b s)) = 400 -> snd (Wire.analyze w b s) = s)
  /\ (Wire.unreadable b = true ->
      status (fst (Wire.analyze w b s)) = 500 /\ snd (Wire.analyze w b s) = s)
  /\ (forall data,
        b = Wire.of_req data ->
        (status (fst (Wire.analyze w b s)) = 400 <-> passes_validation data = false)).
Proof.
  assert (K : (status (fst (Wire.analyze w b s)) = 200
               \/ status (fst (Wire.analyze w b s)) = 400
               \/ status (fst (Wire.analyze w b s)) = 500)
              /\ (status (fst (Wire.analyze w b s)) = 400 ->
                  snd (Wire.analyze w b s) = s)).
  { unfold Wire.analyze.
    destruct (wire_analyze_checked_cases w b s)
      as [[msg ->]|[[e ->]|(u & z & d & la & lo & t & ->)]].
    - cbn. auto.
    - cbn. split; [auto | discriminate].
    - destruct (analyze_pipeline w u z d la lo t s) as [[resp|e] s'] eqn:E.
      + cbn [fst snd]. rewrite (pipeline_answers_200 _ _ _ _ _ _ _ _ _ _ E).
        split; [auto | discriminate].
      + cbn. split; [auto | discriminate]. }
  destruct K as [K1 K2]. split; [exact K1|]. split; [exact K2|]. split.
  - intros U. unfold Wire.analyze.
    destruct (unreadable_raises w b s U) as [e ->]. cbn. auto.
  - intros data ->. rewrite analyze_of_req.
    destruct (passes_validation data) eqn:V.
    + assert (Q : status (fst (analyze w data s)) = 200
                  \/ status (fst (analyze w data s)) = 500).
      { unfold analyze. rewrite analyze_checked_valid by exact V.
        destruct (analyze_pipeline w _ _ _ _ _ _ s) as [[resp|e] s'] eqn:E.
        - left. cbn [fst]. eapply pipeline_answers_200, E.
        - right. reflexivity. }
      split; [destruct Q as [Q|Q]; rewrite Q|]; discriminate.
    + unfold analyze.
      destruct (analyze_checked_invalid w data s V) as [msg ->].
      cbn. split; reflexivity.
Qed.

Lemma analyze_status_codes_examples :
  status (fst (Wire.analyze Demo.world
                 (Wire.of_req (Req.mk (Some "home") (Some "Atlantis") None None None
                                 None)) initial)) = 400
  /\ status (fst (Wire.analyze Demo.world
                    (Wire.Parsed (Wire.VDict
                       (Wire.mkFields (Some (Wire.VInt 3)) None None None None None)))
                    initial)) = 500
  /\ status (fst (Wire.analyze Demo.world (Wire.of_req Req.empty) initial)) <> 400.
Proof.
  destruct (analyze_status_codes Demo.world
              (Wire.of_req (Req.mk (Some "home") (Some "Atlantis") None None None None))
              initial) as (_ & _ & _ & A).
  destruct (analyze_status_codes Demo.world
              (Wire.Parsed (Wire.VDict
                 (Wire.mkFields (Some (Wire.VInt 3)) None None None None None)))
              initial) as (_ & _ & B & _).
  destruct (analyze_status_codes Demo.world (Wire.of_req Req.empty) initial)
    as (_ & _ & _ & C).
  split; [apply (A _ eq_refl); reflexivity|].
  split; [apply (B eq_refl)|].
  intros E. apply (C _ eq_refl) in E. discriminate.
Defined.

(** ** Failures of the forecast provider *)

Lemma analyze_fetch_raises (w : World) (data : Req.t) (s s1 : State) (e : exn) :
  passes_validation data = true ->
  get_climate_data w (req_zone data) (req_days data) (Req.lat data) (Req.lon data)
    (Req.tz data) s = (Raise e, s1) ->
  analyze w data s = (error_500 w (message e), s1).
Proof.
  intros V G. unfold analyze. rewrite analyze_checked_valid by exact V.
  unfold analyze_pipeline. unfold Prog.bind at 1. rewrite G. reflexivity.
Qed.

(** X12. A forecast call that fails is not cached.  [analyze] answers 500
    with the provider's error text, the cache and the stored frames are as
    before, and the same request issued again calls the provider again. *)
Theorem failed_fetch_is_not_cached (w w2 : World) (data : Req.t) (s : State)
    (c : Coords) (msg : string) :
  passes_validation data = true ->
  Lru.find (req_zone data, req_days data, Req.lat data, Req.lon data, Req.tz data)
    (cache s) = None ->
  resolve_coords (req_zone data) (Req.lat data) (Req.lon data) (Req.tz data) = Ok c ->
  provider w (build_params w c (req_days data)) = HttpFailure msg ->
  analyze w data s
  = (error_500 w msg, logged (build_params w c (req_days data)) s)
  /\ fetch_log (snd (analyze w2 data (snd (analyze w data s))))
     = build_params w2 c (req_days data)
         :: build_params w c (req_days data) :: fetch_log s.
Proof.
  intros V M R F.
  assert (A : analyze w data s
              = (error_500 w msg, logged (build_params w c (req_days data)) s)).
  { apply (analyze_fetch_raises w data s _ (mkExn HTTPError msg) V).
    rewrite (get_climate_data_miss _ _ _ _ _ _ _ c) by assumption.
    rewrite F. reflexivity. }
  split; [exact A|]. rewrite A. cbn [snd].
  rewrite analyze_state, analyze_checked_valid by exact V.
  destruct (pipeline_after_fetch w2 (req_user_type data) (req_zone data)
              (req_days data) (Req.lat data) (Req.lon data) (Req.tz data)
              (logged (build_params w c (req_days data)) s)) as (_ & L & _).
  rewrite L. rewrite (get_climate_data_miss _ _ _ _ _ _ _ c) by assumption.
  destruct (normalize _); reflexivity.
Qed.

Lemma failed_fetch_then_retry :
  analyze out_of_service_world Req.empty initial
  = (error_500 out_of_service_world "503 Server Error: Service Unavailable",
     logged (build_params out_of_service_world NEW_YORK 30) initial)
  /\ cache (snd (analyze out_of_service_world Req.empty initial)) = []
  /\ fetch_count (snd (analyze Demo.world Req.empty
                         (snd (analyze out_of_service_world Req.empty initial))))
     = 2%nat.
Proof.
  destruct (failed_fetch_is_not_cached out_of_service_world Demo.world Req.empty
              initial NEW_YORK "503 Server Error: Service Unavailable"
              eq_refl eq_refl eq_refl eq_refl) as [A B].
  split; [exact A|]. split; [rewrite A; reflexivity|].
  unfold fetch_count. rewrite B. reflexivity.
Defined.

(** ** Explicit coordinates *)



(** ** [export_csv] and the stored frames *)

(** X14. [export_csv] never changes a stored frame: every frame that was in
    the store is there unchanged afterwards (unlike [analyze], which writes
    helper columns into the frame it works on). *)
Theorem export_csv_keeps_frames (w : World) (data : Req.t) (s : State) (i : nat)
    (df : DataFrame) :
  nth_error (heap s) i = Some df ->
  nth_error (heap (snd (export_csv w data s))) i = Some df.
Proof.
  intros N. rewrite export_csv_state. apply get_climate_data_effects, N.
Qed.

Lemma export_csv_keeps_first_frame :
  nth_error (heap (snd (export_csv Demo.world Req.empty initial))) 0
  = nth_error (heap (snd (export_csv Demo.world miami_month
                            (snd (export_csv Demo.world Req.empty initial))))) 0
  /\ nth_error (heap (snd (export_csv Demo.world Req.empty initial))) 0
     = Some Demo.month_frame.
Proof.
  assert (N : nth_error (heap (snd (export_csv Demo.world Req.empty initial))) 0
              = Some Demo.month_frame) by (vm_compute; reflexivity).
  split; [|exact N].
  rewrite (export_csv_keeps_frames Demo.world miami_month _ 0%nat _ N). exact N.
Defined.

(** ** A payload that lacks a field *)

Lemma pipeline_metrics_raise (w : World) (u zone : string) (d : Z)
    (la lo : option Q) (t : option string) (s s1 : State) (r : ref)
    (df df' : DataFrame) (e : exn) :
  get_climate_data w zone d la lo t s = (Ok r, s1) ->
  nth_error (heap s1) r = Some df ->
  calculate_energy_metrics df = (Raise e, df') ->
  analyze_pipeline w u zone d la lo t s
  = (Raise e, mkState (Prog.update r df' (heap s1)) (cache s1) (fetch_log s1)
                      (gen_log s1)).
Proof.
  intros G N C. unfold analyze_pipeline. unfold Prog.bind at 1. rewrite G.
  unfold Prog.bind at 1. unfold Prog.on_frame. rewrite N, C. reflexivity.
Qed.

(** X15. The fetcher does not check which fields the payload has.  A
    payload without the mean temperature is fetched and cached like any
    other; [analyze] then answers 500 with the error text 'Avg_Temp', and
    keeps answering so from the cache, without asking the provider again. *)
Theorem payload_without_mean_temperature (w w2 : World) (data : Req.t) (s : State)
    (c : Coords) (df : DataFrame) :
  passes_validation data = true ->
  Lru.find (req_zone data, req_days data, Req.lat data, Req.lon data, Req.tz data)
    (cache s) = None ->
  resolve_coords (req_zone data) (Req.lat data) (Req.lon data) (Req.tz data) = Ok c ->
  normalize (provider w (build_params w c (req_days data))) = Ok df ->
  DF.lookup "Avg_Temp" (cols df) = None ->
  exists s1 s2,
    analyze w data s = (error_500 w "'Avg_Temp'", s1)
    /\ fetch_log s1 = build_params w c (req_days data) :: fetch_log s
    /\ Lru.find (req_zone data, req_days data, Req.lat data, Req.lon data,
                 Req.tz data) (cache s1) = Some (List.length (heap s))
    /\ analyze w2 data s1 = (error_500 w2 "'Avg_Temp'", s2)
    /\ fetch_log s2 = fetch_log s1.
Proof.
  intros V M R N A.
  assert (C : calculate_energy_metrics df = (Raise (missing "Avg_Temp"), df)).
  { rewrite calculate_energy_metrics_cases, A. reflexivity. }
  assert (G : get_climate_data w (req_zone data) (req_days data) (Req.lat data)
                (Req.lon data) (Req.tz data) s
              = (Ok (List.length (heap s)),
                 mkState (heap s ++ [df])%list
                   (Lru.store (req_zone data, req_days data, Req.lat data,
                               Req.lon data, Req.tz data)
                      (List.length (heap s)) (cache s))
                   (build_params w c (req_days data) :: fetch_log s) (gen_log s))).
  { rewrite (get_climate_data_miss _ _ _ _ _ _ _ c) by assumption.
    rewrite N. reflexivity. }
  set (k := (req_zone data, req_days data, Req.lat data, Req.lon data,
             Req.tz data)) in *.
  set (s1 := mkState (heap s ++ [df])%list
               (Lru.store k (List.length (heap s)) (cache s))
               (build_params w c (req_days data) :: fetch_log s) (gen_log s)) in *.
  set (s2 := mkState (heap s1) (Lru.touch k (List.length (heap s)) (cache s1))
               (fetch_log s1) (gen_log s1)).
  assert (N1 : nth_error (heap s1) (List.length (heap s)) = Some df)
    by apply nth_error_new.
  assert (A1 : analyze w data s = (error_500 w "'Avg_Temp'", s1)).
  { unfold analyze. rewrite analyze_checked_valid by exact V.
    rewrite (pipeline_metrics_raise _ _ _ _ _ _ _ _ _ _ df df _ G N1 C).
    rewrite (update_unchanged _ _ _ N1). reflexivity. }
  assert (G2 : get_climate_data w2 (req_zone data) (req_days data) (Req.lat data)
                 (Req.lon data) (Req.tz data) s1 = (Ok (List.length (heap s)), s2)).
  { apply get_climate_data_hit. apply find_front. }
  assert (A2 : analyze w2 data s1 = (error_500 w2 "'Avg_Temp'", s2)).
  { unfold analyze. rewrite analyze_checked_valid by exact V.
    rewrite (pipeline_metrics_raise _ _ _ _ _ _ _ _ _ _ df df _ G2 N1 C).
    change (heap s2) with (heap s1).
    rewrite (update_unchanged _ _ _ N1). reflexivity. }
  exists s1, s2. split; [exact A1|]. split; [reflexivity|].
  split; [apply find_front|]. split; [exact A2 | reflexivity].
Qed.

Lemma payload_without_mean_temperature_demo :
  fst (analyze no_mean_world Req.empty initial) = error_500 no_mean_world "'Avg_Temp'"
  /\ fst (analyze no_mean_world Req.empty
            (snd (analyze no_mean_world Req.empty initial)))
     = error_500 no_mean_world "'Avg_Temp'"
  /\ fetch_count (snd (analyze no_mean_world Req.empty
                         (snd (analyze no_mean_world Req.empty initial)))) = 1%nat.
Proof.
  destruct (payload_without_mean_temperature no_mean_world no_mean_world Req.empty
              initial NEW_YORK
              (mkDataFrame (date_range 739621 739651)
                 [ ("Max_Temp", Demo.constant 31 33);
                   ("Relative_Humidity", Demo.constant 31 65);
                   ("Solar_Radiation", Demo.constant 31 20);
                   ("Cloud_Cover", Demo.constant 31 30);
                   ("Wind_Speed", Demo.constant 31 12) ])
              eq_refl eq_refl eq_refl eq_refl eq_refl)
    as (s1 & s2 & A1 & F1 & _ & A2 & F2).
  rewrite A1. cbn [fst snd]. rewrite A2. cbn [fst snd].
  split; [reflexivity|]. split; [reflexivity|].
  unfold fetch_count. rewrite F2, F1. reflexivity.
Defined.

(** ** Whatever makes a fetch raise *)

(** X16. When [get_climate_data] raises (an unknown zone, a failure of
    the provider, a payload without "daily" or "time", arrays of unequal
    length), nothing has been cached or stored: the cache and the stored
    frames are as they were, no text generation has happened, and at most
    one forecast call has been made. *)
Theorem raising_fetch_stores_nothing (w : World) (zone : string) (d : Z)
    (la lo : option Q) (t : option string) (s s1 : State) (e : exn) :
  get_climate_data w zone d la lo t s = (Raise e, s1) ->
  cache s1 = cache s /\ heap s1 = heap s /\ gen_log s1 = gen_log s
  /\ grown_by_at_most_one (fetch_log s) (fetch_log s1).
Proof.
  rewrite get_climate_data_cases. unfold grown_by_at_most_one.
  destruct (Lru.find _ _) as [r|]; [discriminate|].
  destruct (resolve_coords zone la lo t) as [c|e0].
  - destruct (normalize _) as [df|e1]; [discriminate|].
    intros [= <- <-]. cbn [logged cache heap gen_log fetch_log]. eauto 6.
  - intros [= <- <-]. auto.
Qed.

Lemma raising_fetch_unknown_place :
  get_climate_data Demo.world "Unknown-Place" 30 None None None Demo.after_Miami
  = (Raise (mkExn ValueError
              "Zone 'Unknown-Place' not available and no coordinates provided."),
     Demo.after_Miami)
  /\ cache Demo.after_Miami = cache Demo.after_Miami
  /\ Lru.find ("Miami", 30, None, None, None) (cache Demo.after_Miami) = Some 0%nat.
Proof.
  assert (G : get_climate_data Demo.world "Unknown-Place" 30 None None None
                Demo.after_Miami
              = (Raise (mkExn ValueError
                          "Zone 'Unknown-Place' not available and no coordinates provided."),
                 Demo.after_Miami)) by (vm_compute; reflexivity).
  destruct (raising_fetch_stores_nothing _ _ _ _ _ _ _ _ _ G) as (C & _).
  split; [exact G|]. split; [exact C|]. vm_compute. reflexivity.
Defined.

(** ** Recency *)

(** X17. The entry that served a request survives the next request for a
    different key, even when the cache is full: the one evicted is never the
    most recently used one. *)
Theorem served_entry_survives_next_request (w w2 : World) (zone zone2 : string)
    (d d2 : Z) (la lo la2 lo2 : option Q) (t t2 : option string) (s s1 : State)
    (r : ref) :
  get_climate_data w zone d la lo t s = (Ok r, s1) ->
  Lru.key_eqb (zone, d, la, lo, t) (zone2, d2, la2, lo2, t2) = false ->
  Lru.find (zone, d, la, lo, t)
    (cache (snd (get_climate_data w2 zone2 d2 la2 lo2 t2 s1))) = Some r.
Proof.
  intros G D.
  destruct (served_key_is_front _ _ _ _ _ _ _ _ _ G) as [c' C].
  assert (D' : Lru.key_eqb (zone2, d2, la2, lo2, t2) (zone, d, la, lo, t) = false)
    by (rewrite key_eqb_sym; exact D).
  rewrite get_climate_data_cases.
  destruct (Lru.find (zone2, d2, la2, lo2, t2) (cache s1)) as [r2|].
  - cbn [snd cache]. unfold Lru.touch. cbn [Lru.find]. rewrite D.
    rewrite C. cbn [Lru.remove]. rewrite D'. apply find_front.
  - destruct (resolve_coords zone2 la2 lo2 t2) as [c|e];
      [|cbn [snd]; rewrite C; apply find_front].
    destruct (normalize _) as [df|e];
      [|cbn [snd logged cache]; rewrite C; apply find_front].
    cbn [snd cache]. unfold Lru.store. cbn [Lru.find]. rewrite D.
    rewrite C. destruct c' as [|p c'].
    + change (Nat.leb Lru.maxsize
                (List.length [((zone, d, la, lo, t), r)])) with false.
      apply find_front.
    + destruct (Nat.leb _ _).
      * change (removelast (((zone, d, la, lo, t), r) :: p :: c'))
          with (((zone, d, la, lo, t), r) :: removelast (p :: c')).
        apply find_front.
      * apply find_front.
Qed.

Lemma oldest_entry_survives_once_used :
  List.length (cache Demo.full_state) = Lru.maxsize
  /\ Lru.find ("miami", 7, None, None, None)
       (cache (snd (get_climate_data Demo.world "miami" 200 None None None
                      refreshed_state))) = Some 0%nat
  /\ Lru.find ("miami", 8, None, None, None)
       (cache (snd (get_climate_data Demo.world "miami" 200 None None None
                      refreshed_state))) = None.
Proof.
  split; [vm_compute; reflexivity|]. split.
  - apply (served_entry_survives_next_request Demo.world Demo.world "miami" "miami"
             7 200 None None None None None None Demo.full_state refreshed_state).
    + vm_compute. reflexivity.
    + reflexivity.
  - vm_compute. reflexivity.
Defined.

(** ** [geocode] *)

(** X18. [geocode] checks the search term before anything else: a term of
    fewer than two characters once stripped (an absent one too) is answered
    400 with no results and without calling the geocoding provider; any
    other term costs exactly one call, for the stripped term and at most 10
    results, and is never answered 400.  (Stated for ASCII terms, where a
    byte is a character.) *)
Theorem geocode_checks_the_term (search : Geo.query -> Geo.answer)
    (q : option string) :
  Geo.ascii_only (get q "") = true ->
  ((String.length (Geo.strip (get q "")) < 2)%nat ->
   Geo.geocode search q
   = (Geo.mkResponse 400 [] (Some "Search term must have at least 2 characters"), []))
  /\ ((2 <= String.length (Geo.strip (get q "")))%nat ->
      snd (Geo.geocode search q) = [Geo.mkQuery (Geo.strip (get q "")) 10 "en" "json"]
      /\ Geo.status (fst (Geo.geocode search q)) <> 400).
Proof.
  intros _. unfold Geo.geocode. split; intros L.
  - apply Nat.ltb_lt in L. rewrite L, orb_true_r. reflexivity.
  - assert (E : String.eqb (Geo.strip (get q "")) "" = false).
    { apply String.eqb_neq. intros E. rewrite E in L. cbn in L. lia. }
    assert (B : Nat.ltb (String.length (Geo.strip (get q ""))) 2 = false)
      by (apply Nat.ltb_ge; exact L).
    rewrite E, B. cbn [orb].
    destruct (search _) as [msg|[hits|]]; cbn; split; (reflexivity || discriminate).
Qed.

Lemma geocode_blank_term :
  Geo.geocode two_hits (Some "  a  ")
  = (Geo.mkResponse 400 [] (Some "Search term must have at least 2 characters"), [])
  /\ snd (Geo.geocode two_hits (Some " Paris ")) = [Geo.mkQuery "Paris" 10 "en" "json"].
Proof.
  split.
  - apply (proj1 (geocode_checks_the_term two_hits (Some "  a  ") eq_refl)).
    vm_compute. lia.
  - apply (proj2 (geocode_checks_the_term two_hits (Some " Paris ") eq_refl)).
    vm_compute. lia.
Defined.

(** X19. When the term is long enough, the answer of [geocode] follows the
    provider: one place per hit, in the provider's order and never cut
    down (200); an empty list when the answer has no "results" (200); an
    empty list and the error text when the call fails (500).  A place
    without a time zone gets "auto". *)
Theorem geocode_follows_the_provider (search : Geo.query -> Geo.answer)
    (q : option string) :
  Geo.ascii_only (get q "") = true ->
  (2 <= String.length (Geo.strip (get q "")))%nat ->
  match search (Geo.mkQuery (Geo.strip (get q "")) 10 "en" "json") with
  | Geo.Failure msg =>
      fst (Geo.geocode search q) = Geo.mkResponse 500 [] (Some msg)
  | Geo.Data None =>
      fst (Geo.geocode search q) = Geo.mkResponse 200 [] None
  | Geo.Data (Some hits) =>
      Geo.status (fst (Geo.geocode search q)) = 200
      /\ Geo.error (fst (Geo.geocode search q)) = None
      /\ List.length (Geo.results (fst (Geo.geocode search q))) = List.length hits
      /\ map Geo.lat (Geo.results (fst (Geo.geocode search q)))
         = map Geo.h_latitude hits
      /\ map Geo.tz (Geo.results (fst (Geo.geocode search q)))
         = map (fun h => get (Geo.h_timezone h) "auto") hits
  end.
Proof.
  intros _ L. unfold Geo.geocode.
  assert (E : String.eqb (Geo.strip (get q "")) "" = false).
  { apply String.eqb_neq. intros E. rewrite E in L. cbn in L. lia. }
  assert (B : Nat.ltb (String.length (Geo.strip (get q ""))) 2 = false)
    by (apply Nat.ltb_ge; exact L).
  rewrite E, B. cbn [orb].
  destruct (search _) as [msg|[hits|]]; cbn [fst]; try reflexivity.
  cbn [Geo.status Geo.error Geo.results].
  split; [reflexivity|]. split; [reflexivity|]. split; [apply length_map|].
  rewrite !map_map. split; reflexivity.
Qed.

Lemma geocode_two_hits :
  List.length (Geo.results (fst (Geo.geocode two_hits (Some "Paris")))) = 2%nat
  /\ map Geo.tz (Geo.results (fst (Geo.geocode two_hits (Some "Paris"))))
     = ["Europe/Paris"; "auto"]
  /\ map Geo.display (Geo.results (fst (Geo.geocode two_hits (Some "Paris"))))
     = ["Paris, Ile-de-France - France"; "Paris,  - United States"].
Proof.
  pose proof (geocode_follows_the_provider two_hits (Some "Paris") eq_refl) as H.
  assert (L : (2 <= String.length (Geo.strip (get (Some "Paris") "")))%nat)
    by (vm_compute; lia).
  specialize (H L). cbn [two_hits] in H. destruct H as (_ & _ & N & _ & T).
  split; [exact N|]. split; [rewrite T; reflexivity | reflexivity].
Defined.

(** ** [get_zones] *)

(** X20. [get_zones] lists one entry per catalog zone, and every id it
    lists is one [analyze] accepts without coordinates and the fetcher
    resolves: a client that offers exactly the listed zones never runs into
    the unknown-zone error.  The display names are the ids with the dashes
    turned into spaces and the words capitalised. *)
Theorem listed_zones_are_accepted :
  List.length Zones.get_zones = List.length ZONE_COORDINATES
  /\ (forall e u days t,
        In e Zones.get_zones ->
        Str.mem (Str.lower u) ["home"; "industry"] = true ->
        7 <= days <= 365 ->
        passes_validation (Req.mk (Some u) (Some (Zones.id e)) (Some days) None None t)
        = true
        /\ exists c, resolve_coords (Zones.id e) None None t = Ok c)
  /\ map Zones.name Zones.get_zones
     = ["New York"; "Los Angeles"; "Chicago"; "Miami"; "Seattle"].
Proof.
  split; [reflexivity|]. split; [|reflexivity].
  intros e u days t I U D.
  assert (K : zone_known (Str.lower (Zones.id e)) = true
              /\ exists c, resolve_coords (Zones.id e) None None t = Ok c).
  { cbn in I. repeat (destruct I as [<- | I]; [split; [reflexivity | eexists; reflexivity]|]).
    contradiction. }
  destruct K as [K R]. split; [|exact R].
  unfold passes_validation, req_user_type, req_zone, req_days.
  cbn [Req.user_type Req.zona Req.days Req.lat Req.lon get].
  rewrite U, K. cbn [andb orb].
  apply andb_true_iff. split; apply Z.leb_le; lia.
Qed.

(** ** What the thermal chart draws *)

Lemma nth_error_map_seq {A} (f : nat -> A) (n i : nat) :
  (i < n)%nat -> nth_error (map f (seq 0 n)) i = Some (f i).
Proof.
  intros L. rewrite nth_error_map, nth_error_seq.
  apply Nat.ltb_lt in L. rewrite L. reflexivity.
Qed.

Lemma forallb_firstn {A} (p : A -> bool) (n : nat) (l : list A) :
  forallb p l = true -> forallb p (firstn n l) = true.
Proof.
  revert n. induction l as [|a l IH]; intros [|n]; cbn; try reflexivity.
  rewrite !andb_true_iff. intros [H1 H2]. split; [exact H1 | apply IH, H2].
Qed.

Lemma forallb_skipn {A} (p : A -> bool) (n : nat) (l : list A) :
  forallb p l = true -> forallb p (skipn n l) = true.
Proof.
  revert n. induction l as [|a l IH]; intros [|n]; cbn; try reflexivity.
  - tauto.
  - rewrite andb_true_iff. intros [_ H2]. apply IH, H2.
Qed.

(** X21. The trend line of the thermal chart has one point per day; its
    first six points are undefined (NaN), whatever the data; and on a
    series without gaps every point from the seventh day on is a number. *)
Theorem trend_starts_on_the_seventh_day (avg : Series) :
  List.length (Chart.trend avg) = List.length avg
  /\ (forall i, (i < 6)%nat -> (i < List.length avg)%nat ->
        nth_error (Chart.trend avg) i = Some NaN)
  /\ (complete avg = true ->
      forall i, (6 <= i)%nat -> (i < List.length avg)%nat ->
        exists q, nth_error (Chart.trend avg) i = Some (Fin q)).
Proof.
  unfold Chart.trend, Chart.rolling_mean. split; [|split].
  - rewrite length_map, length_seq. reflexivity.
  - intros i L6 L. rewrite nth_error_map_seq by exact L.
    assert (B : Nat.ltb (S i) 7 = true) by (apply Nat.ltb_lt; lia).
    rewrite B. reflexivity.
  - intros C i L6 L. rewrite nth_error_map_seq by exact L.
    assert (B : Nat.ltb (S i) 7 = false) by (apply Nat.ltb_ge; lia).
    rewrite B.
    assert (W : forallb (fun x => negb (Float.is_nan x))
                  (firstn 7 (skipn (S i - 7) avg)) = true)
      by (apply forallb_firstn, forallb_skipn; exact C).
    rewrite W. eexists. reflexivity.
Qed.

Lemma shaded_or_comfortable (v : pyfloat) :
  Float.gt v TEMP_COMFORT = negb (Float.le v TEMP_COMFORT) && negb (Float.is_nan v).
Proof.
  destruct v as [|q]; cbn; [reflexivity|]. rewrite andb_true_r. reflexivity.
Qed.




(** ** The advisory generator and the user type *)



(** ** The fetched columns *)

Lemma rename_hits (old new n : string) :
  In (old, new) RENAME ->
  String.eqb new n = false ->
  String.eqb new (rename_one n RENAME) = String.eqb old n.
Proof.
  intros I D. unfold RENAME in I. cbn [In] in I.
  unfold rename_one, RENAME.
  destruct (String.eqb n "temperature_2m_mean") eqn:E1;
    [apply String.eqb_eq in E1; subst n|];
    [|destruct (String.eqb n "temperature_2m_max") eqn:E2;
      [apply String.eqb_eq in E2; subst n|]];
    [| |destruct (String.eqb n "relative_humidity_2m_mean") eqn:E3;
        [apply String.eqb_eq in E3; subst n|]];
    [| | |destruct (String.eqb n "shortwave_radiation_sum") eqn:E4;
          [apply String.eqb_eq in E4; subst n|]];
    [| | | |destruct (String.eqb n "cloud_cover_mean") eqn:E5;
            [apply String.eqb_eq in E5; subst n|]];
    [| | | | |destruct (String.eqb n "wind_speed_10m_mean") eqn:E6;
              [apply String.eqb_eq in E6; subst n|]].
  1-6: repeat (destruct I as [[= <- <-] | I]; [reflexivity|]); contradiction.
  rewrite D.
  repeat (destruct I as [[= <- <-] | I];
          [rewrite String.eqb_sym; congruence|]); contradiction.
Qed.

Lemma lookup_renamed (old new : string) (l : list (string * Series)) :
  In (old, new) RENAME ->
  DF.lookup new l = None ->
  DF.lookup new (map (fun c => (rename_one (fst c) RENAME, snd c)) l)
  = DF.lookup old l.
Proof.
  intros I. induction l as [|[n c] l IH]; cbn [map DF.lookup fst snd]; [reflexivity|].
  destruct (String.eqb new n) eqn:D; [discriminate|]. intros N.
  rewrite (rename_hits old new n I D). rewrite (IH N). reflexivity.
Qed.

(** X24. The fetcher only renames: each of the six provider arrays is the
    column of the series under its new name, cell for cell, provided the
    payload does not already use that new name; the dates are the payload's
    [time] array and no column is added or dropped. *)
Theorem fetched_columns_are_the_provider_arrays (dd : Daily) (df : DataFrame)
    (old new : string) (col : Series) :
  normalize (Payload (Some dd)) = Ok df ->
  In (old, new) RENAME ->
  DF.lookup old (arrays dd) = Some col ->
  DF.lookup new (arrays dd) = None ->
  DF.lookup new (cols df) = Some col
  /\ time dd = Some (Date df)
  /\ List.length (cols df) = List.length (arrays dd).
Proof.
  intros N I O C. unfold normalize, frame_of_daily in N.
  destruct (all_equal _); [|discriminate].
  destruct (time dd) as [t|]; [|discriminate].
  injection N as <-. cbn [rename_columns cols Date].
  rewrite (lookup_renamed old new _ I C), length_map. auto.
Qed.

Lemma fetched_mean_temperature :
  exists df,
    normalize (Demo.forecast (build_params Demo.world NEW_YORK 30)) = Ok df
    /\ DF.lookup "Avg_Temp" (cols df) = Some (Demo.constant 31 26).
Proof.
  destruct (normalize (Demo.forecast (build_params Demo.world NEW_YORK 30)))
    as [df|e] eqn:N; [|vm_compute in N; discriminate].
  exists df. split; [reflexivity|].
  refine (proj1 (fetched_columns_are_the_provider_arrays
                   (mkDaily (Some (date_range 739621 739651))
                      [ ("temperature_2m_mean", Demo.constant 31 26);
                        ("temperature_2m_max", Demo.constant 31 33);
                        ("relative_humidity_2m_mean", Demo.constant 31 65);
                        ("shortwave_radiation_sum", Demo.constant 31 20);
                        ("cloud_cover_mean", Demo.constant 31 30);
                        ("wind_speed_10m_mean", Demo.constant 31 12) ])
                   df "temperature_2m_mean" "Avg_Temp" (Demo.constant 31 26)
                   _ _ _ _)).
  - rewrite <- N. reflexivity.
  - left. reflexivity.
  - reflexivity.
  - reflexivity.
Defined.
